(** * FreshBasket: the cart, the order workflow and the admin operations

    A shallow embedding of [app.py]: the five tables of the relational
    store, the SQLAlchemy session with its commit and rollback, and the
    request handlers of the cart, of checkout and of the admin pages,
    followed by the properties of the specification that they decide.

    Conventions.
    - A table is the list of its rows in primary-key order; [Query.get] is
      a search by [id], [filter_by(...).all()] is [filter].
    - Python [int] is [Z]; a [db.Float] column and a Python [float] are
      binary64 primitive floats; a [str] is the [string] of its UTF-8
      bytes, so that a character outside ASCII takes two to four places.
    - The timestamp columns ([created_at], [updated_at], [order_date],
      [added_at]) are read by none of the modelled handlers and are left
      out of the rows.
    - A handler maps the browser's Flask session and the persisted store to
      a response, the Flask session after the request and the store after
      the request. *)

From Stdlib Require Import ZArith List String Ascii Bool Floats Uint63 Lia.
From Stdlib Require Import DecimalString.
Import ListNotations.

Local Open Scope string_scope.
Local Open Scope Z_scope.

(** ** Strings *)

(** [str(n)] of a Python [int]. *)
Definition str_of_int (n : Z) : string :=
  NilZero.string_of_int (Z.to_int n).

(** The double-quote character of the flash messages that quote a product
    name. *)
Definition dquote : string := String "034"%char EmptyString.

(** [c.lower()] on the letters A to Z, as SQL [lower()] does. *)
Definition lower_ascii (c : ascii) : ascii :=
  let n := nat_of_ascii c in
  if (Nat.leb 65 n && Nat.leb n 90)%bool then ascii_of_nat (n + 32) else c.

Fixpoint lower (s : string) : string :=
  match s with
  | EmptyString => EmptyString
  | String c s' => String (lower_ascii c) (lower s')
  end.

(** SQL [s LIKE p]: in the pattern [%] stands for any run of characters,
    [_] for any one character, every other character for itself.  No
    escape character is in force.  The characters are taken place by
    place, which is exact on ASCII text; SQLite counts a character outside
    ASCII as one where this counts each of its bytes. *)
Fixpoint like (p s : string) : bool :=
  match p with
  | EmptyString => match s with EmptyString => true | String _ _ => false end
  | String c p' =>
      if Ascii.eqb c "%"%char then
        (fix from (t : string) : bool :=
           like p' t ||
           match t with
           | EmptyString => false
           | String _ t' => from t'
           end) s
      else
        match s with
        | EmptyString => false
        | String d s' =>
            (Ascii.eqb c "_"%char || Ascii.eqb c d) && like p' s'
        end
  end.

(** [column.ilike(pattern)]: both sides lowered, then [LIKE]. *)
Definition ilike (column pattern : string) : bool :=
  like (lower pattern) (lower column).

(** ** Numbers *)

(** The conversion of a Python [int] operand of [float * int], for an int
    below 2^63 in absolute value, the range of an Integer column. *)
Definition float_of_int (z : Z) : float :=
  if z <? 0 then PrimFloat.opp (PrimFloat.of_uint63 (Uint63.of_Z (- z)))
  else PrimFloat.of_uint63 (Uint63.of_Z z).

(** [sum(...)] over floats: accumulation from the left, starting at 0.
    The order total and [calculate_total] go through this one function. *)
Definition py_sum (xs : list float) : float :=
  fold_left PrimFloat.add xs 0%float.

(** What a [db.Float] column yields for a float that was written to it.
    SQLite keeps a float that has no fraction as an integer and turns it
    into a float again when it is read, which loses nothing but the sign
    of zero: -0.0 is read as 0.0.  Floats come from outside through the
    price of the two product forms only.  (A NaN is bound as NULL, which
    the NOT NULL column refuses when the commit flushes.) *)
Definition stored_float (x : float) : float :=
  if PrimFloat.eqb x 0 then 0%float else x.

(** ** Data model: the rows of the five tables *)

Module User.
Record t := mk {
  id : Z;
  username : string;
  email : string;
  password_hash : string;
  first_name : option string;
  last_name : option string;
  is_admin : bool
}.

Definition set_is_admin (b : bool) (u : t) : t :=
  mk (id u) (username u) (email u) (password_hash u)
     (first_name u) (last_name u) b.
End User.

Module Product.
Record t := mk {
  id : Z;
  name : string;
  description : option string;
  category : string;
  price : float;
  stock : option Z;          (* nullable Integer column *)
  image_url : option string;
  is_available : bool
}.
End Product.

Module CartItem.
Record t := mk {
  id : Z;
  session_id : string;
  product_id : Z;
  quantity : Z
}.

Definition set_quantity (q : Z) (c : t) : t :=
  mk (id c) (session_id c) (product_id c) q.
End CartItem.

Module Order.
Record t := mk {
  id : Z;
  user_id : Z;
  total_amount : float;
  status : string;
  shipping_address : string;
  notes : string
}.

Definition set_status (s : string) (o : t) : t :=
  mk (id o) (user_id o) (total_amount o) s (shipping_address o) (notes o).
End Order.

Module OrderItem.
Record t := mk {
  id : Z;
  order_id : Z;
  product_id : Z;
  quantity : Z;
  price : float
}.

(** [OrderItem.get_subtotal] *)
Definition get_subtotal (i : t) : float :=
  PrimFloat.mul (price i) (float_of_int (quantity i)).
End OrderItem.

(** ** The relational store *)

Record DB := mkDB {
  users : list User.t;
  products : list Product.t;
  cart_items : list CartItem.t;
  orders : list Order.t;
  order_items : list OrderItem.t
}.

Definition with_users (us : list User.t) (d : DB) : DB :=
  mkDB us (products d) (cart_items d) (orders d) (order_items d).
Definition with_products (ps : list Product.t) (d : DB) : DB :=
  mkDB (users d) ps (cart_items d) (orders d) (order_items d).
Definition with_cart_items (cs : list CartItem.t) (d : DB) : DB :=
  mkDB (users d) (products d) cs (orders d) (order_items d).
Definition with_orders (os : list Order.t) (d : DB) : DB :=
  mkDB (users d) (products d) (cart_items d) os (order_items d).
Definition with_order_items (its : list OrderItem.t) (d : DB) : DB :=
  mkDB (users d) (products d) (cart_items d) (orders d) its.

(** [Model.query.get(id)] *)
Definition get_user (d : DB) (k : Z) : option User.t :=
  find (fun u => User.id u =? k) (users d).
Definition get_product (d : DB) (k : Z) : option Product.t :=
  find (fun p => Product.id p =? k) (products d).
Definition get_cart_item (d : DB) (k : Z) : option CartItem.t :=
  find (fun c => CartItem.id c =? k) (cart_items d).
Definition get_order (d : DB) (k : Z) : option Order.t :=
  find (fun o => Order.id o =? k) (orders d).

(** [CartItem.query.filter_by(session_id=sid).all()] *)
Definition cart_of (d : DB) (sid : string) : list CartItem.t :=
  filter (fun c => String.eqb (CartItem.session_id c) sid) (cart_items d).

(** The relationship [order.items]: the order items that carry the
    order's id. *)
Definition items_of (d : DB) (oid : Z) : list OrderItem.t :=
  filter (fun i => OrderItem.order_id i =? oid) (order_items d).

(** The primary key given to a row inserted into a table whose keys are
    [ids]: one more than the largest key in use. *)
Definition fresh_id (ids : list Z) : Z := 1 + fold_right Z.max 0 ids.

(** An update of the row with primary key [k]. *)
Definition update_row {A} (key : A -> Z) (k : Z) (f : A -> A)
  (rows : list A) : list A :=
  map (fun r => if key r =? k then f r else r) rows.

(** The deletion of the row with primary key [k]. *)
Definition delete_row {A} (key : A -> Z) (k : Z) (rows : list A) : list A :=
  filter (fun r => negb (key r =? k)) rows.

(** ** The SQLAlchemy session

    A request works on the transaction's view [txn] of the store.
    [commit] makes the view the persisted store, [rollback] throws the view
    away.  The INSERTs, UPDATEs and DELETEs that a flush emits are applied
    to the view when the handler asks for them; this is not observable,
    since only [persisted] outlives the request. *)

Record Session := mkSession {
  persisted : DB;
  txn : DB;
  emitted : nat        (* fault points passed so far in this request *)
}.

(** What the environment does to the request: the exception it raises, if
    any, at the k-th fault point (a model constructor or a session
    primitive inside a [try] block), and the value of
    [os.urandom(16).hex()]. *)
Record Env := mkEnv {
  raises : nat -> option string;
  urandom_hex : string
}.

Inductive Outcome (A : Type) : Type :=
| Done (a : A)
| Raised (e : string).
Arguments Done {A} a.
Arguments Raised {A} e.

(** A piece of a [try] block: it runs in a session and either yields a
    value or raises, leaving the session as it was at that point. *)
Definition Work (A : Type) : Type := Session -> Outcome A * Session.

Definition ret {A} (a : A) : Work A := fun s => (Done a, s).

Definition bind {A B} (m : Work A) (k : A -> Work B) : Work B :=
  fun s =>
    match m s with
    | (Done a, s') => k a s'
    | (Raised e, s') => (Raised e, s')
    end.

Notation "x <- m ;; k" := (bind m (fun x => k))
  (at level 61, m at next level, right associativity).
Notation "m ;; k" := (bind m (fun _ => k))
  (at level 61, right associativity).

Definition raise {A} (e : string) : Work A := fun s => (Raised e, s).

Definition read {A} (f : DB -> A) : Work A := fun s => (Done (f (txn s)), s).

Definition modify (f : DB -> DB) : Work unit :=
  fun s => (Done tt, mkSession (persisted s) (f (txn s)) (emitted s)).

Fixpoint mapM {A B} (f : A -> Work B) (xs : list A) : Work (list B) :=
  match xs with
  | [] => ret []
  | x :: xs' => y <- f x ;; ys <- mapM f xs' ;; ret (y :: ys)
  end.

Fixpoint forM_ {A} (xs : list A) (f : A -> Work unit) : Work unit :=
  match xs with
  | [] => ret tt
  | x :: xs' => f x ;; forM_ xs' f
  end.

Definition begin (d : DB) : Session := mkSession d d 0.

(** [db.session.rollback()] *)
Definition session_rollback (s : Session) : Session :=
  mkSession (persisted s) (persisted s) (emitted s).

Section Primitives.
Variable env : Env.

Definition fault_point : Work unit :=
  fun s =>
    let s' := mkSession (persisted s) (txn s) (S (emitted s)) in
    match raises env (emitted s) with
    | Some e => (Raised e, s')
    | None => (Done tt, s')
    end.

(** [db.session.add(cart_item)] for a new cart item. *)
Definition session_add_cart_item (sid : string) (pid q : Z) : Work unit :=
  fault_point ;;
  modify (fun d =>
    let k := fresh_id (map CartItem.id (cart_items d)) in
    with_cart_items (cart_items d ++ [CartItem.mk k sid pid q])%list d).

(** The INSERT of one order item of the order [oid], given as its
    (product_id, quantity, price). *)
Definition insert_order_item (oid : Z) (item : Z * Z * float) (d : DB) : DB :=
  let '(pid, q, pr) := item in
  let k := fresh_id (map OrderItem.id (order_items d)) in
  with_order_items (order_items d ++ [OrderItem.mk k oid pid q pr])%list d.

(** [db.session.add(order)] for a new order whose [items] are the given
    (product_id, quantity, price) triples, in order.  The order gets the
    column default ['pending'] as status, the items get the order's id.
    Yields the order's id. *)
Definition session_add_order (uid : Z) (addr notes : string)
  (total : float) (items : list (Z * Z * float)) : Work Z :=
  fault_point ;;
  oid <- read (fun d => fresh_id (map Order.id (orders d))) ;;
  modify (fun d =>
    with_orders
      (orders d ++ [Order.mk oid uid total "pending" addr notes])%list d) ;;
  forM_ items (fun item => modify (insert_order_item oid item)) ;;
  ret oid.

(** [db.session.flush()] *)
Definition session_flush : Work unit := fault_point.

(** [db.session.delete(cart_item)] *)
Definition session_delete_cart_item (c : CartItem.t) : Work unit :=
  fault_point ;;
  modify (fun d =>
    with_cart_items (delete_row CartItem.id (CartItem.id c) (cart_items d)) d).

(** [db.session.commit()] *)
Definition session_commit : Work unit :=
  fault_point ;;
  fun s => (Done tt, mkSession (txn s) (txn s) (emitted s)).

(** A [try] block with its [except Exception: db.session.rollback()],
    run on the persisted store [d]; what it leaves persisted. *)
Definition try_except {A} (body : Work A) (d : DB) : Outcome A * DB :=
  match body (begin d) with
  | (Done a, s) => (Done a, persisted s)
  | (Raised e, s) => (Raised e, persisted (session_rollback s))
  end.
End Primitives.

(** The relationship [cart_item.product], and the [AttributeError] of an
    attribute read on [None]. *)
Definition product_of (c : CartItem.t) : Work Product.t :=
  p <- read (fun d => get_product d (CartItem.product_id c)) ;;
  match p with
  | Some p => ret p
  | None => raise "'NoneType' object has no attribute 'price'"
  end.

(** [CartItem.get_subtotal] *)
Definition get_subtotal (c : CartItem.t) : Work float :=
  p <- product_of c ;;
  ret (PrimFloat.mul (Product.price p) (float_of_int (CartItem.quantity c))).

(** [Order.calculate_total] *)
Definition calculate_total (d : DB) (o : Order.t) : float :=
  py_sum (map OrderItem.get_subtotal (items_of d (Order.id o))).

(** ** Requests and responses *)

(** The part of the signed session cookie that the handlers read: the cart
    token and, once logged in, the user's id. *)
Record FlaskSession := mkFlaskSession {
  cart_session : option string;
  login_id : option Z
}.

Inductive Method := GET | POST.

(** The targets of [redirect(url_for(...))]. *)
Inductive Endpoint :=
| home
| login
| view_cart
| checkout_page
| product_detail (product_id : Z)
| order_confirmation_page (order_id : Z)
| admin_products
| admin_order_detail (order_id : Z)
| admin_users.

(** The templates rendered by the modelled handlers, with their context. *)
Inductive View :=
| products_html (products : list Product.t) (categories : list string)
    (selected_category search_term : string)
| checkout_html (cart_items : list CartItem.t) (total : float)
| order_confirmation_html (order : Order.t)
| admin_edit_product_html (product : Product.t).

(** [flash(message, category)] *)
Definition Flash : Type := string * string.

Inductive Response :=
| Abort404                                       (* get_or_404 *)
| Error500                                       (* unhandled exception *)
| Redirect (flashes : list Flash) (target : Endpoint)
| Render (flashes : list Flash) (view : View).

(** What [get_or_404(k)] ends the request with when no row has the key
    [k]: a 404.  The key of a route is any natural number, though, and a
    key of the store is a 64-bit integer: for a key of 2^63 or more the
    driver raises OverflowError where it binds the key to the SELECT,
    nothing catches it and the request ends in a 500.  No table holds a
    row of such a key, so the two cases part where the row is missing. *)
Definition no_row (k : Z) : Response :=
  if k <? 2 ^ 63 then Abort404 else Error500.

Definition Reply : Type := Response * FlaskSession * DB.
Definition Handler : Type := FlaskSession -> DB -> Reply.

Definition get_or_else {A} (o : option A) (default : A) : A :=
  match o with Some a => a | None => default end.

(** [current_user]: the user loaded by [load_user] from the id in the
    session cookie. *)
Definition current_user (fs : FlaskSession) (d : DB) : option User.t :=
  match login_id fs with
  | Some k => get_user d k
  | None => None
  end.

(** [@login_required] *)
Definition login_required (f : User.t -> Handler) : Handler :=
  fun fs d =>
    match current_user fs d with
    | Some u => f u fs d
    | None => (Redirect [("Please log in first.", "message")] login, fs, d)
    end.

(** [@admin_required] *)
Definition admin_required (f : User.t -> Handler) : Handler :=
  fun fs d =>
    match current_user fs d with
    | None =>
        (Redirect [("Please log in to access this page.", "error")] login,
         fs, d)
    | Some u =>
        if User.is_admin u then f u fs d
        else
          (Redirect
             [("You do not have permission to access this page.", "error")]
             home, fs, d)
    end.

(** ** Product routes *)

(** SQL [SELECT DISTINCT]: every value once.  SQL leaves the order of the
    values open (SQLite reads them off the index of the column); here it
    is the order of first occurrence, and no property below depends on
    it. *)
Fixpoint distinct (xs : list string) : list string :=
  match xs with
  | [] => []
  | x :: xs' => x :: filter (fun y => negb (String.eqb y x)) (distinct xs')
  end.

(** [Product.name.ilike(pat) | Product.description.ilike(pat)]; a NULL
    description matches nothing. *)
Definition name_or_description_ilike (pat : string) (p : Product.t) : bool :=
  ilike (Product.name p) pat ||
  match Product.description p with
  | Some descr => ilike descr pat
  | None => false
  end.

(** [products()]: the arguments are [request.args.get('category')] and
    [request.args.get('search')] before their defaults. *)
Definition products_view (arg_category arg_search : option string)
  (d : DB) : Response :=
  let category := get_or_else arg_category "all" in
  let search := get_or_else arg_search "" in
  let query := filter Product.is_available (products d) in
  let query :=
    if negb (String.eqb category "all")
    then filter (fun p => String.eqb (Product.category p) category) query
    else query in
  let query :=
    if negb (String.eqb search "")
    then filter (name_or_description_ilike ("%" ++ search ++ "%")) query
    else query in
  let categories := distinct (map Product.category (products d)) in
  Render [] (products_html query categories category search).

(** ** Cart routes *)

Section Handlers.
Variable env : Env.

(** [get_session_id()] *)
Definition get_session_id (fs : FlaskSession) : string * FlaskSession :=
  match cart_session fs with
  | Some tok => (tok, fs)
  | None =>
      (urandom_hex env, mkFlaskSession (Some (urandom_hex env)) (login_id fs))
  end.

(** [add_to_cart(product_id)]; [form_quantity] is
    [request.form.get('quantity', type=int)] before its default 1. *)
Definition add_to_cart (product_id : Z) (form_quantity : option Z)
  : Handler :=
  fun fs d =>
    match get_product d product_id with
    | None => (no_row product_id, fs, d)
    | Some product =>
        let quantity := get_or_else form_quantity 1 in
        let quantity := if quantity <? 1 then 1 else quantity in
        match Product.stock product with
        | None => (Error500, fs, d)      (* int > None: TypeError *)
        | Some stock =>
            if quantity >? stock then
              (Redirect [("Not enough stock available.", "error")]
                 (product_detail product_id), fs, d)
            else
              let (session_id, fs') := get_session_id fs in
              let cart_item :=
                find (fun c =>
                        String.eqb (CartItem.session_id c) session_id &&
                        (CartItem.product_id c =? product_id))
                     (cart_items d) in
              let body :=
                match cart_item with
                | Some c =>
                    modify (fun t =>
                      with_cart_items
                        (update_row CartItem.id (CartItem.id c)
                           (fun r =>
                              CartItem.set_quantity
                                (CartItem.quantity r + quantity) r)
                           (cart_items t)) t)
                | None =>
                    fault_point env ;;              (* CartItem(...) *)
                    session_add_cart_item env session_id product_id quantity
                end ;;
                session_commit env in
              match try_except body d with
              | (Done _, d') =>
                  (Redirect
                     [(Product.name product ++ " added to cart!", "success")]
                     view_cart, fs', d')
              | (Raised e, d') =>
                  (Redirect [("Failed to add to cart: " ++ e, "error")]
                     view_cart, fs', d')
              end
        end
    end.

(** [update_cart_item(cart_item_id)] *)
Definition update_cart_item (cart_item_id : Z) (form_quantity : option Z)
  : Handler :=
  fun fs d =>
    match get_cart_item d cart_item_id with
    | None => (no_row cart_item_id, fs, d)
    | Some cart_item =>
        let quantity := get_or_else form_quantity 1 in
        let quantity := if quantity <? 1 then 1 else quantity in
        match get_product d (CartItem.product_id cart_item) with
        | None => (Error500, fs, d)     (* None.stock: AttributeError *)
        | Some product =>
            match Product.stock product with
            | None => (Error500, fs, d)  (* int > None: TypeError *)
            | Some stock =>
                if quantity >? stock then
                  (Redirect [("Not enough stock available.", "error")]
                     view_cart, fs, d)
                else
                  let body :=
                    modify (fun t =>
                      with_cart_items
                        (update_row CartItem.id cart_item_id
                           (CartItem.set_quantity quantity)
                           (cart_items t)) t) ;;
                    session_commit env in
                  match try_except body d with
                  | (Done _, d') =>
                      (Redirect [("Cart updated.", "success")] view_cart,
                       fs, d')
                  | (Raised e, d') =>
                      (Redirect
                         [("Failed to update cart: " ++ e, "error")]
                         view_cart, fs, d')
                  end
            end
        end
    end.

(** [remove_from_cart(cart_item_id)] *)
Definition remove_from_cart (cart_item_id : Z) : Handler :=
  fun fs d =>
    match get_cart_item d cart_item_id with
    | None => (no_row cart_item_id, fs, d)
    | Some cart_item =>
        match get_product d (CartItem.product_id cart_item) with
        | None => (Error500, fs, d)     (* None.name: AttributeError *)
        | Some product =>
            let product_name := Product.name product in
            let body :=
              session_delete_cart_item env cart_item ;;
              session_commit env in
            match try_except body d with
            | (Done _, d') =>
                (Redirect
                   [(product_name ++ " removed from cart.", "success")]
                   view_cart, fs, d')
            | (Raised e, d') =>
                (Redirect [("Failed to remove item: " ++ e, "error")]
                   view_cart, fs, d')
            end
        end
    end.
End Handlers.

(** ** Order routes *)

Section OrderRoutes.
Variable env : Env.

(** The [try] block of [checkout]; yields [order.id]. *)
Definition place_order (user_id : Z) (cart : list CartItem.t)
  (shipping_address notes : string) : Work Z :=
  subtotals <- mapM get_subtotal cart ;;
  let total_amount := py_sum subtotals in
  fault_point env ;;                                 (* Order(...) *)
  items <- mapM (fun cart_item =>
                   p <- product_of cart_item ;;
                   fault_point env ;;                (* OrderItem(...) *)
                   ret (CartItem.product_id cart_item,
                        CartItem.quantity cart_item,
                        Product.price p)) cart ;;
  order_id <- session_add_order env user_id shipping_address notes
                total_amount items ;;
  session_flush env ;;
  forM_ cart (session_delete_cart_item env) ;;
  session_commit env ;;
  ret order_id.

(** [checkout()]; [shipping_address] and [form_notes] are the form
    fields before their defaults. *)
Definition checkout (method : Method)
  (shipping_address form_notes : option string) : Handler :=
  login_required (fun user fs d =>
    let (session_id, fs') := get_session_id env fs in
    let cart := cart_of d session_id in
    match cart with
    | [] => (Redirect [("Your cart is empty.", "error")] view_cart, fs', d)
    | _ :: _ =>
        match method with
        | POST =>
            let notes := get_or_else form_notes "" in
            match shipping_address with
            | None | Some EmptyString =>
                (Redirect [("Shipping address is required.", "error")]
                   checkout_page, fs', d)
            | Some address =>
                match try_except
                        (place_order (User.id user) cart address notes) d
                with
                | (Done order_id, d') =>
                    (Redirect [("Order placed successfully!", "success")]
                       (order_confirmation_page order_id), fs', d')
                | (Raised e, d') =>
                    (Redirect [("Failed to place order: " ++ e, "error")]
                       checkout_page, fs', d')
                end
            end
        | GET =>
            match mapM get_subtotal cart (begin d) with
            | (Done subtotals, _) =>
                (Render [] (checkout_html cart (py_sum subtotals)), fs', d)
            | (Raised _, _) => (Error500, fs', d)
            end
        end
    end).

(** [order_confirmation(order_id)] *)
Definition order_confirmation (order_id : Z) : Handler :=
  login_required (fun user fs d =>
    match get_order d order_id with
    | None => (no_row order_id, fs, d)
    | Some order =>
        if negb (Order.user_id order =? User.id user) then
          (Redirect
             [("You do not have permission to view this order.", "error")]
             home, fs, d)
        else (Render [] (order_confirmation_html order), fs, d)
    end).
End OrderRoutes.

(** ** Admin routes *)

Definition ALLOWED_EXTENSIONS : list string :=
  ["png"; "jpg"; "jpeg"; "gif"; "webp"].

(** [filename.rsplit('.', 1)[1]] when ['.' in filename]. *)
Fixpoint after_last_dot (s : string) : option string :=
  match s with
  | EmptyString => None
  | String c s' =>
      match after_last_dot s' with
      | Some e => Some e
      | None => if Ascii.eqb c "."%char then Some s' else None
      end
  end.

(** [allowed_file(filename)] *)
Definition allowed_file (filename : string) : bool :=
  match after_last_dot filename with
  | Some ext => existsb (String.eqb (lower ext)) ALLOWED_EXTENSIONS
  | None => false
  end.

(** [str.isspace] of one character, given by its UTF-8 bytes.  The white
    space of Python is U+0009 to U+000D, U+001C to U+0020, U+0085, U+00A0,
    U+1680, U+2000 to U+200A, U+2028, U+2029, U+202F, U+205F and U+3000;
    in bytes: 09 to 0D and 1C to 20; C2 85 and C2 A0; E1 9A 80; E2 80 80
    to E2 80 8A, E2 80 A8, E2 80 A9 and E2 80 AF; E2 81 9F; E3 80 80. *)
Definition is_space (c : string) : bool :=
  match map nat_of_ascii (list_ascii_of_string c) with
  | [a] =>
      ((9 <=? a) && (a <=? 13) || (28 <=? a) && (a <=? 32))%nat
  | [a; b] =>
      ((a =? 194) && ((b =? 133) || (b =? 160)))%nat
  | [a; b; c] =>
      ((a =? 225) && (b =? 154) && (c =? 128) ||
       (a =? 226) && (b =? 128) &&
         ((128 <=? c) && (c <=? 138) ||
          (c =? 168) || (c =? 169) || (c =? 175)) ||
       (a =? 226) && (b =? 129) && (c =? 159) ||
       (a =? 227) && (b =? 128) && (c =? 128))%nat
  | _ => false
  end.

(** [s.lstrip()]: the leading white space goes, one character of one, two
    or three bytes at a time. *)
Fixpoint lstrip (s : string) : string :=
  match s with
  | EmptyString => EmptyString
  | String a s1 =>
      if is_space (String a EmptyString) then lstrip s1
      else
        match s1 with
        | EmptyString => s
        | String b s2 =>
            if is_space (String a (String b EmptyString)) then lstrip s2
            else
              match s2 with
              | EmptyString => s
              | String c s3 =>
                  if is_space (String a (String b (String c EmptyString)))
                  then lstrip s3
                  else s
              end
        end
  end.

(** [s.rstrip()]: what is left of the tail is dropped when, with the
    character before it, it is one character of white space. *)
Fixpoint rstrip (s : string) : string :=
  match s with
  | EmptyString => EmptyString
  | String c s' =>
      let r := String c (rstrip s') in
      if is_space r then EmptyString else r
  end.

(** [s.strip()] *)
Definition strip (s : string) : string := rstrip (lstrip s).

(** U+00A0, the no-break space. *)
Definition nbsp : string := String "194"%char (String "160"%char EmptyString).

(** An uploaded file: its name, [secure_filename] of its name, and the
    exception of [file.save], if it raises. *)
Record Upload := mkUpload {
  filename : string;
  secure_name : string;
  save_raises : option string
}.

(** The POST form of the product editor, each field as
    [request.form.get] yields it, with the upload of [request.files] and
    the [strftime] stamp of the request. *)
Record ProductForm := mkProductForm {
  f_name : option string;
  f_description : option string;
  f_category : option string;
  f_price : option float;            (* type=float *)
  f_stock : option Z;                (* type=int *)
  f_is_available : option string;
  f_image_url : option string;
  f_image_file : option Upload;
  f_timestamp : string
}.

(** The file-upload block of the product editor: the messages it flashes
    and the URL of the stored file when [file_uploaded] is set. *)
Definition handle_upload (form : ProductForm) : list Flash * option string :=
  match f_image_file form with
  | None => ([], None)
  | Some file =>
      if String.eqb (filename file) "" then ([], None)
      else if allowed_file (filename file) then
        match save_raises file with
        | None =>
            ([], Some ("/static/uploads/products/" ++ f_timestamp form ++ "_"
                       ++ secure_name file))
        | Some e => ([("Error uploading file: " ++ e, "error")], None)
        end
      else
        ([("Invalid file type. Please upload JPG, PNG, GIF, or WEBP.",
           "error")], None)
  end.

Definition ORDER_STATUSES : list string :=
  ["pending"; "processing"; "shipped"; "delivered"; "cancelled"].

Section AdminRoutes.
Variable env : Env.

(** [admin_edit_product(product_id)] *)
Definition admin_edit_product (product_id : Z) (method : Method)
  (form : ProductForm) : Handler :=
  login_required (fun _ => admin_required (fun _ fs d =>
    match get_product d product_id with
    | None => (no_row product_id, fs, d)
    | Some product =>
        match method with
        | GET => (Render [] (admin_edit_product_html product), fs, d)
        | POST =>
            let (flashed, uploaded) := handle_upload form in
            let image_url :=
              match uploaded with
              | Some url => Some url
              | None =>
                  let url_input :=
                    strip (get_or_else (f_image_url form) "") in
                  if String.eqb url_input "" then Product.image_url product
                  else Some url_input
              end in
            let is_available :=
              match f_is_available form with
              | Some v => String.eqb v "on"
              | None => false
              end in
            let body :=
              match f_name form, f_category form, f_price form with
              | Some name, Some category, Some price =>
                  modify (fun t =>
                    with_products
                      (update_row Product.id product_id
                         (fun _ =>
                            Product.mk product_id name (f_description form)
                              category (stored_float price) (f_stock form)
                              image_url is_available)
                         (products t)) t) ;;
                  session_commit env ;;
                  ret name
              | _, _, _ =>
                  (* a NULL in a NOT NULL column: the flush of commit *)
                  fault_point env ;;
                  raise "NOT NULL constraint failed"
              end in
            match try_except body d with
            | (Done name, d') =>
                (Redirect
                   (app flashed
                      [("Product " ++ dquote ++ name ++ dquote ++
                        " updated successfully!", "success")])
                   admin_products, fs, d')
            | (Raised e, d') =>
                (Render
                   (app flashed
                      [("Error updating product: " ++ e, "error")])
                   (admin_edit_product_html product), fs, d')
            end
        end
    end)).

(** [admin_update_order_status(order_id)]; [new_status] is
    [request.form.get('status')]. *)
Definition admin_update_order_status (order_id : Z)
  (new_status : option string) : Handler :=
  login_required (fun _ => admin_required (fun _ fs d =>
    match get_order d order_id with
    | None => (no_row order_id, fs, d)
    | Some order =>
        match new_status with
        | Some new_status =>
            if existsb (String.eqb new_status) ORDER_STATUSES then
              let body :=
                modify (fun t =>
                  with_orders
                    (update_row Order.id order_id
                       (Order.set_status new_status) (orders t)) t) ;;
                session_commit env in
              match try_except body d with
              | (Done _, d') =>
                  (Redirect
                     [("Order #" ++ str_of_int (Order.id order) ++
                       " status updated to " ++ new_status ++ "!",
                       "success")]
                     (admin_order_detail order_id), fs, d')
              | (Raised e, d') =>
                  (Redirect [("Error updating order: " ++ e, "error")]
                     (admin_order_detail order_id), fs, d')
              end
            else
              (Redirect [("Invalid status value.", "error")]
                 (admin_order_detail order_id), fs, d)
        | None =>
            (Redirect [("Invalid status value.", "error")]
               (admin_order_detail order_id), fs, d)
        end
    end)).

(** [admin_toggle_admin(user_id)] *)
Definition admin_toggle_admin (user_id : Z) : Handler :=
  login_required (fun _ => admin_required (fun me fs d =>
    if user_id =? User.id me then
      (Redirect [("You cannot change your own admin status.", "error")]
         admin_users, fs, d)
    else
      match get_user d user_id with
      | None => (no_row user_id, fs, d)
      | Some user =>
          let flag := negb (User.is_admin user) in
          let body :=
            modify (fun t =>
              with_users
                (update_row User.id user_id (User.set_is_admin flag)
                   (users t)) t) ;;
            session_commit env in
          match try_except body d with
          | (Done _, d') =>
              let status := if flag then "admin" else "regular user" in
              (Redirect
                 [(User.username user ++ " is now a " ++ status ++ "!",
                   "success")]
                 admin_users, fs, d')
          | (Raised e, d') =>
              (Redirect [("Error updating user: " ++ e, "error")]
                 admin_users, fs, d')
          end
      end)).
End AdminRoutes.


(** ** The server: one request after another *)

Inductive Request :=
| req_add_to_cart (product_id : Z) (quantity : option Z)
| req_update_cart_item (cart_item_id : Z) (quantity : option Z)
| req_remove_from_cart (cart_item_id : Z)
| req_checkout (method : Method) (shipping_address notes : option string)
| req_order_confirmation (order_id : Z)
| req_admin_edit_product (product_id : Z) (method : Method)
    (form : ProductForm)
| req_admin_update_order_status (order_id : Z) (status : option string)
| req_admin_toggle_admin (user_id : Z).

(** The routing of a request to its handler. *)
Definition handle (env : Env) (r : Request) : Handler :=
  match r with
  | req_add_to_cart pid q => add_to_cart env pid q
  | req_update_cart_item k q => update_cart_item env k q
  | req_remove_from_cart k => remove_from_cart env k
  | req_checkout m a n => checkout env m a n
  | req_order_confirmation k => order_confirmation k
  | req_admin_edit_product pid m f => admin_edit_product env pid m f
  | req_admin_update_order_status k s => admin_update_order_status env k s
  | req_admin_toggle_admin k => admin_toggle_admin env k
  end.

(** The store after a sequence of requests, each with the environment it
    meets and the session cookie it carries. *)
Fixpoint serve (trace : list (Env * FlaskSession * Request)) (d : DB) : DB :=
  match trace with
  | [] => d
  | (env, fs, r) :: trace' => serve trace' (snd (handle env r fs d))
  end.

(** A run of POSTs to the product editor, each with its environment, its
    session cookie, the product it edits and its form. *)
Definition product_edits
  (edits : list (Env * FlaskSession * Z * ProductForm))
  : list (Env * FlaskSession * Request) :=
  map (fun '(env, fs, pid, form) =>
         (env, fs, req_admin_edit_product pid POST form)) edits.

(** ** The vocabulary of the specification

    The handlers report a failure as a 404 or as a flashed message with a
    redirect; the specification names the failures. *)

Definition flashed (f : Flash) (r : Response) : Prop :=
  match r with
  | Redirect fl _ | Render fl _ => In f fl
  | Abort404 | Error500 => False
  end.


Definition InsufficientStock (r : Response) : Prop :=
  flashed ("Not enough stock available.", "error") r.

Definition Forbidden (r : Response) : Prop :=
  r = Redirect
        [("You do not have permission to view this order.", "error")] home.

Definition ValidationError (r : Response) : Prop :=
  flashed ("Invalid status value.", "error") r.


(** The response of a successful checkout for the order [oid]. *)
Definition OrderPlaced (oid : Z) (r : Response) : Prop :=
  r = Redirect [("Order placed successfully!", "success")]
        (order_confirmation_page oid).

(** An environment that raises at none of its fault points. *)
Definition never_raises (env : Env) : Prop :=
  forall k, raises env k = None.

(** Every order carries one of the five statuses. *)
Definition statuses_enumerated (d : DB) : Prop :=
  Forall (fun o => In (Order.status o) ORDER_STATUSES) (orders d).

(** Every order item belongs to an order of the store (the foreign key
    [order_items.order_id]). *)
Definition order_items_owned (d : DB) : Prop :=
  Forall (fun i => In (OrderItem.order_id i) (map Order.id (orders d)))
         (order_items d).

(** An order item snapshots a cart item in the store [d]: it carries the
    cart item's product and quantity and the product's price in [d]. *)
Definition snapshots (d : DB) (oid : Z) (row : OrderItem.t) (c : CartItem.t)
  : Prop :=
  OrderItem.order_id row = oid /\
  OrderItem.product_id row = CartItem.product_id c /\
  OrderItem.quantity row = CartItem.quantity c /\
  exists p, get_product d (CartItem.product_id c) = Some p /\
            OrderItem.price row = Product.price p.

(** ** The catalogue listing as the specification words it

    [listProducts] of the specification, to be compared with
    [products_view]: the available products, of the category when one is
    given and is not ["all"], whose name or description contains the
    search text when one is given, letter case apart. *)

Fixpoint contains (needle hay : string) : bool :=
  String.prefix needle hay ||
  match hay with
  | EmptyString => false
  | String _ hay' => contains needle hay'
  end.

Definition contains_ci (needle hay : string) : bool :=
  contains (lower needle) (lower hay).

Definition listProducts (category searchText : option string) (d : DB)
  : list Product.t :=
  filter
    (fun p =>
       Product.is_available p &&
       match category with
       | Some c => String.eqb c "all" || String.eqb (Product.category p) c
       | None => true
       end &&
       match searchText with
       | Some s =>
           contains_ci s (Product.name p) ||
           match Product.description p with
           | Some descr => contains_ci s descr
           | None => false
           end
       | None => true
       end)
    (products d).

(** The characters that [LIKE] reads as wildcards. *)
Definition is_wildcard (c : ascii) : bool :=
  Ascii.eqb c "%"%char || Ascii.eqb c "_"%char.

Fixpoint wildcard_free (s : string) : bool :=
  match s with
  | EmptyString => true
  | String c s' => negb (is_wildcard c) && wildcard_free s'
  end.

(** ** A sample store: three products of the seed data and two users *)

Module Sample.
Set Warnings "-inexact-float".

Definition apples : Product.t :=
  Product.mk 1 "Red Apples"
    (Some "Fresh, crisp red apples from local orchards") "fruit"
    5.99%float (Some 50) (Some "/static/images/apple.jpg") true.

Definition bananas : Product.t :=
  Product.mk 2 "Bananas"
    (Some "Golden yellow bananas, rich in potassium") "fruit"
    3.99%float (Some 100) (Some "/static/images/banana.jpg") true.

Definition carrots : Product.t :=
  Product.mk 3 "Carrots"
    (Some "Organic carrots, sweet and crunchy") "vegetable"
    4.99%float (Some 80) (Some "/static/images/carrot.jpg") true.

Definition alice : User.t :=
  User.mk 1 "alice" "alice@example.com" "pbkdf2" (Some "Alice") None false.

Definition root : User.t :=
  User.mk 2 "root" "root@example.com" "pbkdf2" None None true.

Definition token : string := "00112233445566778899aabbccddeeff".
Definition other_token : string := "ffeeddccbbaa99887766554433221100".

(** Alice's browser with two apples and one banana in the cart. *)
Definition store : DB :=
  mkDB [alice; root] [apples; bananas; carrots]
       [CartItem.mk 1 token 1 2; CartItem.mk 2 token 2 1] [] [].

Definition alice_browser : FlaskSession :=
  mkFlaskSession (Some token) (Some 1).

Definition root_browser : FlaskSession :=
  mkFlaskSession (Some other_token) (Some 2).

Definition quiet : Env := mkEnv (fun _ => None) other_token.

(** The environment that raises at the fault point [k] only. *)
Definition failing_at (k : nat) : Env :=
  mkEnv (fun n => if Nat.eqb n k then Some "boom" else None) other_token.

(** The store once Alice has checked out. *)
Definition store_after_checkout : DB :=
  snd (checkout quiet POST (Some "123 Main St") None alice_browser store).
(** The form that sets the price of the apples to 9.99. *)
Definition dearer_apples : ProductForm :=
  mkProductForm (Some "Red Apples")
    (Some "Fresh, crisp red apples from local orchards") (Some "fruit")
    (Some 9.99%float) (Some 50) (Some "on") None None "20240101_120000".
End Sample.

(** ** Further routes: pages, accounts, the catalogue, the admin's products

    The routes below render templates and redirect to targets that the
    routes above do not use; their responses are the ones above or one of
    two more. *)

(** The templates of the further routes, with their context. *)
Inductive Page :=
| index_html (featured_products : list Product.t)
| register_html
| login_html
| product_detail_html (product : Product.t)
    (related_products : list Product.t)
| cart_html (cart_items : list CartItem.t) (total : float) (item_count : Z)
| admin_add_product_html.

(** The further targets of [redirect(url_for(...))]. *)
Inductive FurtherEndpoint :=
| register_page
| admin_add_product_page.

Inductive Answer :=
| as_above (r : Response)
| redirect_further (flashes : list Flash) (target : FurtherEndpoint)
| render_page (flashes : list Flash) (page : Page).

Definition Reaction : Type := Answer * FlaskSession * DB.

(** [@login_required] and [@admin_required] on a further route. *)
Definition login_required_further
  (f : User.t -> FlaskSession -> DB -> Reaction)
  : FlaskSession -> DB -> Reaction :=
  fun fs d =>
    match current_user fs d with
    | Some u => f u fs d
    | None =>
        (as_above (Redirect [("Please log in first.", "message")] login),
         fs, d)
    end.

Definition admin_required_further
  (f : User.t -> FlaskSession -> DB -> Reaction)
  : FlaskSession -> DB -> Reaction :=
  fun fs d =>
    match current_user fs d with
    | None =>
        (as_above
           (Redirect [("Please log in to access this page.", "error")]
              login), fs, d)
    | Some u =>
        if User.is_admin u then f u fs d
        else
          (as_above
             (Redirect
                [("You do not have permission to access this page.",
                  "error")] home), fs, d)
    end.

(** Python's truth of an optional string: neither [None] nor empty. *)
Definition truthy (o : option string) : bool :=
  match o with
  | Some s => negb (String.eqb s "")
  | None => false
  end.

(** [home()] *)
Definition home_view (d : DB) : Answer :=
  render_page []
    (index_html (firstn 6 (filter Product.is_available (products d)))).

(** [product_detail(product_id)] *)
Definition product_detail_view (product_id : Z) (d : DB) : Answer :=
  match get_product d product_id with
  | None => as_above (no_row product_id)
  | Some product =>
      let related_products :=
        firstn 4
          (filter (fun p => negb (Product.id p =? product_id))
             (filter (fun p =>
                        String.eqb (Product.category p)
                          (Product.category product) &&
                        Product.is_available p) (products d))) in
      render_page [] (product_detail_html product related_products)
  end.

(** [sum(item.quantity for item in cart_items)] *)
Definition py_sum_int (xs : list Z) : Z := fold_left Z.add xs 0.

Section CartPage.
Variable env : Env.

(** [view_cart()]; both branches of its test on [current_user] run the
    same query.  The total of an empty cart is the float 0 here (it is the
    int 0 in Python). *)
Definition cart_view : FlaskSession -> DB -> Reaction :=
  fun fs d =>
    let (session_id, fs') := get_session_id env fs in
    let cart := cart_of d session_id in
    match mapM get_subtotal cart (begin d) with
    | (Done subtotals, _) =>
        (render_page []
           (cart_html cart (py_sum subtotals)
              (py_sum_int (map CartItem.quantity cart))), fs', d)
    | (Raised _, _) => (as_above Error500, fs', d)
    end.
End CartPage.

(** *** Accounts *)

(** The form of the registration page, each field as [request.form.get]
    yields it. *)
Record RegisterForm := mkRegisterForm {
  r_username : option string;
  r_email : option string;
  r_password : option string;
  r_confirm_password : option string;
  r_first_name : option string;
  r_last_name : option string
}.

(** [User.query.filter_by(username=...).first()] and
    [User.query.filter_by(email=...).first()] *)
Definition user_by_username (d : DB) (name : string) : option User.t :=
  find (fun u => String.eqb (User.username u) name) (users d).
Definition user_by_email (d : DB) (mail : string) : option User.t :=
  find (fun u => String.eqb (User.email u) mail) (users d).

Section Accounts.
Variable env : Env.
(** The two primitives of [werkzeug.security]. *)
Variable generate_password_hash : string -> string.
Variable check_password_hash : string -> string -> bool.

(** [db.session.add(user)] for a new user; [is_admin] is given or takes
    the column default [False]. *)
Definition session_add_user (username email hash : string)
  (first_name last_name : option string) (is_admin : bool) : Work unit :=
  fault_point env ;;
  modify (fun d =>
    let k := fresh_id (map User.id (users d)) in
    with_users
      (users d ++
       [User.mk k username email hash first_name last_name is_admin])%list d).

(** [register()] *)
Definition register (method : Method) (form : RegisterForm)
  : FlaskSession -> DB -> Reaction :=
  fun fs d =>
    match method with
    | GET => (render_page [] register_html, fs, d)
    | POST =>
        if negb (truthy (r_username form) && truthy (r_email form) &&
                 truthy (r_password form) &&
                 truthy (r_confirm_password form)) then
          (redirect_further [("All fields are required.", "error")]
             register_page, fs, d)
        else
          let username := get_or_else (r_username form) "" in
          let email := get_or_else (r_email form) "" in
          let password := get_or_else (r_password form) "" in
          let confirm_password :=
            get_or_else (r_confirm_password form) "" in
          if negb (String.eqb password confirm_password) then
            (redirect_further [("Passwords do not match.", "error")]
               register_page, fs, d)
          else
            match user_by_username d username with
            | Some _ =>
                (redirect_further [("Username already exists.", "error")]
                   register_page, fs, d)
            | None =>
                match user_by_email d email with
                | Some _ =>
                    (redirect_further
                       [("Email already registered.", "error")]
                       register_page, fs, d)
                | None =>
                    let body :=
                      fault_point env ;;                  (* User(...) *)
                      session_add_user username email
                        (generate_password_hash password)
                        (r_first_name form) (r_last_name form) false ;;
                      session_commit env in
                    match try_except body d with
                    | (Done _, d') =>
                        (as_above
                           (Redirect
                              [("Registration successful! Please log in.",
                                "success")] login), fs, d')
                    | (Raised e, d') =>
                        (redirect_further
                           [("Registration failed: " ++ e, "error")]
                           register_page, fs, d')
                    end
                end
            end
    end.

(** [user.first_name or user.username] *)
Definition display_name (u : User.t) : string :=
  if truthy (User.first_name u) then get_or_else (User.first_name u) ""
  else User.username u.

(** [login()]; [login_user] writes the user's id into the session
    cookie.  A form without a password field makes [check_password_hash]
    raise on [None]. *)
Definition login_view (method : Method) (username password : option string)
  : FlaskSession -> DB -> Reaction :=
  fun fs d =>
    match method with
    | GET => (render_page [] login_html, fs, d)
    | POST =>
        let user :=
          match username with
          | Some name => user_by_username d name
          | None => None
          end in
        match user with
        | Some user =>
            match password with
            | None => (as_above Error500, fs, d)
            | Some password =>
                if check_password_hash (User.password_hash user) password
                then
                  (as_above
                     (Redirect
                        [("Welcome back, " ++ display_name user ++ "!",
                          "success")] home),
                   mkFlaskSession (cart_session fs) (Some (User.id user)), d)
                else
                  (render_page [("Invalid username or password.", "error")]
                     login_html, fs, d)
            end
        | None =>
            (render_page [("Invalid username or password.", "error")]
               login_html, fs, d)
        end
    end.

(** [create_admin(username, email, password)] of the command line: what it
    prints and what it leaves persisted.  It has no [try]: an exception
    ends the command with nothing committed. *)
Definition create_admin (username email password : string) (d : DB)
  : Outcome string * DB :=
  match user_by_username d username with
  | Some _ => (Done ("User " ++ username ++ " already exists."), d)
  | None =>
      let body :=
        fault_point env ;;                                (* User(...) *)
        session_add_user username email (generate_password_hash password)
          None None true ;;
        session_commit env in
      match body (begin d) with
      | (Done _, s) =>
          (Done ("Admin user " ++ username ++ " created successfully!"),
           persisted s)
      | (Raised e, s) => (Raised e, persisted s)
      end
  end.
End Accounts.

(** [logout()]; [logout_user] takes the user's id out of the session
    cookie. *)
Definition logout : FlaskSession -> DB -> Reaction :=
  login_required_further (fun _ fs d =>
    (as_above (Redirect [("You have been logged out.", "success")] home),
     mkFlaskSession (cart_session fs) None, d)).

(** *** The admin's products *)

Section AdminProducts.
Variable env : Env.

(** [db.session.add(product)] for a new product. *)
Definition session_add_product (name : string) (description : option string)
  (category : string) (price : float) (stock : option Z)
  (image_url : option string) (is_available : bool) : Work unit :=
  fault_point env ;;
  modify (fun d =>
    let k := fresh_id (map Product.id (products d)) in
    with_products
      (products d ++
       [Product.mk k name description category price stock image_url
          is_available])%list d).

(** [db.session.delete(product)]: the relationships of [Product] cascade
    the deletion to the cart items and to the order items of the
    product. *)
Definition session_delete_product (p : Product.t) : Work unit :=
  fault_point env ;;
  modify (fun d =>
    mkDB (users d)
      (delete_row Product.id (Product.id p) (products d))
      (filter (fun c => negb (CartItem.product_id c =? Product.id p))
         (cart_items d))
      (orders d)
      (filter (fun i => negb (OrderItem.product_id i =? Product.id p))
         (order_items d))).

(** [admin_add_product()] *)
Definition admin_add_product (method : Method) (form : ProductForm)
  : FlaskSession -> DB -> Reaction :=
  login_required_further (fun _ => admin_required_further (fun _ fs d =>
    match method with
    | GET => (render_page [] admin_add_product_html, fs, d)
    | POST =>
        match f_price form, f_stock form with
        | Some price, Some stock =>
            if truthy (f_name form) && truthy (f_category form) then
              let name := get_or_else (f_name form) "" in
              let category := get_or_else (f_category form) "" in
              let image_url := strip (get_or_else (f_image_url form) "") in
              let (flashed, uploaded) := handle_upload form in
              let image_url := get_or_else uploaded image_url in
              let image_url :=
                if String.eqb image_url ""
                then "/static/images/placeholder.jpg" else image_url in
              let body :=
                fault_point env ;;                     (* Product(...) *)
                session_add_product name (f_description form) category
                  (stored_float price) (Some stock) (Some image_url) true ;;
                session_commit env in
              match try_except body d with
              | (Done _, d') =>
                  (as_above
                     (Redirect
                        (app flashed
                           [("Product " ++ dquote ++ name ++ dquote ++
                             " added successfully!", "success")])
                        admin_products), fs, d')
              | (Raised e, d') =>
                  (render_page
                     (app flashed
                        [("Error adding product: " ++ e, "error")])
                     admin_add_product_html, fs, d')
              end
            else
              (redirect_further
                 [("All required fields must be filled.", "error")]
                 admin_add_product_page, fs, d)
        | _, _ =>
            (redirect_further
               [("All required fields must be filled.", "error")]
               admin_add_product_page, fs, d)
        end
    end)).

(** [admin_delete_product(product_id)] *)
Definition admin_delete_product (product_id : Z)
  : FlaskSession -> DB -> Reaction :=
  login_required_further (fun _ => admin_required_further (fun _ fs d =>
    match get_product d product_id with
    | None => (as_above (no_row product_id), fs, d)
    | Some product =>
        let product_name := Product.name product in
        let body :=
          session_delete_product product ;;
          session_commit env in
        match try_except body d with
        | (Done _, d') =>
            (as_above
               (Redirect
                  [("Product " ++ dquote ++ product_name ++ dquote ++
                    " deleted successfully!", "success")]
                  admin_products), fs, d')
        | (Raised e, d') =>
            (as_above
               (Redirect [("Error deleting product: " ++ e, "error")]
                  admin_products), fs, d')
        end
    end)).
End AdminProducts.

Set Warnings "-inexact-float".

(** The rows of [sample_products] in [seed_db]: name, category, price,
    stock, description, image. *)
Definition sample_products
  : list (string * string * float * Z * string * string) :=
  [("Red Apples", "fruit", 5.99%float, 50,
    "Fresh, crisp red apples from local orchards",
    "/static/images/apple.jpg");
   ("Bananas", "fruit", 3.99%float, 100,
    "Golden yellow bananas, rich in potassium",
    "/static/images/banana.jpg");
   ("Carrots", "vegetable", 4.99%float, 80,
    "Organic carrots, sweet and crunchy",
    "/static/images/carrot.jpg");
   ("Tomatoes", "vegetable", 6.99%float, 60,
    "Vine-ripened tomatoes, perfect for salads",
    "/static/images/tomato.jpg");
   ("Strawberries", "fruit", 7.99%float, 40,
    "Fresh strawberries, sweet and juicy",
    "/static/images/strawberry.jpg");
   ("Lettuce", "vegetable", 3.49%float, 75,
    "Crisp leafy lettuce for healthy salads",
    "/static/images/lettuce.jpg")].

Section CommandLine.
Variable env : Env.

(** [seed_db()] of the command line: what it prints and what it leaves
    persisted.  It has no [try]: an exception ends the command with
    nothing committed. *)
Definition seed_db (d : DB) : Outcome string * DB :=
  match products d with                       (* Product.query.first() *)
  | _ :: _ => (Done "Database already seeded.", d)
  | [] =>
      let body :=
        forM_ sample_products (fun _ => fault_point env) ;; (* Product(...) *)
        forM_ sample_products
          (fun '(name, category, price, stock, description, image_url) =>
             session_add_product env name (Some description) category price
               (Some stock) (Some image_url) true) ;;
        session_commit env in
      match body (begin d) with
      | (Done _, s) =>
          (Done "Database seeded with sample products.", persisted s)
      | (Raised e, s) => (Raised e, persisted s)
      end
  end.
End CommandLine.

(** *** The whole site *)

(** The requests of the further routes that can write to the store, and
    the two commands of the command line that can. *)
Inductive FurtherRequest :=
| req_register (method : Method) (form : RegisterForm)
| req_admin_add_product (method : Method) (form : ProductForm)
| req_admin_delete_product (product_id : Z)
| cmd_seed_db
| cmd_create_admin (username email password : string).

Inductive AnyRequest :=
| above (r : Request)
| further (r : FurtherRequest).

Section Site.
Variable generate_password_hash : string -> string.

(** The store after one request. *)
Definition store_after (env : Env) (r : AnyRequest) (fs : FlaskSession)
  (d : DB) : DB :=
  match r with
  | above r => snd (handle env r fs d)
  | further (req_register m form) =>
      snd (register env generate_password_hash m form fs d)
  | further (req_admin_add_product m form) =>
      snd (admin_add_product env m form fs d)
  | further (req_admin_delete_product pid) =>
      snd (admin_delete_product env pid fs d)
  | further cmd_seed_db => snd (seed_db env d)
  | further (cmd_create_admin username email password) =>
      snd (create_admin env generate_password_hash username email password d)
  end.

(** The store after a sequence of requests of any kind. *)
Fixpoint serve_any (trace : list (Env * FlaskSession * AnyRequest)) (d : DB)
  : DB :=
  match trace with
  | [] => d
  | (env, fs, r) :: trace' => serve_any trace' (store_after env r fs d)
  end.
End Site.

(** *** What the site writes, one row at a time *)

(** The single writes that the handlers commit, each with what the
    handler has checked before it. *)
Inductive write1 (d : DB) : DB -> Prop :=
| cart_insert sid pid q :
    1 <= q ->
    find (fun c => String.eqb (CartItem.session_id c) sid &&
                   (CartItem.product_id c =? pid)) (cart_items d) = None ->
    get_product d pid <> None ->
    write1 d
      (with_cart_items
         (cart_items d ++
          [CartItem.mk (fresh_id (map CartItem.id (cart_items d))) sid pid q])
         d)
| cart_bump k q :
    1 <= q ->
    write1 d
      (with_cart_items
         (update_row CartItem.id k
            (fun r => CartItem.set_quantity (CartItem.quantity r + q) r)
            (cart_items d)) d)
| cart_set k q :
    1 <= q ->
    write1 d
      (with_cart_items
         (update_row CartItem.id k (CartItem.set_quantity q) (cart_items d))
         d)
| cart_delete k :
    write1 d (with_cart_items (delete_row CartItem.id k (cart_items d)) d)
| order_insert uid total addr notes :
    write1 d
      (with_orders
         (orders d ++
          [Order.mk (fresh_id (map Order.id (orders d))) uid total "pending"
             addr notes]) d)
| order_item_insert oid pid q pr :
    In oid (map Order.id (orders d)) ->
    get_product d pid <> None ->
    write1 d (insert_order_item oid (pid, q, pr) d)
| product_set pid row :
    Product.id row = pid ->
    write1 d
      (with_products (update_row Product.id pid (fun _ => row) (products d))
         d)
| product_insert name descr category price stock image_url available :
    write1 d
      (with_products
         (products d ++
          [Product.mk (fresh_id (map Product.id (products d))) name descr
             category price stock image_url available]) d)
| product_delete pid :
    write1 d
      (mkDB (users d) (delete_row Product.id pid (products d))
         (filter (fun c => negb (CartItem.product_id c =? pid))
            (cart_items d))
         (orders d)
         (filter (fun i => negb (OrderItem.product_id i =? pid))
            (order_items d)))
| status_set k st :
    In st ORDER_STATUSES ->
    write1 d
      (with_orders
         (update_row Order.id k (Order.set_status st) (orders d)) d)
| admin_flag_set k b me :
    In me (users d) -> User.is_admin me = true -> User.id me <> k ->
    write1 d
      (with_users (update_row User.id k (User.set_is_admin b) (users d)) d)
| user_insert username email hash first_name last_name flag :
    user_by_username d username = None ->
    write1 d
      (with_users
         (users d ++
          [User.mk (fresh_id (map User.id (users d))) username email hash
             first_name last_name flag]) d).

(** A sequence of single writes. *)
Inductive writes : DB -> DB -> Prop :=
| writes_none d : writes d d
| writes_step d1 d2 d3 : write1 d1 d2 -> writes d2 d3 -> writes d1 d3.

(** *** Invariants of the store *)

(** Every cart row holds at least one unit. *)
Definition cart_quantities_positive (d : DB) : Prop :=
  Forall (fun c => 1 <= CartItem.quantity c) (cart_items d).

(** At most one cart row per session token and product. *)
Definition cart_keys_unique (d : DB) : Prop :=
  NoDup (map (fun c => (CartItem.session_id c, CartItem.product_id c))
           (cart_items d)).

(** The primary keys of each table are pairwise distinct. *)
Definition primary_keys_unique (d : DB) : Prop :=
  NoDup (map User.id (users d)) /\
  NoDup (map Product.id (products d)) /\
  NoDup (map CartItem.id (cart_items d)) /\
  NoDup (map Order.id (orders d)) /\
  NoDup (map OrderItem.id (order_items d)).

(** Every cart row and every order item references a product of the
    store (the foreign keys [product_id]). *)
Definition products_referenced (d : DB) : Prop :=
  Forall (fun c => get_product d (CartItem.product_id c) <> None)
         (cart_items d) /\
  Forall (fun i => get_product d (OrderItem.product_id i) <> None)
         (order_items d).

(** Some user is an admin. *)
Definition an_admin_exists (d : DB) : Prop :=
  exists u, In u (users d) /\ User.is_admin u = true.

(** Every order's total is the sum of the subtotals of its items. *)
Definition totals_consistent (d : DB) : Prop :=
  Forall (fun o => Order.total_amount o = calculate_total d o) (orders d).

(** No two users share a username. *)
Definition usernames_unique (d : DB) : Prop :=
  NoDup (map User.username (users d)).

(** *** Helpers of the statements *)

(** No ['.'] in the string. *)
Fixpoint dot_free (s : string) : bool :=
  match s with
  | EmptyString => true
  | String c s' => negb (Ascii.eqb c "."%char) && dot_free s'
  end.

(** The two answers of the guards to a request they turn away. *)
Definition turned_away (r : Response) : Prop :=
  r = Redirect [("Please log in first.", "message")] login \/
  r = Redirect
        [("You do not have permission to access this page.", "error")] home.

(** A stand-in for the two [werkzeug.security] primitives, to run the
    account routes on. *)
Module Demo.
Definition toy_hash (password : string) : string := "toy$" ++ password.
Definition toy_check (hash password : string) : bool :=
  String.eqb hash (toy_hash password).

Definition bob : RegisterForm :=
  mkRegisterForm (Some "bob") (Some "bob@example.com") (Some "s3cret")
    (Some "s3cret") (Some "Bob") None.

Definition anonymous : FlaskSession := mkFlaskSession None None.
End Demo.

(** A walk through the site: Alice adds carrots, adds them again and
    checks out; Bob registers; the admin deletes the apples and sets the
    order to shipped. *)
Definition walk : list (Env * FlaskSession * AnyRequest) :=
  [(Sample.quiet, Sample.alice_browser, above (req_add_to_cart 3 (Some 2)));
   (Sample.quiet, Sample.alice_browser, above (req_add_to_cart 3 (Some 1)));
   (Sample.quiet, Sample.alice_browser,
    above (req_checkout POST (Some "123 Main St") None));
   (Sample.quiet, Demo.anonymous, further (req_register POST Demo.bob));
   (Sample.quiet, Sample.root_browser,
    further (req_admin_delete_product 1));
   (Sample.quiet, Sample.root_browser,
    above (req_admin_update_order_status 1 (Some "shipped")))].

(** ** Properties of pieces of work, for the proofs *)

(** A piece of work that leaves the persisted store alone. *)
Definition keeps_persisted {A} (m : Work A) : Prop :=
  forall s r s', m s = (r, s') -> persisted s' = persisted s.

(** A piece of work that, when it raises, has persisted nothing. *)
Definition raises_clean {A} (m : Work A) : Prop :=
  forall s e s', m s = (Raised e, s') -> persisted s' = persisted s.

(** A piece of work that keeps a property of the store, in the persisted
    store and in the transaction's view. *)
Definition preserves {A} (P : DB -> Prop) (m : Work A) : Prop :=
  forall s r s', m s = (r, s') -> P (persisted s) -> P (txn s) ->
                 P (persisted s') /\ P (txn s').

(** A piece of work that changes nothing in the store. *)
Definition reads_only {A} (m : Work A) : Prop :=
  forall s r s', m s = (r, s') ->
                 persisted s' = persisted s /\ txn s' = txn s.

(** * Properties *)

(** ** Tables *)

Lemma fresh_id_above (ids : list Z) (k : Z) : In k ids -> k < fresh_id ids.
Proof.
  unfold fresh_id. induction ids as [|x ids IH]; cbn [fold_right In].
  - easy.
  - intros [->|Hin]; [lia|]. specialize (IH Hin). lia.
Qed.

Lemma find_update_row {A} (key : A -> Z) (k : Z) (f : A -> A) rows :
  (forall r, key (f r) = key r) ->
  find (fun r => key r =? k) (update_row key k f rows)
  = option_map f (find (fun r => key r =? k) rows).
Proof.
  intros Hkey. unfold update_row.
  induction rows as [|r rows IH]; simpl; [reflexivity|].
  destruct (key r =? k) eqn:E.
  - rewrite Hkey, E. reflexivity.
  - rewrite E. exact IH.
Qed.


Lemma find_delete_row {A} (key : A -> Z) (k : Z) rows :
  find (fun r => key r =? k) (delete_row key k rows) = None.
Proof.
  unfold delete_row. induction rows as [|r rows IH]; simpl; [reflexivity|].
  destruct (key r =? k) eqn:E; simpl; [exact IH|].
  rewrite E. exact IH.
Qed.

Lemma find_app_fresh {A} (key : A -> Z) (k : Z) rows (r : A) :
  (forall x, In x rows -> key x <> k) -> key r = k ->
  find (fun x => key x =? k) (rows ++ [r]) = Some r.
Proof.
  intros Hrows Hr. induction rows as [|x rows IH]; simpl.
  - rewrite Hr, Z.eqb_refl. reflexivity.
  - destruct (key x =? k) eqn:E.
    + apply Z.eqb_eq in E. exfalso. apply (Hrows x); simpl; auto.
    + apply IH. intros y Hy. apply Hrows. simpl; auto.
Qed.

(** ** The session monad *)

Lemma bind_done {A B} (m : Work A) (k : A -> Work B) s b s' :
  bind m k s = (Done b, s') ->
  exists a s1, m s = (Done a, s1) /\ k a s1 = (Done b, s').
Proof.
  unfold bind. destruct (m s) as [[a|e] s1]; [eauto|discriminate].
Qed.

Lemma bind_raised {A B} (m : Work A) (k : A -> Work B) s e s' :
  bind m k s = (Raised e, s') ->
  m s = (Raised e, s') \/
  exists a s1, m s = (Done a, s1) /\ k a s1 = (Raised e, s').
Proof.
  unfold bind. destruct (m s) as [[a|e1] s1]; [eauto|].
  intros H. left. inversion H; subst. reflexivity.
Qed.

Create HintDb work.

Lemma keeps_ret {A} (a : A) : keeps_persisted (ret a).
Proof. intros s r s' H. inversion H. reflexivity. Qed.

Lemma keeps_raise {A} e : keeps_persisted (@raise A e).
Proof. intros s r s' H. inversion H. reflexivity. Qed.

Lemma keeps_read {A} (f : DB -> A) : keeps_persisted (read f).
Proof. intros s r s' H. inversion H. reflexivity. Qed.

Lemma keeps_modify f : keeps_persisted (modify f).
Proof. intros s r s' H. inversion H. reflexivity. Qed.

Lemma keeps_fault_point env : keeps_persisted (fault_point env).
Proof.
  intros s r s' H. unfold fault_point in H.
  destruct (raises env (emitted s)); inversion H; reflexivity.
Qed.

Lemma keeps_bind {A B} (m : Work A) (k : A -> Work B) :
  keeps_persisted m -> (forall a, keeps_persisted (k a)) ->
  keeps_persisted (bind m k).
Proof.
  intros Hm Hk s r s' H. unfold bind in H.
  destruct (m s) as [[a|e] s1] eqn:E.
  - rewrite (Hk a _ _ _ H). exact (Hm _ _ _ E).
  - inversion H; subst. exact (Hm _ _ _ E).
Qed.

Lemma keeps_mapM {A B} (f : A -> Work B) xs :
  (forall x, keeps_persisted (f x)) -> keeps_persisted (mapM f xs).
Proof.
  intros Hf. induction xs as [|x xs IH]; simpl.
  - apply keeps_ret.
  - apply keeps_bind; [apply Hf|]. intros y.
    apply keeps_bind; [exact IH|]. intros ys. apply keeps_ret.
Qed.

Lemma keeps_forM_ {A} (f : A -> Work unit) xs :
  (forall x, keeps_persisted (f x)) -> keeps_persisted (forM_ xs f).
Proof.
  intros Hf. induction xs as [|x xs IH]; simpl.
  - apply keeps_ret.
  - apply keeps_bind; [apply Hf|]. intros _. exact IH.
Qed.

#[export] Hint Resolve keeps_ret keeps_raise keeps_read keeps_modify
  keeps_fault_point : work.
#[export] Hint Extern 2 (keeps_persisted (bind _ _)) =>
  apply keeps_bind; [|intros ?] : work.
#[export] Hint Extern 2 (keeps_persisted (mapM _ _)) =>
  apply keeps_mapM; intros ? : work.
#[export] Hint Extern 2 (keeps_persisted (forM_ _ _)) =>
  apply keeps_forM_; intros ? : work.
#[export] Hint Extern 3 (keeps_persisted (match ?x with _ => _ end)) =>
  destruct x : work.

Lemma keeps_product_of c : keeps_persisted (product_of c).
Proof. unfold product_of. auto with work. Qed.

Lemma keeps_get_subtotal c : keeps_persisted (get_subtotal c).
Proof. unfold get_subtotal, product_of. auto 6 with work. Qed.

Lemma keeps_session_add_cart_item env sid pid q :
  keeps_persisted (session_add_cart_item env sid pid q).
Proof. unfold session_add_cart_item. auto with work. Qed.

Lemma keeps_session_add_order env uid addr notes total items :
  keeps_persisted (session_add_order env uid addr notes total items).
Proof.
  unfold session_add_order. auto 8 with work.
Qed.

Lemma keeps_session_flush env : keeps_persisted (session_flush env).
Proof. apply keeps_fault_point. Qed.

Lemma keeps_session_delete_cart_item env c :
  keeps_persisted (session_delete_cart_item env c).
Proof. unfold session_delete_cart_item. auto with work. Qed.

#[export] Hint Resolve keeps_product_of keeps_get_subtotal
  keeps_session_add_cart_item keeps_session_add_order keeps_session_flush
  keeps_session_delete_cart_item : work.

Lemma clean_bind {A B} (m : Work A) (k : A -> Work B) :
  keeps_persisted m -> (forall a, raises_clean (k a)) ->
  raises_clean (bind m k).
Proof.
  intros Hm Hk s e s' H. apply bind_raised in H.
  destruct H as [H|(a & s1 & H1 & H2)].
  - exact (Hm _ _ _ H).
  - rewrite (Hk _ _ _ _ H2). exact (Hm _ _ _ H1).
Qed.

(** A commit that is the last statement of a [try] block: when it raises,
    nothing has been persisted. *)
Lemma clean_commit_last env {A} (a : A) :
  raises_clean (session_commit env ;; ret a).
Proof.
  intros s e s' H. unfold session_commit, bind, fault_point, ret in H.
  destruct (raises env (emitted s)); inversion H; reflexivity.
Qed.

(** A [try] block that raises before it has persisted anything leaves the
    store as it found it. *)
Lemma try_except_rollback {A} (body : Work A) d e d' :
  raises_clean body -> try_except body d = (Raised e, d') -> d' = d.
Proof.
  intros Hclean H. unfold try_except in H.
  destruct (body (begin d)) as [[a|e1] s] eqn:E; [discriminate|].
  inversion H; subst. simpl. exact (Hclean _ _ _ E).
Qed.

Lemma clean_place_order env uid cart addr notes :
  raises_clean (place_order env uid cart addr notes).
Proof.
  unfold place_order.
  apply clean_bind; [auto with work|]. intros subtotals.
  apply clean_bind; [auto with work|]. intros _.
  apply clean_bind; [auto 8 with work|]. intros items.
  apply clean_bind; [auto with work|]. intros oid.
  apply clean_bind; [auto with work|]. intros _.
  apply clean_bind; [auto with work|]. intros _.
  apply clean_commit_last.
Qed.

(** ** Checkout is all or nothing *)

(** The two ways [checkout] ends its [try] block. *)
Lemma checkout_outcomes env method shipping_address notes fs d :
  (exists oid, OrderPlaced oid (fst (fst
     (checkout env method shipping_address notes fs d)))) \/
  snd (checkout env method shipping_address notes fs d) = d.
Proof.
  unfold checkout, login_required.
  destruct (current_user fs d) as [user|]; [|right; reflexivity].
  destruct (get_session_id env fs) as [sid fs1].
  destruct (cart_of d sid) as [|c cart] eqn:Ecart; [right; reflexivity|].
  destruct method.
  - right. destruct (mapM get_subtotal (c :: cart) (begin d)) as [[?|?] ?];
      reflexivity.
  - destruct shipping_address as [[|a addr]|]; try (right; reflexivity).
    destruct (try_except _ d) as [[oid|e] d1] eqn:E.
    + left. exists oid. reflexivity.
    + right. simpl. eapply try_except_rollback; [|exact E].
      apply clean_place_order.
Qed.

(** C1: whatever goes wrong while the order, its items or the cart
    deletions are written, a checkout that does not end with the order
    placed leaves the store as it was: no order row, no order-item row and
    no cart deletion persist, and every token's cart is what it was. *)
Theorem checkout_atomic env method shipping_address notes fs d r fs' d' :
  checkout env method shipping_address notes fs d = (r, fs', d') ->
  (forall oid, ~ OrderPlaced oid r) ->
  d' = d /\
  orders d' = orders d /\
  order_items d' = order_items d /\
  forall tok, cart_of d' tok = cart_of d tok.
Proof.
  intros Hrun Hfail.
  assert (Hd : d' = d).
  { destruct (checkout_outcomes env method shipping_address notes fs d)
      as [[oid Hoid]|Hsame]; rewrite Hrun in *; simpl in *.
    - exfalso. exact (Hfail oid Hoid).
    - exact Hsame. }
  subst d'. repeat split; reflexivity.
Qed.

(** The second [OrderItem(...)] of Alice's checkout raises: the failure is
    surfaced and the store is untouched. *)
Lemma checkout_atomic_witness :
  fst (fst (checkout (Sample.failing_at 2) POST (Some "123 Main St") None
              Sample.alice_browser Sample.store))
  = Redirect [("Failed to place order: boom", "error")] checkout_page /\
  snd (checkout (Sample.failing_at 2) POST (Some "123 Main St") None
         Sample.alice_browser Sample.store) = Sample.store.
Proof.
  split; [reflexivity|].
  eapply (checkout_atomic (Sample.failing_at 2) POST (Some "123 Main St")
            None Sample.alice_browser Sample.store).
  - reflexivity.
  - intros oid H. discriminate H.
Defined.

(** What rollback throws away: when the second cart deletion raises, the
    transaction's view already holds the order, its two items and one cart
    row less, and none of it is persisted. *)
Example place_order_partial_view :
  let s := snd (place_order (Sample.failing_at 6) 1
                  (cart_of Sample.store Sample.token) "123 Main St" ""
                  (begin Sample.store)) in
  List.length (orders (txn s)) = 1%nat /\
  List.length (order_items (txn s)) = 2%nat /\
  List.length (cart_items (txn s)) = 1%nat /\
  persisted s = Sample.store.
Proof. vm_compute. repeat split; reflexivity. Qed.

(** ** The order that checkout writes *)

Lemma reads_only_ret {A} (a : A) : reads_only (ret a).
Proof. intros s r s' H. inversion H. auto. Qed.

Lemma reads_only_raise {A} e : reads_only (@raise A e).
Proof. intros s r s' H. inversion H. auto. Qed.

Lemma reads_only_read {A} (f : DB -> A) : reads_only (read f).
Proof. intros s r s' H. inversion H. auto. Qed.

Lemma reads_only_fault_point env : reads_only (fault_point env).
Proof.
  intros s r s' H. unfold fault_point in H.
  destruct (raises env (emitted s)); inversion H; auto.
Qed.

Lemma reads_only_bind {A B} (m : Work A) (k : A -> Work B) :
  reads_only m -> (forall a, reads_only (k a)) -> reads_only (bind m k).
Proof.
  intros Hm Hk s r s' H. unfold bind in H.
  destruct (m s) as [[a|e] s1] eqn:E.
  - destruct (Hk a _ _ _ H) as [-> ->]. exact (Hm _ _ _ E).
  - inversion H; subst. exact (Hm _ _ _ E).
Qed.

Lemma reads_only_product_of c : reads_only (product_of c).
Proof.
  unfold product_of. apply reads_only_bind; [apply reads_only_read|].
  intros [p|]; [apply reads_only_ret|apply reads_only_raise].
Qed.

Lemma reads_only_get_subtotal c : reads_only (get_subtotal c).
Proof.
  unfold get_subtotal. apply reads_only_bind; [apply reads_only_product_of|].
  intros p. apply reads_only_ret.
Qed.

Lemma product_of_done c s p s' :
  product_of c s = (Done p, s') ->
  get_product (txn s) (CartItem.product_id c) = Some p.
Proof.
  unfold product_of, bind, read. simpl.
  destruct (get_product (txn s) (CartItem.product_id c)) as [p'|];
    [|discriminate].
  intros H. inversion H. reflexivity.
Qed.

(** A [mapM] of read-only work, when it is done, has related every input
    to its output, all in the same view of the store. *)
Lemma mapM_done {A B} (f : A -> Work B) (P : A -> B -> Prop) t xs :
  (forall x, reads_only (f x)) ->
  (forall x s y s', txn s = t -> f x s = (Done y, s') -> P x y) ->
  forall s ys s',
    txn s = t -> mapM f xs s = (Done ys, s') ->
    Forall2 P xs ys /\ persisted s' = persisted s /\ txn s' = t.
Proof.
  intros Hro HP. induction xs as [|x xs IH]; intros s ys s' Ht H; simpl in H.
  - inversion H; subst. auto.
  - apply bind_done in H. destruct H as (y & s1 & Hx & H).
    apply bind_done in H. destruct H as (ys' & s2 & Hxs & H).
    inversion H; subst.
    destruct (Hro x _ _ _ Hx) as [Hp1 Ht1].
    destruct (IH s1 ys' s' (eq_trans Ht1 eq_refl) Hxs) as (HF & Hp2 & Ht2).
    split; [|split].
    + constructor; [eapply HP; [reflexivity|exact Hx]|exact HF].
    + congruence.
    + exact Ht2.
Qed.

Lemma forM_modify {A} (g : A -> DB -> DB) xs s :
  forM_ xs (fun x => modify (g x)) s
  = (Done tt,
     mkSession (persisted s) (fold_left (fun d x => g x d) xs (txn s))
       (emitted s)).
Proof.
  revert s. induction xs as [|x xs IH]; intros s; simpl.
  - destruct s; reflexivity.
  - unfold bind at 1. simpl. rewrite IH. reflexivity.
Qed.

(** The rows that the items of an order add to the store. *)
Lemma insert_order_items oid items d :
  let d' := fold_left (fun d item => insert_order_item oid item d) items d in
  users d' = users d /\ products d' = products d /\
  cart_items d' = cart_items d /\ orders d' = orders d /\
  exists rows,
    order_items d' = (order_items d ++ rows)%list /\
    Forall2 (fun item row =>
               OrderItem.order_id row = oid /\
               (OrderItem.product_id row, OrderItem.quantity row,
                OrderItem.price row) = item) items rows.
Proof.
  revert d. induction items as [|[[pid q] pr] items IH]; intros d; simpl.
  - repeat split. exists []. rewrite app_nil_r. split; constructor.
  - match goal with |- context [fold_left _ items ?d1] =>
      destruct (IH d1) as (Hu & Hp & Hc & Ho & rows & Hrows & HF)
    end.
    simpl in *. rewrite Hu, Hp, Hc, Ho. repeat split.
    eexists (_ :: rows). split.
    + rewrite Hrows, <- app_assoc. reflexivity.
    + constructor; [simpl; auto|exact HF].
Qed.

Lemma fault_point_done env s u s' :
  fault_point env s = (Done u, s') ->
  persisted s' = persisted s /\ txn s' = txn s.
Proof. apply reads_only_fault_point. Qed.

Lemma session_add_order_done env uid addr notes total items s oid s' :
  session_add_order env uid addr notes total items s = (Done oid, s') ->
  oid = fresh_id (map Order.id (orders (txn s))) /\
  persisted s' = persisted s /\
  txn s' =
    fold_left (fun d item => insert_order_item oid item d) items
      (with_orders
         (orders (txn s) ++ [Order.mk oid uid total "pending" addr notes])%list
         (txn s)).
Proof.
  unfold session_add_order. intros H.
  apply bind_done in H. destruct H as (u & s1 & Hfp & H).
  apply fault_point_done in Hfp. destruct Hfp as [Hp1 Ht1].
  apply bind_done in H. destruct H as (oid' & s2 & Hread & H).
  unfold read in Hread. inversion Hread; subst oid' s2. clear Hread.
  apply bind_done in H. destruct H as (u2 & s3 & Hmod & H).
  unfold modify in Hmod. inversion Hmod; subst u2 s3. clear Hmod.
  apply bind_done in H. destruct H as (u3 & s4 & Hitems & H).
  rewrite forM_modify in Hitems. inversion Hitems; subst u3 s4. clear Hitems.
  inversion H; subst. simpl. rewrite Ht1, Hp1. auto.
Qed.

(** Cart deletions touch the cart rows of the view and nothing else. *)
Lemma forM_delete_done env cart s u s' :
  forM_ cart (session_delete_cart_item env) s = (Done u, s') ->
  persisted s' = persisted s /\
  orders (txn s') = orders (txn s) /\
  order_items (txn s') = order_items (txn s).
Proof.
  revert s. induction cart as [|c cart IH]; intros s H; simpl in H.
  - inversion H; auto.
  - apply bind_done in H. destruct H as (u1 & s1 & Hdel & H).
    unfold session_delete_cart_item in Hdel.
    apply bind_done in Hdel. destruct Hdel as (u2 & s2 & Hfp & Hmod).
    apply fault_point_done in Hfp. destruct Hfp as [Hp Ht].
    unfold modify in Hmod. inversion Hmod; subst u1 s1. clear Hmod.
    destruct (IH _ H) as (Hp' & Ho & Hi). simpl in *.
    rewrite Hp', Ho, Hi, Hp, Ht. auto.
Qed.

Lemma session_commit_done env s u s' :
  session_commit env s = (Done u, s') -> persisted s' = txn s.
Proof.
  unfold session_commit. intros H.
  apply bind_done in H. destruct H as (u1 & s1 & Hfp & H).
  apply fault_point_done in Hfp. destruct Hfp as [_ Ht].
  inversion H; subst. simpl. exact Ht.
Qed.

Lemma Forall2_compose {A B C} (P : A -> B -> Prop) (Q : B -> C -> Prop)
  (R : A -> C -> Prop) xs ys zs :
  (forall x y z, P x y -> Q y z -> R x z) ->
  Forall2 P xs ys -> Forall2 Q ys zs -> Forall2 R xs zs.
Proof.
  intros HR HP. revert zs.
  induction HP as [|x y xs ys Hxy HP IH]; intros zs HQ; inversion HQ; subst.
  - constructor.
  - constructor; [eapply HR; eassumption|apply IH; assumption].
Qed.

Lemma subtotals_of_snapshots d oid cart subtotals rows :
  Forall2 (fun c x =>
             exists p, get_product d (CartItem.product_id c) = Some p /\
                       x = PrimFloat.mul (Product.price p)
                             (float_of_int (CartItem.quantity c)))
          cart subtotals ->
  Forall2 (fun c row => snapshots d oid row c) cart rows ->
  subtotals = map OrderItem.get_subtotal rows.
Proof.
  intros H1. revert rows.
  induction H1 as [|c x cart subtotals Hcx _ IH];
    intros rows H2; inversion H2 as [|c' row cart' rows' Hs H2']; subst.
  - reflexivity.
  - simpl. f_equal; [|apply IH; exact H2'].
    destruct Hcx as (p & Hp & ->).
    destruct Hs as (_ & _ & Hq & p' & Hp' & Hpr).
    unfold OrderItem.get_subtotal. congruence.
Qed.

(** What a finished [try] block of checkout has persisted: one more order,
    with the fresh id, the status pending and the sum of its items'
    subtotals as total, and one order item per cart item. *)
Lemma place_order_done env uid cart addr notes d oid s :
  place_order env uid cart addr notes (begin d) = (Done oid, s) ->
  exists rows,
    oid = fresh_id (map Order.id (orders d)) /\
    orders (persisted s) =
      (orders d ++
       [Order.mk oid uid (py_sum (map OrderItem.get_subtotal rows))
          "pending" addr notes])%list /\
    order_items (persisted s) = (order_items d ++ rows)%list /\
    Forall2 (fun c row => snapshots d oid row c) cart rows.
Proof.
  unfold place_order. intros H.
  apply bind_done in H. destruct H as (subtotals & s1 & Hsub & H).
  eapply (mapM_done _
            (fun c x =>
               exists p, get_product d (CartItem.product_id c) = Some p /\
                         x = PrimFloat.mul (Product.price p)
                               (float_of_int (CartItem.quantity c))) d)
    in Hsub; [|apply reads_only_get_subtotal| |reflexivity].
  2:{ intros c s0 y s0' Ht Hc. unfold get_subtotal in Hc.
      apply bind_done in Hc. destruct Hc as (p & s0'' & Hp & Hc).
      apply product_of_done in Hp. rewrite Ht in Hp.
      inversion Hc; subst. exists p. split; [exact Hp|reflexivity]. }
  destruct Hsub as (Hsub & Hp1 & Ht1).
  apply bind_done in H. destruct H as (u & s2 & Hfp & H).
  apply fault_point_done in Hfp. destruct Hfp as [Hp2 Ht2].
  apply bind_done in H. destruct H as (items & s3 & Hitems & H).
  eapply (mapM_done _
            (fun c item =>
               exists p, get_product d (CartItem.product_id c) = Some p /\
                         item = (CartItem.product_id c, CartItem.quantity c,
                                 Product.price p)) d) in Hitems;
    [| | |congruence].
  2:{ intros c. apply reads_only_bind; [apply reads_only_product_of|].
      intros p. apply reads_only_bind; [apply reads_only_fault_point|].
      intros _. apply reads_only_ret. }
  2:{ intros c s0 y s0' Ht Hc.
      apply bind_done in Hc. destruct Hc as (p & s0'' & Hp & Hc).
      apply product_of_done in Hp. rewrite Ht in Hp.
      apply bind_done in Hc. destruct Hc as (u' & s0''' & _ & Hc).
      inversion Hc; subst. exists p. split; [exact Hp|reflexivity]. }
  destruct Hitems as (Hitems & Hp3 & Ht3).
  apply bind_done in H. destruct H as (oid' & s4 & Hadd & H).
  apply session_add_order_done in Hadd. destruct Hadd as (Hoid & Hp4 & Ht4).
  apply bind_done in H. destruct H as (u5 & s5 & Hflush & H).
  apply fault_point_done in Hflush. destruct Hflush as [Hp5 Ht5].
  apply bind_done in H. destruct H as (u6 & s6 & Hdel & H).
  apply forM_delete_done in Hdel. destruct Hdel as (Hp6 & Ho6 & Hi6).
  apply bind_done in H. destruct H as (u7 & s7 & Hcommit & H).
  apply session_commit_done in Hcommit.
  inversion H; subst oid s. clear H.
  rewrite Ht3 in Hoid, Ht4.
  pose proof (insert_order_items oid' items
                (with_orders
                   (orders d ++
                    [Order.mk oid' uid (py_sum subtotals) "pending" addr
                       notes])%list d)) as Hins.
  cbv zeta in Hins. rewrite <- Ht4 in Hins.
  destruct Hins as (_ & _ & _ & Ho & rows & Hrows & HF).
  assert (Hsnap : Forall2 (fun c row => snapshots d oid' row c) cart rows).
  { eapply Forall2_compose; [|exact Hitems|exact HF].
    intros c item row (p & Hp & ->) (Hrow_oid & Hrow).
    inversion Hrow; subst. unfold snapshots. eauto 8. }
  exists rows. split; [exact Hoid|]. rewrite Hcommit, Ho6, Hi6, Ht5, Ho, Hrows.
  simpl. rewrite (subtotals_of_snapshots _ _ _ _ _ Hsub Hsnap).
  auto.
Qed.

Lemma filter_none {A} (f : A -> bool) xs :
  (forall x, In x xs -> f x = false) -> filter f xs = [].
Proof.
  induction xs as [|x xs IH]; intros H; simpl; [reflexivity|].
  rewrite (H x (or_introl eq_refl)). apply IH. intros y Hy. apply H.
  simpl; auto.
Qed.

Lemma filter_all {A} (f : A -> bool) xs :
  Forall (fun x => f x = true) xs -> filter f xs = xs.
Proof.
  induction 1 as [|x xs Hx _ IH]; simpl; [reflexivity|].
  rewrite Hx, IH. reflexivity.
Qed.

(** C2: after a successful checkout the new order's [total_amount] is the
    sum of price times quantity over its order items, added up from the
    left from 0, which is also what [calculate_total] yields for it; the
    order items snapshot, one for one and in order, the cart items of the
    token, which are not none: product, cart quantity, and the product's
    price at placement. *)
Theorem checkout_total_amount env shipping_address notes fs d oid fs' d' :
  order_items_owned d ->
  checkout env POST shipping_address notes fs d
  = (Redirect [("Order placed successfully!", "success")]
       (order_confirmation_page oid), fs', d') ->
  exists order,
    get_order d' oid = Some order /\
    Order.total_amount order = calculate_total d' order /\
    Order.total_amount order
    = py_sum (map (fun i => PrimFloat.mul (OrderItem.price i)
                              (float_of_int (OrderItem.quantity i)))
                (items_of d' oid)) /\
    Forall2 (snapshots d oid) (items_of d' oid)
      (cart_of d (fst (get_session_id env fs))) /\
    cart_of d (fst (get_session_id env fs)) <> [] /\
    Order.total_amount order
    = fold_left
        (fun acc i =>
           PrimFloat.add acc
             (PrimFloat.mul (OrderItem.price i)
                (float_of_int (OrderItem.quantity i))))
        (items_of d' oid) 0%float /\
    Forall2
      (fun i c =>
         OrderItem.order_id i = oid /\
         OrderItem.product_id i = CartItem.product_id c /\
         OrderItem.quantity i = CartItem.quantity c /\
         option_map Product.price (get_product d (CartItem.product_id c))
         = Some (OrderItem.price i))
      (items_of d' oid)
      (filter (fun c => String.eqb (CartItem.session_id c)
                          (fst (get_session_id env fs)))
         (cart_items d)).
Proof.
  intros Hfk Hrun. unfold checkout, login_required in Hrun.
  destruct (current_user fs d) as [user|]; [|discriminate].
  destruct (get_session_id env fs) as [sid fs1]. simpl fst.
  fold (cart_of d sid).
  destruct (cart_of d sid) as [|c cart] eqn:Ecart; [discriminate|].
  destruct shipping_address as [[|a addr]|]; try discriminate.
  unfold try_except in Hrun.
  destruct (place_order _ _ _ _ _ (begin d)) as [[oid'|e] s] eqn:E;
    [|discriminate].
  inversion Hrun; subst oid' fs1 d'. clear Hrun.
  apply place_order_done in E.
  destruct E as (rows & Hoid & Horders & Hitems & Hsnap).
  set (order := Order.mk oid (User.id user)
                  (py_sum (map OrderItem.get_subtotal rows)) "pending"
                  (String a addr) (get_or_else notes "")) in *.
  assert (Hfresh : forall o, In o (orders d) -> Order.id o <> oid).
  { intros o Ho. apply (in_map Order.id) in Ho.
    apply fresh_id_above in Ho. lia. }
  assert (Hmine : items_of (persisted s) oid = rows).
  { unfold items_of. rewrite Hitems, filter_app.
    rewrite filter_none, filter_all; [reflexivity| |].
    - clear -Hsnap. induction Hsnap as [|c0 row cart0 rows0 Hs _ IH];
        constructor; [|exact IH].
      destruct Hs as (-> & _). apply Z.eqb_refl.
    - intros i Hi. unfold order_items_owned in Hfk.
      rewrite Forall_forall in Hfk. specialize (Hfk i Hi).
      apply fresh_id_above in Hfk. apply Z.eqb_neq. lia. }
  exists order. split; [|split; [|split; [|split; [|split; [|split]]]]].
  - unfold get_order. rewrite Horders.
    apply find_app_fresh; [exact Hfresh|reflexivity].
  - unfold calculate_total. simpl Order.id. rewrite Hmine. reflexivity.
  - rewrite Hmine. reflexivity.
  - rewrite Hmine. clear -Hsnap.
    induction Hsnap; constructor; assumption.
  - discriminate.
  - rewrite Hmine. subst order. cbn [Order.total_amount]. unfold py_sum.
    generalize 0%float. clear. induction rows as [|i rows IH]; intros acc;
      [reflexivity|].
    cbn [map fold_left]. rewrite IH. reflexivity.
  - rewrite Hmine. clear -Hsnap.
    induction Hsnap as [|c0 row cart0 rows0 Hs _ IH]; constructor;
      [|exact IH].
    destruct Hs as (Ho & Hp & Hq & p & Hget & Hprice).
    rewrite Hget, Hprice. auto.
Qed.

Set Warnings "-inexact-float".

(** The two apples and the banana of the specification's scenario: the
    order of 15.97 with its two items, at 5.99 and 3.99, out of the two
    rows of the cart. *)
Lemma checkout_total_amount_witness :
  get_order Sample.store_after_checkout 1
  = Some (Order.mk 1 1 15.97%float "pending" "123 Main St" "") /\
  items_of Sample.store_after_checkout 1
  = [OrderItem.mk 1 1 1 2 5.99%float; OrderItem.mk 2 1 2 1 3.99%float] /\
  cart_of Sample.store Sample.token
  = [CartItem.mk 1 Sample.token 1 2; CartItem.mk 2 Sample.token 2 1] /\
  exists order,
    get_order Sample.store_after_checkout 1 = Some order /\
    Order.total_amount order
    = calculate_total Sample.store_after_checkout order /\
    Order.total_amount order
    = py_sum (map (fun i => PrimFloat.mul (OrderItem.price i)
                              (float_of_int (OrderItem.quantity i)))
                (items_of Sample.store_after_checkout 1)) /\
    Forall2 (snapshots Sample.store 1)
      (items_of Sample.store_after_checkout 1)
      (cart_of Sample.store
         (fst (get_session_id Sample.quiet Sample.alice_browser))) /\
    cart_of Sample.store
      (fst (get_session_id Sample.quiet Sample.alice_browser)) <> [] /\
    Order.total_amount order
    = fold_left
        (fun acc i =>
           PrimFloat.add acc
             (PrimFloat.mul (OrderItem.price i)
                (float_of_int (OrderItem.quantity i))))
        (items_of Sample.store_after_checkout 1) 0%float /\
    Forall2
      (fun i c =>
         OrderItem.order_id i = 1 /\
         OrderItem.product_id i = CartItem.product_id c /\
         OrderItem.quantity i = CartItem.quantity c /\
         option_map Product.price
           (get_product Sample.store (CartItem.product_id c))
         = Some (OrderItem.price i))
      (items_of Sample.store_after_checkout 1)
      (filter (fun c => String.eqb (CartItem.session_id c)
                          (fst (get_session_id Sample.quiet
                                  Sample.alice_browser)))
         (cart_items Sample.store)).
Proof.
  split; [vm_compute; reflexivity|].
  split; [vm_compute; reflexivity|].
  split; [vm_compute; reflexivity|].
  apply (checkout_total_amount Sample.quiet (Some "123 Main St") None
           Sample.alice_browser Sample.store 1 Sample.alice_browser).
  - constructor.
  - reflexivity.
Defined.

Set Warnings "-inexact-float".

(** The scenario of the specification: the total is 15.97, two order items
    are written and the cart is empty afterwards. *)
Example checkout_scenario :
  map Order.total_amount (orders Sample.store_after_checkout)
  = [15.97%float] /\
  map (fun i => (OrderItem.product_id i, OrderItem.quantity i,
                 OrderItem.price i))
      (order_items Sample.store_after_checkout)
  = [(1, 2, 5.99%float); (2, 1, 3.99%float)] /\
  cart_of Sample.store_after_checkout Sample.token = [].
Proof. vm_compute. repeat split; reflexivity. Qed.

(** ** Properties kept by every piece of work *)

Section Preservation.
Variable P : DB -> Prop.

Lemma preserves_ret {A} (a : A) : preserves P (ret a).
Proof. intros s r s' H. inversion H. auto. Qed.

Lemma preserves_raise {A} e : preserves P (@raise A e).
Proof. intros s r s' H. inversion H. auto. Qed.

Lemma preserves_read {A} (f : DB -> A) : preserves P (read f).
Proof. intros s r s' H. inversion H. auto. Qed.

Lemma preserves_fault_point env : preserves P (fault_point env).
Proof.
  intros s r s' H. unfold fault_point in H.
  destruct (raises env (emitted s)); inversion H; auto.
Qed.

Lemma preserves_modify f :
  (forall d, P d -> P (f d)) -> preserves P (modify f).
Proof. intros Hf s r s' H. inversion H. simpl. auto. Qed.

Lemma preserves_bind {A B} (m : Work A) (k : A -> Work B) :
  preserves P m -> (forall a, preserves P (k a)) -> preserves P (bind m k).
Proof.
  intros Hm Hk s r s' H Hp Ht. unfold bind in H.
  destruct (m s) as [[a|e] s1] eqn:E.
  - destruct (Hm _ _ _ E Hp Ht) as [Hp1 Ht1]. exact (Hk a _ _ _ H Hp1 Ht1).
  - inversion H; subst. exact (Hm _ _ _ E Hp Ht).
Qed.

Lemma preserves_mapM {A B} (f : A -> Work B) xs :
  (forall x, preserves P (f x)) -> preserves P (mapM f xs).
Proof.
  intros Hf. induction xs as [|x xs IH]; simpl.
  - apply preserves_ret.
  - apply preserves_bind; [apply Hf|]. intros y.
    apply preserves_bind; [exact IH|]. intros ys. apply preserves_ret.
Qed.

Lemma preserves_forM_ {A} (f : A -> Work unit) xs :
  (forall x, preserves P (f x)) -> preserves P (forM_ xs f).
Proof.
  intros Hf. induction xs as [|x xs IH]; simpl.
  - apply preserves_ret.
  - apply preserves_bind; [apply Hf|]. intros _. exact IH.
Qed.

Lemma preserves_session_commit env : preserves P (session_commit env).
Proof.
  unfold session_commit. apply preserves_bind; [apply preserves_fault_point|].
  intros _ s r s' H. inversion H. simpl. auto.
Qed.

Lemma preserves_product_of c : preserves P (product_of c).
Proof.
  unfold product_of. apply preserves_bind; [apply preserves_read|].
  intros [p|]; [apply preserves_ret|apply preserves_raise].
Qed.

Lemma preserves_get_subtotal c : preserves P (get_subtotal c).
Proof.
  unfold get_subtotal. apply preserves_bind; [apply preserves_product_of|].
  intros p. apply preserves_ret.
Qed.

(** What a [try] block keeps, the request keeps. *)
Lemma try_except_preserves {A} (body : Work A) d :
  preserves P body -> P d -> P (snd (try_except body d)).
Proof.
  intros Hbody Hd. unfold try_except.
  destruct (body (begin d)) as [[a|e] s] eqn:E;
    destruct (Hbody _ _ _ E Hd Hd) as [Hp _]; exact Hp.
Qed.

(** The writes of the cart handlers. *)
Hypothesis P_cart : forall cs d, P d -> P (with_cart_items cs d).

Lemma preserves_session_add_cart_item env sid pid q :
  preserves P (session_add_cart_item env sid pid q).
Proof.
  unfold session_add_cart_item.
  apply preserves_bind; [apply preserves_fault_point|]. intros _.
  apply preserves_modify. intros d Hd. apply P_cart. exact Hd.
Qed.

Lemma preserves_session_delete_cart_item env c :
  preserves P (session_delete_cart_item env c).
Proof.
  unfold session_delete_cart_item.
  apply preserves_bind; [apply preserves_fault_point|]. intros _.
  apply preserves_modify. intros d Hd. apply P_cart. exact Hd.
Qed.

Lemma add_to_cart_preserves env pid q fs d :
  P d -> P (snd (add_to_cart env pid q fs d)).
Proof.
  intros Hd. unfold add_to_cart.
  destruct (get_product d pid) as [p|]; [|exact Hd].
  destruct (Product.stock p) as [stock|]; [|exact Hd].
  destruct (_ >? stock); [exact Hd|].
  destruct (get_session_id env fs) as [sid fs1].
  match goal with |- context [try_except ?b d] =>
    assert (Hb : preserves P b); [|pose proof (try_except_preserves b d Hb Hd);
      destruct (try_except b d) as [[?|?] ?]; assumption] end.
  apply preserves_bind; [|intros _; apply preserves_session_commit].
  destruct (find _ (cart_items d)).
  - apply preserves_modify. intros v Hv. apply P_cart. exact Hv.
  - apply preserves_bind; [apply preserves_fault_point|]. intros _.
    apply preserves_session_add_cart_item.
Qed.

Lemma update_cart_item_preserves env k q fs d :
  P d -> P (snd (update_cart_item env k q fs d)).
Proof.
  intros Hd. unfold update_cart_item.
  destruct (get_cart_item d k) as [c|]; [|exact Hd].
  destruct (get_product d _) as [p|]; [|exact Hd].
  destruct (Product.stock p) as [stock|]; [|exact Hd].
  destruct (_ >? stock); [exact Hd|].
  match goal with |- context [try_except ?b d] =>
    assert (Hb : preserves P b); [|pose proof (try_except_preserves b d Hb Hd);
      destruct (try_except b d) as [[?|?] ?]; assumption] end.
  apply preserves_bind; [|intros _; apply preserves_session_commit].
  apply preserves_modify. intros v Hv. apply P_cart. exact Hv.
Qed.

Lemma remove_from_cart_preserves env k fs d :
  P d -> P (snd (remove_from_cart env k fs d)).
Proof.
  intros Hd. unfold remove_from_cart.
  destruct (get_cart_item d k) as [c|]; [|exact Hd].
  destruct (get_product d _) as [p|]; [|exact Hd].
  match goal with |- context [try_except ?b d] =>
    assert (Hb : preserves P b); [|pose proof (try_except_preserves b d Hb Hd);
      destruct (try_except b d) as [[?|?] ?]; assumption] end.
  apply preserves_bind; [|intros _; apply preserves_session_commit].
  apply preserves_session_delete_cart_item.
Qed.

(** The write of the product editor. *)
Hypothesis P_products : forall ps d, P d -> P (with_products ps d).

Lemma admin_edit_product_preserves env pid method form fs d :
  P d -> P (snd (admin_edit_product env pid method form fs d)).
Proof.
  intros Hd. unfold admin_edit_product, login_required, admin_required.
  destruct (current_user fs d) as [u|]; [|exact Hd].
  destruct (User.is_admin u); [|exact Hd].
  destruct (get_product d pid) as [p|]; [|exact Hd].
  destruct method; [exact Hd|].
  destruct (handle_upload form) as [flashed_ uploaded].
  match goal with |- context [try_except ?b d] =>
    assert (Hb : preserves P b); [|pose proof (try_except_preserves b d Hb Hd);
      destruct (try_except b d) as [[?|?] ?]; assumption] end.
  destruct (f_name form), (f_category form), (f_price form);
    try (apply preserves_bind; [apply preserves_fault_point|];
         intros _; apply preserves_raise).
  apply preserves_bind.
  - apply preserves_modify. intros v Hv. apply P_products. exact Hv.
  - intros _. apply preserves_bind; [apply preserves_session_commit|].
    intros _. apply preserves_ret.
Qed.

(** The write of the role toggle. *)
Hypothesis P_users : forall us d, P d -> P (with_users us d).

Lemma admin_toggle_admin_preserves env uid fs d :
  P d -> P (snd (admin_toggle_admin env uid fs d)).
Proof.
  intros Hd. unfold admin_toggle_admin, login_required, admin_required.
  destruct (current_user fs d) as [u|]; [|exact Hd].
  destruct (User.is_admin u); [|exact Hd].
  destruct (uid =? User.id u); [exact Hd|].
  destruct (get_user d uid) as [target|]; [|exact Hd].
  match goal with |- context [try_except ?b d] =>
    assert (Hb : preserves P b); [|pose proof (try_except_preserves b d Hb Hd);
      destruct (try_except b d) as [[?|?] ?]; assumption] end.
  apply preserves_bind; [|intros _; apply preserves_session_commit].
  apply preserves_modify. intros v Hv. apply P_users. exact Hv.
Qed.
(** The writes of checkout and of the status update. *)
Hypothesis P_order_items : forall its d, P d -> P (with_order_items its d).
Hypothesis P_new_order :
  forall o d, Order.status o = "pending" -> P d ->
              P (with_orders (orders d ++ [o])%list d).
Hypothesis P_set_status :
  forall k st d, In st ORDER_STATUSES -> P d ->
                 P (with_orders
                      (update_row Order.id k (Order.set_status st) (orders d))
                      d).

Lemma preserves_session_add_order env uid addr notes total items :
  preserves P (session_add_order env uid addr notes total items).
Proof.
  unfold session_add_order.
  apply preserves_bind; [apply preserves_fault_point|]. intros _.
  apply preserves_bind; [apply preserves_read|]. intros oid.
  apply preserves_bind.
  { apply preserves_modify. intros v Hv. apply P_new_order; auto. }
  intros _. apply preserves_bind; [|intros _; apply preserves_ret].
  apply preserves_forM_. intros [[pid q] pr].
  apply preserves_modify. intros v Hv. apply P_order_items. exact Hv.
Qed.

Lemma preserves_place_order env uid cart addr notes :
  preserves P (place_order env uid cart addr notes).
Proof.
  unfold place_order.
  apply preserves_bind.
  { apply preserves_mapM. intros c. apply preserves_get_subtotal. }
  intros subtotals.
  apply preserves_bind; [apply preserves_fault_point|]. intros _.
  apply preserves_bind.
  { apply preserves_mapM. intros c.
    apply preserves_bind; [apply preserves_product_of|]. intros p.
    apply preserves_bind; [apply preserves_fault_point|]. intros _.
    apply preserves_ret. }
  intros items.
  apply preserves_bind; [apply preserves_session_add_order|]. intros oid.
  apply preserves_bind; [apply preserves_fault_point|]. intros _.
  apply preserves_bind.
  { apply preserves_forM_. intros c.
    apply preserves_session_delete_cart_item. }
  intros _.
  apply preserves_bind; [apply preserves_session_commit|]. intros _.
  apply preserves_ret.
Qed.

Lemma checkout_preserves env method addr notes fs d :
  P d -> P (snd (checkout env method addr notes fs d)).
Proof.
  intros Hd. unfold checkout, login_required.
  destruct (current_user fs d) as [u|]; [|exact Hd].
  destruct (get_session_id env fs) as [sid fs1].
  destruct (cart_of d sid) as [|c cart]; [exact Hd|].
  destruct method.
  - destruct (mapM get_subtotal (c :: cart) (begin d)) as [[?|?] ?];
      exact Hd.
  - destruct addr as [[|a addr]|]; try exact Hd.
    match goal with |- context [try_except ?b d] =>
      pose proof (try_except_preserves b d
                    (preserves_place_order _ _ _ _ _) Hd);
      destruct (try_except b d) as [[?|?] ?]; assumption end.
Qed.

Lemma order_confirmation_preserves oid fs d :
  P d -> P (snd (order_confirmation oid fs d)).
Proof.
  intros Hd. unfold order_confirmation, login_required.
  destruct (current_user fs d) as [u|]; [|exact Hd].
  destruct (get_order d oid) as [o|]; [|exact Hd].
  destruct (negb _); exact Hd.
Qed.

Lemma admin_update_order_status_preserves env oid st fs d :
  P d -> P (snd (admin_update_order_status env oid st fs d)).
Proof.
  intros Hd.
  unfold admin_update_order_status, login_required, admin_required.
  destruct (current_user fs d) as [u|]; [|exact Hd].
  destruct (User.is_admin u); [|exact Hd].
  destruct (get_order d oid) as [o|]; [|exact Hd].
  destruct st as [st|]; [|exact Hd].
  destruct (existsb (String.eqb st) ORDER_STATUSES) eqn:Est; [|exact Hd].
  match goal with |- context [try_except ?b d] =>
    assert (Hb : preserves P b); [|pose proof (try_except_preserves b d Hb Hd);
      destruct (try_except b d) as [[?|?] ?]; assumption] end.
  apply preserves_bind; [|intros _; apply preserves_session_commit].
  apply preserves_modify. intros v Hv. apply P_set_status; [|exact Hv].
  apply existsb_exists in Est. destruct Est as (x & Hx & Heq).
  apply String.eqb_eq in Heq. subst x. exact Hx.
Qed.

(** A property kept by every write is kept by every request, and by every
    sequence of requests. *)
Lemma handle_preserves env r fs d : P d -> P (snd (handle env r fs d)).
Proof.
  destruct r; simpl.
  - apply add_to_cart_preserves.
  - apply update_cart_item_preserves.
  - apply remove_from_cart_preserves.
  - apply checkout_preserves.
  - apply order_confirmation_preserves.
  - apply admin_edit_product_preserves.
  - apply admin_update_order_status_preserves.
  - apply admin_toggle_admin_preserves.
Qed.

Lemma serve_preserves trace d : P d -> P (serve trace d).
Proof.
  revert d. induction trace as [|[[env fs] r] trace IH]; intros d Hd; simpl.
  - exact Hd.
  - apply IH. apply handle_preserves. exact Hd.
Qed.
End Preservation.

(** ** The short [try] blocks: one write, one commit *)

Lemma try_modify_commit env f d :
  try_except (modify f ;; session_commit env) d
  = match raises env 0 with
    | Some e => (Raised e, d)
    | None => (Done tt, f d)
    end.
Proof.
  unfold try_except, session_commit, bind, modify, fault_point, begin.
  simpl. destruct (raises env 0); reflexivity.
Qed.

Lemma try_delete_commit env c d :
  try_except (session_delete_cart_item env c ;; session_commit env) d
  = match raises env 0, raises env 1 with
    | Some e, _ => (Raised e, d)
    | None, Some e => (Raised e, d)
    | None, None =>
        (Done tt,
         with_cart_items
           (delete_row CartItem.id (CartItem.id c) (cart_items d)) d)
    end.
Proof.
  unfold try_except, session_delete_cart_item, session_commit, bind, modify,
    fault_point, begin.
  simpl. destruct (raises env 0); [reflexivity|]. simpl.
  destruct (raises env 1); reflexivity.
Qed.

(** ** The price snapshot *)

(** C4: whatever the product editor is sent after an order is placed, and
    however often, the order items of the store are what they were: every
    order item keeps the price it was written with. *)
Theorem price_snapshot_frozen
  (edits : list (Env * FlaskSession * Z * ProductForm)) (d : DB) :
  order_items (serve (product_edits edits) d) = order_items d /\
  forall oid,
    map OrderItem.price (items_of (serve (product_edits edits) d) oid)
    = map OrderItem.price (items_of d oid).
Proof.
  assert (H : order_items (serve (product_edits edits) d) = order_items d).
  { revert d. induction edits as [|[[[env fs] pid] form] edits IH];
      intros d; simpl; [reflexivity|].
    rewrite IH.
    apply (admin_edit_product_preserves
             (fun x => order_items x = order_items d)); auto. }
  split; [exact H|]. intros oid. unfold items_of. rewrite H. reflexivity.
Qed.

(** After Alice's checkout the price of the apples is raised to 9.99: the
    product carries the new price, her order item the old one. *)
Example price_snapshot_scenario :
  let d := serve (product_edits
                    [(Sample.quiet, Sample.root_browser, 1,
                      Sample.dearer_apples)])
             Sample.store_after_checkout in
  option_map Product.price (get_product d 1) = Some 9.99%float /\
  map OrderItem.price (items_of d 1) = [5.99%float; 3.99%float].
Proof. vm_compute. split; reflexivity. Qed.

(** ** Order statuses *)

Lemma status_accepted st :
  existsb (String.eqb st) ORDER_STATUSES = true <-> In st ORDER_STATUSES.
Proof.
  rewrite existsb_exists. split.
  - intros (x & Hx & Heq). apply String.eqb_eq in Heq. subst x. exact Hx.
  - intros H. exists st. split; [exact H|apply String.eqb_refl].
Qed.

Lemma statuses_enumerated_new_order o d :
  Order.status o = "pending" -> statuses_enumerated d ->
  statuses_enumerated (with_orders (orders d ++ [o])%list d).
Proof.
  unfold statuses_enumerated. simpl. intros Ho Hd.
  apply Forall_app. split; [exact Hd|].
  constructor; [|constructor]. rewrite Ho. simpl. auto.
Qed.

Lemma statuses_enumerated_set_status k st d :
  In st ORDER_STATUSES -> statuses_enumerated d ->
  statuses_enumerated
    (with_orders (update_row Order.id k (Order.set_status st) (orders d)) d).
Proof.
  unfold statuses_enumerated, update_row. simpl. intros Hst Hd.
  apply Forall_map. revert Hd. apply Forall_impl. intros o Ho.
  destruct (Order.id o =? k); [exact Hst|exact Ho].
Qed.

(** Every request keeps the statuses among the five. *)
Lemma serve_statuses_enumerated trace d :
  statuses_enumerated d -> statuses_enumerated (serve trace d).
Proof.
  apply serve_preserves; try (intros; assumption).
  - apply statuses_enumerated_new_order.
  - apply statuses_enumerated_set_status.
Qed.

(** C8: the status update of an admin writes a submitted status that is
    one of the five, refuses every other one with the message of a
    validation error and leaves the store as it was; so whatever requests
    are served, every persisted status stays one of the five. *)
Theorem order_status_enumerated env oid new_status fs d admin order :
  current_user fs d = Some admin -> User.is_admin admin = true ->
  get_order d oid = Some order ->
  let r := fst (fst (admin_update_order_status env oid new_status fs d)) in
  let d' := snd (admin_update_order_status env oid new_status fs d) in
  (forall st, new_status = Some st -> In st ORDER_STATUSES ->
              raises env 0 = None ->
              option_map Order.status (get_order d' oid) = Some st) /\
  ((forall st, new_status = Some st -> ~ In st ORDER_STATUSES) ->
   ValidationError r /\ d' = d) /\
  (forall trace,
     statuses_enumerated d -> statuses_enumerated (serve trace d)).
Proof.
  intros Hadmin Hflag Horder. cbv zeta.
  unfold admin_update_order_status, login_required, admin_required.
  rewrite Hadmin, Hflag, Horder.
  split; [|split].
  - intros st -> Hst Hquiet.
    apply status_accepted in Hst. rewrite Hst.
    rewrite try_modify_commit, Hquiet. simpl.
    unfold get_order. simpl.
    rewrite find_update_row by reflexivity.
    fold (get_order d oid). rewrite Horder. reflexivity.
  - intros Hbad. destruct new_status as [st|].
    + destruct (existsb (String.eqb st) ORDER_STATUSES) eqn:E.
      * apply status_accepted in E. exfalso. exact (Hbad st eq_refl E).
      * simpl. auto.
    + simpl. auto.
  - intros trace. apply serve_statuses_enumerated.
Qed.

(** An admin submits the status refunded for Alice's order. *)
Lemma order_status_enumerated_witness :
  ValidationError
    (fst (fst (admin_update_order_status Sample.quiet 1 (Some "refunded")
                 Sample.root_browser Sample.store_after_checkout))) /\
  snd (admin_update_order_status Sample.quiet 1 (Some "refunded")
         Sample.root_browser Sample.store_after_checkout)
  = Sample.store_after_checkout.
Proof.
  eapply (order_status_enumerated Sample.quiet 1 (Some "refunded")
            Sample.root_browser Sample.store_after_checkout).
  - reflexivity.
  - reflexivity.
  - reflexivity.
  - intros st Hst. inversion Hst; subst st. simpl.
    intros [H|[H|[H|[H|[H|[]]]]]]; discriminate H.
Defined.

(** ** Cart updates and removals *)

Lemma clamp_is_max (q : Z) : (if q <? 1 then 1 else q) = Z.max 1 q.
Proof. destruct (Z.ltb_spec q 1); lia. Qed.




(** C10: no ownership check stands between a session and a cart item:
    whatever session cookie the request carries, the update of an existing
    cart item within stock and its removal go through, and neither the
    response nor the store depends on the cookie. *)
Theorem cart_item_no_ownership_check env k q fs d c p stock :
  get_cart_item d k = Some c ->
  get_product d (CartItem.product_id c) = Some p ->
  Product.stock p = Some stock ->
  Z.max 1 (get_or_else q 1) <= stock ->
  raises env 0 = None -> raises env 1 = None ->
  (fst (fst (update_cart_item env k q fs d))
   = Redirect [("Cart updated.", "success")] view_cart /\
   get_cart_item (snd (update_cart_item env k q fs d)) k
   = Some (CartItem.set_quantity (Z.max 1 (get_or_else q 1)) c)) /\
  (fst (fst (remove_from_cart env k fs d))
   = Redirect [(Product.name p ++ " removed from cart.", "success")]
       view_cart /\
   get_cart_item (snd (remove_from_cart env k fs d)) k = None) /\
  (forall fs2,
     fst (fst (update_cart_item env k q fs2 d))
     = fst (fst (update_cart_item env k q fs d)) /\
     snd (update_cart_item env k q fs2 d)
     = snd (update_cart_item env k q fs d) /\
     fst (fst (remove_from_cart env k fs2 d))
     = fst (fst (remove_from_cart env k fs d)) /\
     snd (remove_from_cart env k fs2 d) = snd (remove_from_cart env k fs d)).
Proof.
  intros Hc Hp Hstock Hle H0 H1. split; [|split].
  - unfold update_cart_item. rewrite clamp_is_max, Hc, Hp, Hstock.
    destruct (Z.gtb_spec (Z.max 1 (get_or_else q 1)) stock) as [Hgt|_];
      [lia|].
    rewrite try_modify_commit, H0. simpl. split; [reflexivity|].
    unfold get_cart_item. simpl.
    rewrite find_update_row by reflexivity.
    fold (get_cart_item d k). rewrite Hc. reflexivity.
  - unfold remove_from_cart. rewrite Hc, Hp.
    rewrite try_delete_commit, H0, H1. simpl. split; [reflexivity|].
    unfold get_cart_item in *. simpl.
    apply find_some in Hc. destruct Hc as [_ Hk]. apply Z.eqb_eq in Hk.
    rewrite Hk. apply find_delete_row.
  - intros fs2. unfold update_cart_item, remove_from_cart.
    rewrite Hc, Hp, Hstock.
    rewrite try_modify_commit, try_delete_commit, H0, H1.
    destruct (_ >? stock); repeat split.
Qed.

(** The admin's browser, which holds another cart token, rewrites and
    removes the first row of Alice's cart. *)
Lemma cart_item_no_ownership_check_witness :
  cart_session Sample.root_browser
  <> option_map CartItem.session_id (get_cart_item Sample.store 1) /\
  get_cart_item
    (snd (update_cart_item Sample.quiet 1 (Some 7) Sample.root_browser
            Sample.store)) 1
  = Some (CartItem.mk 1 Sample.token 1 7) /\
  get_cart_item
    (snd (remove_from_cart Sample.quiet 1 Sample.root_browser Sample.store))
    1 = None.
Proof.
  split; [discriminate|].
  destruct (cart_item_no_ownership_check Sample.quiet 1 (Some 7)
              Sample.root_browser Sample.store
              (CartItem.mk 1 Sample.token 1 2) Sample.apples 50)
    as ((_ & Hupd) & (_ & Hrem) & _).
  - reflexivity.
  - reflexivity.
  - reflexivity.
  - simpl. lia.
  - reflexivity.
  - reflexivity.
  - split; [exact Hupd|exact Hrem].
Defined.

(** ** Reading an order back *)

(** C7: [order_confirmation] shows an existing order to the logged-in user
    who owns it and turns every other logged-in user away with the message
    of a missing permission; the store is not touched. *)
Theorem order_confirmation_owner_only oid fs d user order :
  current_user fs d = Some user ->
  get_order d oid = Some order ->
  let r := fst (fst (order_confirmation oid fs d)) in
  (Order.user_id order <> User.id user -> Forbidden r) /\
  (Order.user_id order = User.id user ->
   r = Render [] (order_confirmation_html order)) /\
  snd (order_confirmation oid fs d) = d.
Proof.
  intros Huser Horder. cbv zeta.
  unfold order_confirmation, login_required. rewrite Huser, Horder.
  destruct (Z.eqb_spec (Order.user_id order) (User.id user)) as [Heq|Hne];
    simpl; repeat split; intros; try reflexivity; contradiction.
Qed.

(** The admin asks for Alice's order. *)
Lemma order_confirmation_owner_only_witness :
  Forbidden (fst (fst (order_confirmation 1 Sample.root_browser
                         Sample.store_after_checkout))) /\
  fst (fst (order_confirmation 1 Sample.alice_browser
              Sample.store_after_checkout))
  = Render []
      (order_confirmation_html
         (Order.mk 1 1 15.97%float "pending" "123 Main St" "")).
Proof.
  split.
  - destruct (order_confirmation_owner_only 1 Sample.root_browser
                Sample.store_after_checkout Sample.root
                (Order.mk 1 1 15.97%float "pending" "123 Main St" "")
                eq_refl eq_refl) as (Hother & _ & _).
    apply Hother. discriminate.
  - destruct (order_confirmation_owner_only 1 Sample.alice_browser
                Sample.store_after_checkout Sample.alice
                (Order.mk 1 1 15.97%float "pending" "123 Main St" "")
                eq_refl eq_refl) as (_ & Hown & _).
    apply Hown. reflexivity.
Defined.

(** ** The role toggle *)



(** ** Adding to the cart *)

(** The stock check of [add_to_cart] reads the requested quantity alone:
    the request is refused for insufficient stock exactly when the
    requested quantity, at least 1, exceeds the stock, whatever the cart
    already holds. *)
Lemma add_to_cart_checks_request_only env pid q fs d p stock :
  get_product d pid = Some p -> Product.stock p = Some stock ->
  (InsufficientStock (fst (fst (add_to_cart env pid q fs d)))
   <-> stock < Z.max 1 (get_or_else q 1)).
Proof.
  intros Hp Hstock. unfold add_to_cart. rewrite Hp, Hstock, clamp_is_max.
  destruct (Z.gtb_spec (Z.max 1 (get_or_else q 1)) stock) as [Hgt|Hle].
  - simpl. split; [intros _; exact Hgt|auto].
  - destruct (get_session_id env fs) as [sid fs1].
    destruct (try_except _ d) as [[u|e] d1]; simpl;
      (split; [intros [H|[]]; inversion H|lia]).
Qed.

(** With no row for the token and the product, a request within stock
    writes a row with the requested quantity, at least 1. *)
Lemma add_to_cart_new_row env pid q fs d p stock :
  get_product d pid = Some p -> Product.stock p = Some stock ->
  Z.max 1 (get_or_else q 1) <= stock ->
  find (fun c =>
          String.eqb (CartItem.session_id c) (fst (get_session_id env fs)) &&
          (CartItem.product_id c =? pid)) (cart_items d) = None ->
  raises env 0 = None -> raises env 1 = None -> raises env 2 = None ->
  cart_items (snd (add_to_cart env pid q fs d))
  = (cart_items d ++
     [CartItem.mk (fresh_id (map CartItem.id (cart_items d)))
        (fst (get_session_id env fs)) pid (Z.max 1 (get_or_else q 1))])%list.
Proof.
  intros Hp Hstock Hle Hnone H0 H1 H2.
  unfold add_to_cart. rewrite Hp, Hstock, clamp_is_max.
  destruct (Z.gtb_spec (Z.max 1 (get_or_else q 1)) stock) as [Hgt|_]; [lia|].
  destruct (get_session_id env fs) as [sid fs1]. simpl in Hnone.
  rewrite Hnone.
  unfold try_except, session_add_cart_item, session_commit, bind, modify,
    fault_point, begin.
  simpl. rewrite H0. simpl. rewrite H1. simpl. rewrite H2. reflexivity.
Qed.

(** With a row for the token and the product, a request within stock adds
    the requested quantity to the row's, with no look at the sum. *)
Lemma add_to_cart_existing_row env pid q fs d p stock c :
  get_product d pid = Some p -> Product.stock p = Some stock ->
  Z.max 1 (get_or_else q 1) <= stock ->
  find (fun c =>
          String.eqb (CartItem.session_id c) (fst (get_session_id env fs)) &&
          (CartItem.product_id c =? pid)) (cart_items d) = Some c ->
  raises env 0 = None ->
  fst (fst (add_to_cart env pid q fs d))
  = Redirect [(Product.name p ++ " added to cart!", "success")] view_cart /\
  get_cart_item (snd (add_to_cart env pid q fs d)) (CartItem.id c)
  = option_map
      (fun r => CartItem.set_quantity
                  (CartItem.quantity r + Z.max 1 (get_or_else q 1)) r)
      (get_cart_item d (CartItem.id c)).
Proof.
  intros Hp Hstock Hle Hsome H0.
  unfold add_to_cart. rewrite Hp, Hstock, clamp_is_max.
  destruct (Z.gtb_spec (Z.max 1 (get_or_else q 1)) stock) as [Hgt|_]; [lia|].
  destruct (get_session_id env fs) as [sid fs1]. simpl in Hsome.
  rewrite Hsome, try_modify_commit, H0. simpl. split; [reflexivity|].
  unfold get_cart_item. simpl. apply find_update_row. reflexivity.
Qed.

(** C3, at a cart that holds 2 apples of 50 in stock: 49 more are asked
    for.  The combined total 51 exceeds the stock, yet the request is not
    refused and the row is written with 51. *)
Theorem add_to_cart_combined_total_unchecked :
  let r := fst (fst (add_to_cart Sample.quiet 1 (Some 49)
                       Sample.alice_browser Sample.store)) in
  let d' := snd (add_to_cart Sample.quiet 1 (Some 49) Sample.alice_browser
                   Sample.store) in
  option_map CartItem.quantity (get_cart_item Sample.store 1) = Some 2 /\
  option_map Product.stock (get_product Sample.store 1) = Some (Some 50) /\
  r = Redirect [("Red Apples added to cart!", "success")] view_cart /\
  ~ InsufficientStock r /\
  cart_of d' Sample.token
  = [CartItem.mk 1 Sample.token 1 51; CartItem.mk 2 Sample.token 2 1].
Proof.
  cbv zeta. repeat split.
  intros [H|[]]. discriminate H.
Qed.

(** ** The catalogue listing *)

Lemma lower_append s t : lower (s ++ t) = lower s ++ lower t.
Proof.
  induction s as [|c s IH]; simpl; [reflexivity|].
  rewrite IH. reflexivity.
Qed.

Lemma is_wildcard_lower c : is_wildcard (lower_ascii c) = is_wildcard c.
Proof. destruct c as [[] [] [] [] [] [] [] []]; reflexivity. Qed.

Lemma wildcard_free_lower s : wildcard_free (lower s) = wildcard_free s.
Proof.
  induction s as [|c s IH]; simpl; [reflexivity|].
  rewrite is_wildcard_lower, IH. reflexivity.
Qed.

(** The pattern [%] matches every string. *)
Lemma like_percent t : like "%" t = true.
Proof.
  simpl. induction t as [|c t IH]; [reflexivity|].
  simpl. simpl in IH. exact IH.
Qed.

(** A pattern with no wildcard, followed by [%], matches the strings it
    is a prefix of. *)
Lemma like_prefix n t :
  wildcard_free n = true -> like (n ++ "%") t = String.prefix n t.
Proof.
  revert t. induction n as [|c n IH]; intros t Hfree.
  - rewrite like_percent. destruct t; reflexivity.
  - simpl in Hfree. apply andb_prop in Hfree. destruct Hfree as [Hc Hn].
    unfold is_wildcard in Hc. apply negb_true_iff in Hc.
    apply orb_false_elim in Hc. destruct Hc as [Hpct Hund].
    cbn [append like]. rewrite Hpct, Hund.
    destruct t as [|d t]; [reflexivity|]. cbn [String.prefix orb].
    rewrite (IH t Hn).
    destruct (ascii_dec c d) as [->|Hne].
    + rewrite Ascii.eqb_refl. reflexivity.
    + apply Ascii.eqb_neq in Hne. rewrite Hne. reflexivity.
Qed.

(** A pattern with no wildcard, between two [%], matches the strings it
    occurs in. *)
Lemma like_contains n t :
  wildcard_free n = true -> like ("%" ++ n ++ "%") t = contains n t.
Proof.
  intros Hfree. cbn [append like]. rewrite Ascii.eqb_refl.
  induction t as [|d t IH].
  - cbn [contains]. rewrite (like_prefix n "" Hfree), orb_false_r.
    reflexivity.
  - cbn [contains]. rewrite (like_prefix n (String d t) Hfree), IH.
    reflexivity.
Qed.

Lemma ilike_contains_ci column s :
  wildcard_free s = true ->
  ilike column ("%" ++ s ++ "%") = contains_ci s column.
Proof.
  intros Hfree. unfold ilike, contains_ci.
  rewrite !lower_append. change (lower "%") with "%".
  apply like_contains. rewrite wildcard_free_lower. exact Hfree.
Qed.

Lemma contains_empty t : contains "" t = true.
Proof. destruct t; reflexivity. Qed.

Lemma filter_filter {A} (f g : A -> bool) xs :
  filter f (filter g xs) = filter (fun x => g x && f x) xs.
Proof.
  induction xs as [|x xs IH]; simpl; [reflexivity|].
  destruct (g x); simpl; [|exact IH].
  destruct (f x); rewrite IH; reflexivity.
Qed.

Lemma filter_true_r {A} (f : A -> bool) xs :
  filter f xs = filter (fun x => f x && true) xs.
Proof. apply filter_ext. intros x. rewrite andb_true_r. reflexivity. Qed.

(** [distinct] keeps every value, once. *)
Lemma distinct_In xs x : In x (distinct xs) <-> In x xs.
Proof.
  induction xs as [|y xs IH]; simpl; [tauto|].
  rewrite filter_In, IH. split.
  - intros [H|[H _]]; auto.
  - intros [H|H]; [auto|].
    destruct (String.eqb_spec x y) as [->|Hne]; [auto|].
    right. split; [exact H|reflexivity].
Qed.

Lemma distinct_NoDup xs : NoDup (distinct xs).
Proof.
  induction xs as [|y xs IH]; simpl; constructor.
  - rewrite filter_In. intros [_ H]. rewrite String.eqb_refl in H.
    discriminate H.
  - apply NoDup_filter. exact IH.
Qed.

(** For a search text with no [%] and no [_], [products_view] lists what
    the specification says, and its categories are those of all products,
    the unavailable ones among them, each once. *)
Lemma products_view_listProducts category search d :
  wildcard_free (get_or_else search "") = true ->
  exists categories,
    products_view category search d
    = Render []
        (products_html (listProducts category search d) categories
           (get_or_else category "all") (get_or_else search "")) /\
    NoDup categories /\
    forall c, In c categories <->
              exists p, In p (products d) /\ Product.category p = c.
Proof.
  intros Hfree.
  exists (distinct (map Product.category (products d))).
  split; [|split].
  - unfold products_view, listProducts. do 2 f_equal.
    assert (Hcat :
      (if negb (String.eqb (get_or_else category "all") "all")
       then filter (fun p => String.eqb (Product.category p)
                               (get_or_else category "all"))
              (filter Product.is_available (products d))
       else filter Product.is_available (products d))
      = filter (fun p =>
                  Product.is_available p &&
                  match category with
                  | Some c =>
                      String.eqb c "all" || String.eqb (Product.category p) c
                  | None => true
                  end) (products d)).
    { destruct category as [c|]; simpl.
      - destruct (String.eqb c "all"); simpl.
        + apply filter_true_r.
        + apply filter_filter.
      - apply filter_true_r. }
    rewrite Hcat. clear Hcat.
    destruct search as [s|]; cbn [get_or_else] in *.
    + destruct (String.eqb_spec s "") as [->|Hne]; cbn [negb].
      * apply filter_ext. intros p. unfold contains_ci. cbn [lower].
        rewrite contains_empty, andb_true_r. reflexivity.
      * rewrite filter_filter. apply filter_ext. intros p.
        unfold name_or_description_ilike.
        rewrite ilike_contains_ci by exact Hfree.
        destruct (Product.description p) as [descr|];
          [rewrite ilike_contains_ci by exact Hfree|]; reflexivity.
    + apply filter_true_r.
  - apply distinct_NoDup.
  - intros c. rewrite distinct_In, in_map_iff.
    split; intros (p & H1 & H2); exists p; auto.
Qed.

(** The scenario of the specification: fruit and apple over the seed
    catalogue list the red apples alone. *)
Example products_view_scenario :
  products_view (Some "fruit") (Some "apple")
    (mkDB [] [Sample.apples; Sample.carrots] [] [] [])
  = Render []
      (products_html [Sample.apples] ["fruit"; "vegetable"] "fruit" "apple").
Proof. reflexivity. Qed.

(** C6, at the search text [_] over the red apples and the carrots: no
    name and no description contains an underscore, so the specification
    lists nothing, and [products_view] lists both products. *)
Theorem products_view_wildcard_search :
  let d := mkDB [] [Sample.apples; Sample.carrots] [] [] [] in
  listProducts None (Some "_") d = [] /\
  products_view None (Some "_") d
  = Render []
      (products_html [Sample.apples; Sample.carrots] ["fruit"; "vegetable"]
         "all" "_").
Proof. split; reflexivity. Qed.

(** * Further properties of the code *)

(** ** The cart token *)

(** [get_session_id] hands out the token of the cookie when there is one
    and the fresh random token otherwise, writes it into the cookie, keeps
    the login, and from then on answers with the same token whatever the
    random source yields. *)
Theorem get_session_id_stable env env' fs :
  let tok := fst (get_session_id env fs) in
  let fs1 := snd (get_session_id env fs) in
  tok = get_or_else (cart_session fs) (urandom_hex env) /\
  cart_session fs1 = Some tok /\
  login_id fs1 = login_id fs /\
  get_session_id env' fs1 = (tok, fs1).
Proof.
  cbv zeta. unfold get_session_id.
  destruct (cart_session fs) as [t|] eqn:E; simpl.
  - rewrite E. auto.
  - auto.
Qed.

(** ** Uploaded file names *)

Lemma after_last_dot_free s : dot_free s = true -> after_last_dot s = None.
Proof.
  induction s as [|c s IH]; simpl; [reflexivity|].
  intros H. apply andb_prop in H. destruct H as [Hc Hs].
  rewrite (IH Hs). apply negb_true_iff in Hc. rewrite Hc. reflexivity.
Qed.

Lemma after_last_dot_append stem ext :
  dot_free ext = true -> after_last_dot (stem ++ "." ++ ext) = Some ext.
Proof.
  intros Hext. induction stem as [|c stem IH].
  - cbn [append after_last_dot]. rewrite (after_last_dot_free ext Hext).
    reflexivity.
  - cbn [append after_last_dot]. cbn [append] in IH. rewrite IH.
    reflexivity.
Qed.

(** [allowed_file] looks at what follows the last dot only, letter case
    apart: a name that ends in a dot and a dot-free extension is allowed
    exactly when the lowered extension is one of the five, whatever stands
    before; a name with no dot is refused. *)
Theorem allowed_file_last_extension stem ext :
  dot_free ext = true ->
  allowed_file (stem ++ "." ++ ext)
  = existsb (String.eqb (lower ext)) ALLOWED_EXTENSIONS /\
  allowed_file ext = false.
Proof.
  intros Hext. unfold allowed_file.
  rewrite (after_last_dot_append stem ext Hext).
  rewrite (after_last_dot_free ext Hext). auto.
Qed.

(** A double extension: the image extension in front does not help, the
    upper-case one at the end does. *)
Lemma allowed_file_last_extension_witness :
  allowed_file ("shell.png" ++ "." ++ "exe") = false /\
  allowed_file ("holiday.final" ++ "." ++ "JPG") = true.
Proof.
  split.
  - destruct (allowed_file_last_extension "shell.png" "exe" eq_refl)
      as [H _].
    rewrite H. reflexivity.
  - destruct (allowed_file_last_extension "holiday.final" "JPG" eq_refl)
      as [H _].
    rewrite H. reflexivity.
Defined.

(** ** The catalogue pages *)

Lemma Forall_firstn {A} (P : A -> Prop) n xs :
  Forall P xs -> Forall P (firstn n xs).
Proof.
  intros H. revert n. induction H as [|x xs Hx _ IH]; intros [|n]; simpl;
    constructor; auto.
Qed.

Lemma Forall_filter {A} (f : A -> bool) xs :
  Forall (fun x => In x xs /\ f x = true) (filter f xs).
Proof.
  apply Forall_forall. intros x Hx. apply filter_In in Hx. exact Hx.
Qed.

(** The home page features at most six products, all of them available
    products of the store, and all the available ones when there are no
    more than six. *)
Theorem home_features_available d :
  exists featured,
    home_view d = render_page [] (index_html featured) /\
    (List.length featured <= 6)%nat /\
    Forall (fun p => In p (products d) /\ Product.is_available p = true)
      featured /\
    ((List.length (filter Product.is_available (products d)) <= 6)%nat ->
     featured = filter Product.is_available (products d)).
Proof.
  eexists. split; [reflexivity|]. split; [|split].
  - apply firstn_le_length.
  - apply Forall_firstn. apply Forall_filter.
  - intros H. apply firstn_all2. exact H.
Qed.

(** Two available products: the page features both. *)
Lemma home_features_available_witness :
  home_view (mkDB [] [Sample.apples; Sample.bananas] [] [] [])
  = render_page [] (index_html [Sample.apples; Sample.bananas]).
Proof.
  destruct (home_features_available
              (mkDB [] [Sample.apples; Sample.bananas] [] [] []))
    as (featured & Hview & _ & _ & Hall).
  rewrite Hview, Hall; [reflexivity|]. simpl. repeat constructor.
Defined.

(** The product page answers 404 for an unknown id below 2^63 and 500
    for one of 2^63 or more, which no product has; otherwise it shows the
    product with at most four related ones, each an available product of
    the same category and not the product itself. *)
Theorem product_detail_related pid d :
  match product_detail_view pid d with
  | as_above r =>
      get_product d pid = None /\
      r = (if pid <? 2 ^ 63 then Abort404 else Error500)
  | render_page flashes (product_detail_html p related) =>
      flashes = [] /\
      get_product d pid = Some p /\
      (List.length related <= 4)%nat /\
      Forall (fun r => In r (products d) /\
                       Product.is_available r = true /\
                       Product.category r = Product.category p /\
                       Product.id r <> pid) related
  | _ => False
  end.
Proof.
  unfold product_detail_view.
  destruct (get_product d pid) as [p|] eqn:E; [|split; reflexivity].
  split; [reflexivity|]. split; [reflexivity|]. split.
  - apply firstn_le_length.
  - apply Forall_firstn. apply Forall_forall. intros r Hr.
    apply filter_In in Hr. destruct Hr as [Hr Hid].
    apply filter_In in Hr. destruct Hr as [Hin Hcat].
    apply andb_prop in Hcat. destruct Hcat as [Hcat Hav].
    apply String.eqb_eq in Hcat. apply negb_true_iff in Hid.
    apply Z.eqb_neq in Hid. auto.
Qed.

(** The page of the apples shows the bananas, the other fruit, and not the
    carrots; no product has the id 99, nor the id 2^63. *)
Example product_detail_scenario :
  product_detail_view 1 Sample.store
  = render_page [] (product_detail_html Sample.apples [Sample.bananas]) /\
  product_detail_view 99 Sample.store = as_above Abort404 /\
  product_detail_view (2 ^ 63 - 1) Sample.store = as_above Abort404 /\
  product_detail_view (2 ^ 63) Sample.store = as_above Error500.
Proof. repeat split. Qed.

(** Whatever the category and the search text, wildcards and all, the
    listing shows available products of the store only, and of the
    category only when one other than all is asked for. *)
Theorem products_view_only_available category search d :
  exists listed categories,
    products_view category search d
    = Render []
        (products_html listed categories (get_or_else category "all")
           (get_or_else search "")) /\
    Forall (fun p =>
              In p (products d) /\ Product.is_available p = true /\
              (get_or_else category "all" = "all" \/
               Product.category p = get_or_else category "all")) listed.
Proof.
  unfold products_view. do 2 eexists. split; [reflexivity|].
  set (cat := get_or_else category "all").
  set (available := filter Product.is_available (products d)).
  assert (Havail :
    Forall (fun p => In p (products d) /\ Product.is_available p = true)
      available) by apply Forall_filter.
  assert (Hcat :
    Forall (fun p =>
              In p (products d) /\ Product.is_available p = true /\
              (cat = "all" \/ Product.category p = cat))
      (if negb (String.eqb cat "all")
       then filter (fun p => String.eqb (Product.category p) cat) available
       else available)).
  { destruct (String.eqb_spec cat "all") as [Heq|Hne]; cbn [negb].
    - revert Havail. apply Forall_impl. intros p [H1 H2]. auto.
    - apply Forall_forall. intros p Hp. apply filter_In in Hp.
      destruct Hp as [Hp Hc]. apply String.eqb_eq in Hc.
      rewrite Forall_forall in Havail. destruct (Havail p Hp). auto. }
  destruct (negb (String.eqb (get_or_else search "") "")); [|exact Hcat].
  apply Forall_forall. intros p Hp. apply filter_In in Hp.
  destruct Hp as [Hp _]. rewrite Forall_forall in Hcat. exact (Hcat p Hp).
Qed.

(** ** What checkout refuses, and what it leaves behind *)

(** A logged-in user with an empty cart is sent back to the cart, by GET
    and by POST alike; with a cart and no shipping address the POST is
    sent back to the checkout page; nothing is written either way. *)
Theorem checkout_refusals env method shipping_address notes fs d user :
  current_user fs d = Some user ->
  let r := fst (fst (checkout env method shipping_address notes fs d)) in
  let d' := snd (checkout env method shipping_address notes fs d) in
  (cart_of d (fst (get_session_id env fs)) = [] ->
   r = Redirect [("Your cart is empty.", "error")] view_cart /\ d' = d) /\
  (cart_of d (fst (get_session_id env fs)) <> [] -> method = POST ->
   shipping_address = None \/ shipping_address = Some "" ->
   r = Redirect [("Shipping address is required.", "error")] checkout_page /\
   d' = d).
Proof.
  intros Huser. cbv zeta. unfold checkout, login_required. rewrite Huser.
  destruct (get_session_id env fs) as [sid fs1]. simpl fst. split.
  - intros ->. auto.
  - intros Hcart -> Haddr.
    destruct (cart_of d sid) as [|c cart]; [contradiction|].
    destruct Haddr as [-> | ->]; auto.
Qed.

(** Alice checks out with no address; the admin, whose cart is empty,
    checks out too. *)
Lemma checkout_refusals_witness :
  fst (fst (checkout Sample.quiet POST (Some "") None Sample.alice_browser
              Sample.store))
  = Redirect [("Shipping address is required.", "error")] checkout_page /\
  fst (fst (checkout Sample.quiet POST (Some "1 Root Rd") None
              Sample.root_browser Sample.store))
  = Redirect [("Your cart is empty.", "error")] view_cart.
Proof.
  split.
  - destruct (checkout_refusals Sample.quiet POST (Some "") None
                Sample.alice_browser Sample.store Sample.alice eq_refl)
      as [_ H].
    apply H; [discriminate|reflexivity|right; reflexivity].
  - destruct (checkout_refusals Sample.quiet POST (Some "1 Root Rd") None
                Sample.root_browser Sample.store Sample.root eq_refl)
      as [H _].
    apply H. reflexivity.
Defined.

(** The cart rows left by a run of deletions. *)
Lemma forM_delete_cart_items env cart s u s' :
  forM_ cart (session_delete_cart_item env) s = (Done u, s') ->
  cart_items (txn s')
  = filter (fun r =>
              negb (existsb (fun c => CartItem.id c =? CartItem.id r) cart))
      (cart_items (txn s)).
Proof.
  revert s. induction cart as [|c cart IH]; intros s H; simpl in H.
  - inversion H; subst. symmetry. apply filter_all.
    apply Forall_forall. intros; reflexivity.
  - apply bind_done in H. destruct H as (u1 & s1 & Hdel & H).
    unfold session_delete_cart_item in Hdel.
    apply bind_done in Hdel. destruct Hdel as (u2 & s2 & Hfp & Hmod).
    apply fault_point_done in Hfp. destruct Hfp as [_ Ht].
    unfold modify in Hmod. inversion Hmod; subst u1 s1. clear Hmod.
    rewrite (IH _ H). simpl. rewrite Ht. unfold delete_row.
    rewrite filter_filter. apply filter_ext. intros r. simpl.
    rewrite negb_orb, (Z.eqb_sym (CartItem.id r)). reflexivity.
Qed.

(** A successful checkout, unfolded to its [try] block. *)
Lemma checkout_placed env shipping_address notes fs d oid fs' d' :
  checkout env POST shipping_address notes fs d
  = (Redirect [("Order placed successfully!", "success")]
       (order_confirmation_page oid), fs', d') ->
  exists user address s,
    current_user fs d = Some user /\
    shipping_address = Some address /\
    cart_of d (fst (get_session_id env fs)) <> [] /\
    place_order env (User.id user)
      (cart_of d (fst (get_session_id env fs))) address
      (get_or_else notes "") (begin d) = (Done oid, s) /\
    d' = persisted s.
Proof.
  intros Hrun. unfold checkout, login_required in Hrun.
  destruct (current_user fs d) as [user|]; [|discriminate].
  destruct (get_session_id env fs) as [sid fs1]. simpl fst.
  destruct (cart_of d sid) as [|c cart] eqn:Ecart; [discriminate|].
  destruct shipping_address as [[|a addr]|]; try discriminate.
  unfold try_except in Hrun.
  destruct (place_order _ _ _ _ _ (begin d)) as [[oid'|e] s] eqn:E;
    [|discriminate].
  inversion Hrun; subst. exists user, (String a addr), s.
  repeat split; try reflexivity; [discriminate|exact E].
Qed.

(** The cart rows that a finished [try] block of checkout persists: the
    rows whose id is not the id of a row of the cart. *)
Lemma place_order_cart_items env uid cart addr notes d oid s :
  place_order env uid cart addr notes (begin d) = (Done oid, s) ->
  cart_items (persisted s)
  = filter (fun r =>
              negb (existsb (fun c => CartItem.id c =? CartItem.id r) cart))
      (cart_items d).
Proof.
  unfold place_order. intros H.
  apply bind_done in H. destruct H as (subtotals & s1 & Hsub & H).
  destruct (keeps_mapM get_subtotal cart keeps_get_subtotal _ _ _ Hsub).
  assert (Ht1 : txn s1 = d).
  { eapply (mapM_done get_subtotal (fun _ _ => True) d) in Hsub;
      [tauto|apply reads_only_get_subtotal|auto|reflexivity]. }
  apply bind_done in H. destruct H as (u & s2 & Hfp & H).
  apply fault_point_done in Hfp. destruct Hfp as [_ Ht2].
  apply bind_done in H. destruct H as (items & s3 & Hitems & H).
  assert (Ht3 : txn s3 = d).
  { eapply (mapM_done _ (fun _ _ => True) d) in Hitems;
      [tauto| |auto|congruence].
    intros c. apply reads_only_bind; [apply reads_only_product_of|].
    intros p. apply reads_only_bind; [apply reads_only_fault_point|].
    intros _. apply reads_only_ret. }
  apply bind_done in H. destruct H as (oid' & s4 & Hadd & H).
  apply session_add_order_done in Hadd. destruct Hadd as (_ & _ & Ht4).
  apply bind_done in H. destruct H as (u5 & s5 & Hflush & H).
  apply fault_point_done in Hflush. destruct Hflush as [_ Ht5].
  apply bind_done in H. destruct H as (u6 & s6 & Hdel & H).
  apply forM_delete_cart_items in Hdel.
  apply bind_done in H. destruct H as (u7 & s7 & Hcommit & H).
  apply session_commit_done in Hcommit.
  inversion H; subst oid s. clear H.
  rewrite Hcommit, Hdel, Ht5, Ht4, Ht3.
  match goal with |- context [fold_left ?f items ?d0] =>
    destruct (insert_order_items oid' items d0) as (_ & _ & Hc & _)
  end.
  rewrite Hc. reflexivity.
Qed.

(** After a successful checkout the cart of the token is empty, and the
    users and the products are what they were: no stock is taken off.
    When the ids of the cart rows are pairwise distinct, the carts of all
    other tokens are what they were. *)
Theorem checkout_clears_cart env shipping_address notes fs d oid fs' d' :
  checkout env POST shipping_address notes fs d
  = (Redirect [("Order placed successfully!", "success")]
       (order_confirmation_page oid), fs', d') ->
  cart_of d' (fst (get_session_id env fs)) = [] /\
  users d' = users d /\
  products d' = products d /\
  (NoDup (map CartItem.id (cart_items d)) ->
   forall tok, tok <> fst (get_session_id env fs) ->
               cart_of d' tok = cart_of d tok).
Proof.
  intros Hrun.
  assert (Hframe : users d' = users d /\ products d' = products d).
  { pose proof (checkout_preserves
                  (fun x => users x = users d /\ products x = products d))
      as Hp.
    specialize (Hp (fun cs x H => H) (fun its x H => H)
                  (fun o x _ H => H) env POST shipping_address notes fs d
                  (conj eq_refl eq_refl)).
    rewrite Hrun in Hp. exact Hp. }
  apply checkout_placed in Hrun.
  destruct Hrun as (user & address & s & _ & _ & _ & Hplace & ->).
  apply place_order_cart_items in Hplace.
  set (tok0 := fst (get_session_id env fs)) in *.
  split; [|split; [tauto|split; [tauto|]]].
  - unfold cart_of at 1. rewrite Hplace, filter_filter.
    apply filter_none. intros r Hr.
    destruct (String.eqb (CartItem.session_id r) tok0) eqn:Etok;
      [|apply andb_false_r].
    rewrite andb_true_r. apply negb_false_iff. apply existsb_exists.
    exists r. split; [|apply Z.eqb_refl].
    unfold cart_of. apply filter_In. auto.
  - intros Hnodup tok Htok. unfold cart_of at 1. rewrite Hplace.
    rewrite filter_filter. unfold cart_of at 1. apply filter_ext_in.
    intros r Hr.
    destruct (String.eqb_spec (CartItem.session_id r) tok) as [Hs|_];
      [|apply andb_false_r].
    rewrite andb_true_r. apply negb_true_iff.
    match goal with |- ?b = false => destruct b eqn:Ex end; [|reflexivity].
    exfalso. apply existsb_exists in Ex. destruct Ex as (c & Hc & Hid).
    apply Z.eqb_eq in Hid. unfold cart_of in Hc. apply filter_In in Hc.
    destruct Hc as [Hc Hctok]. apply String.eqb_eq in Hctok.
    assert (c = r); [|subst c; congruence].
    clear -Hnodup Hc Hr Hid. induction (cart_items d) as [|x xs IH].
    + destruct Hc.
    + simpl in Hnodup. inversion Hnodup as [|? ? Hnotin Hnd]; subst.
      destruct Hc as [->|Hc], Hr as [->|Hr]; auto.
      * exfalso. apply Hnotin. rewrite Hid. apply in_map. exact Hr.
      * exfalso. apply Hnotin. rewrite <- Hid. apply in_map. exact Hc.
Qed.

(** Alice's checkout empties her cart and leaves the stock of the apples
    at fifty. *)
Lemma checkout_clears_cart_witness :
  cart_of Sample.store_after_checkout Sample.token = [] /\
  products Sample.store_after_checkout = products Sample.store.
Proof.
  destruct (checkout_clears_cart Sample.quiet (Some "123 Main St") None
              Sample.alice_browser Sample.store 1 Sample.alice_browser
              Sample.store_after_checkout eq_refl)
    as (Hcart & _ & Hproducts & _).
  split; [exact Hcart|exact Hproducts].
Defined.

(** The cart page, the checkout page and the order agree on the total:
    when a POST to checkout places an order, the total that the cart page
    and the GET of checkout show for the same store is the
    [total_amount] of that order. *)
Theorem checkout_charges_displayed_total env shipping_address notes fs d
  oid fs' d' :
  checkout env POST shipping_address notes fs d
  = (Redirect [("Order placed successfully!", "success")]
       (order_confirmation_page oid), fs', d') ->
  exists cart total count order,
    fst (fst (checkout env GET None None fs d))
    = Render [] (checkout_html cart total) /\
    fst (fst (cart_view env fs d))
    = render_page [] (cart_html cart total count) /\
    In order (orders d') /\
    Order.id order = oid /\
    Order.total_amount order = total.
Proof.
  intros Hrun. apply checkout_placed in Hrun.
  destruct Hrun as (user & address & s & Huser & _ & Hcart & Hplace & ->).
  pose proof Hplace as Hfirst. unfold place_order in Hfirst.
  apply bind_done in Hfirst. destruct Hfirst as (subtotals & s1 & Hsub & _).
  apply place_order_done in Hplace.
  destruct Hplace as (rows & _ & Horders & _ & Hsnap).
  assert (Hsame : subtotals = map OrderItem.get_subtotal rows).
  { pose proof Hsub as Hsub'.
    eapply (mapM_done _
              (fun c x =>
                 exists p, get_product d (CartItem.product_id c) = Some p /\
                           x = PrimFloat.mul (Product.price p)
                                 (float_of_int (CartItem.quantity c))) d)
      in Hsub'; [|apply reads_only_get_subtotal| |reflexivity].
    - destruct Hsub' as (HF & _).
      exact (subtotals_of_snapshots _ _ _ _ _ HF Hsnap).
    - intros c s0 y s0' Ht Hc. unfold get_subtotal in Hc.
      apply bind_done in Hc. destruct Hc as (p & s0'' & Hp & Hc).
      apply product_of_done in Hp. rewrite Ht in Hp.
      inversion Hc; subst. exists p. split; [exact Hp|reflexivity]. }
  exists (cart_of d (fst (get_session_id env fs))), (py_sum subtotals),
    (py_sum_int
       (map CartItem.quantity (cart_of d (fst (get_session_id env fs))))).
  eexists. split; [|split; [|split; [|split]]].
  - unfold checkout, login_required. rewrite Huser.
    destruct (get_session_id env fs) as [sid fs1]. simpl fst in *.
    destruct (cart_of d sid) as [|c cart] eqn:Ecart; [contradiction|].
    rewrite Hsub. reflexivity.
  - unfold cart_view.
    destruct (get_session_id env fs) as [sid fs1]. simpl fst in *.
    rewrite Hsub. reflexivity.
  - rewrite Horders. apply in_or_app. right. left. reflexivity.
  - reflexivity.
  - simpl. rewrite Hsame. reflexivity.
Qed.

(** Alice sees 15.97 on the cart page and is charged 15.97. *)
Lemma checkout_charges_displayed_total_witness :
  exists cart count,
    fst (fst (cart_view Sample.quiet Sample.alice_browser Sample.store))
    = render_page [] (cart_html cart 15.97%float count) /\
    map Order.total_amount (orders Sample.store_after_checkout)
    = [15.97%float].
Proof.
  destruct (checkout_charges_displayed_total Sample.quiet
              (Some "123 Main St") None Sample.alice_browser Sample.store 1
              Sample.alice_browser Sample.store_after_checkout eq_refl)
    as (cart & total & count & order & _ & Hview & _ & _ & _).
  exists cart, count. split; [|reflexivity].
  rewrite Hview. vm_compute in Hview. inversion Hview. reflexivity.
Defined.

(** ** The guards *)

(** A request of somebody who is not an admin, logged in or not, to any
    of the admin routes is turned away, to the login page or to the home
    page, and writes nothing. *)
Theorem admin_routes_guarded env fs d :
  (forall u, current_user fs d = Some u -> User.is_admin u = false) ->
  (forall pid m form,
     turned_away (fst (fst (admin_edit_product env pid m form fs d))) /\
     snd (admin_edit_product env pid m form fs d) = d) /\
  (forall oid st,
     turned_away (fst (fst (admin_update_order_status env oid st fs d))) /\
     snd (admin_update_order_status env oid st fs d) = d) /\
  (forall uid,
     turned_away (fst (fst (admin_toggle_admin env uid fs d))) /\
     snd (admin_toggle_admin env uid fs d) = d) /\
  (forall m form,
     exists r, fst (fst (admin_add_product env m form fs d)) = as_above r /\
               turned_away r /\
               snd (admin_add_product env m form fs d) = d) /\
  (forall pid,
     exists r, fst (fst (admin_delete_product env pid fs d)) = as_above r /\
               turned_away r /\
               snd (admin_delete_product env pid fs d) = d).
Proof.
  intros Hnot.
  unfold admin_edit_product, admin_update_order_status, admin_toggle_admin,
    admin_add_product, admin_delete_product, login_required, admin_required,
    login_required_further, admin_required_further, turned_away.
  destruct (current_user fs d) as [u|].
  - rewrite (Hnot u eq_refl). simpl.
    repeat split; try (eexists; repeat split); auto.
  - simpl. repeat split; try (eexists; repeat split); auto.
Qed.

(** Alice, who is no admin, asks for the role toggle on herself and for
    the deletion of the apples. *)
Lemma admin_routes_guarded_witness :
  snd (admin_toggle_admin Sample.quiet 1 Sample.alice_browser Sample.store)
  = Sample.store /\
  snd (admin_delete_product Sample.quiet 1 Sample.alice_browser Sample.store)
  = Sample.store.
Proof.
  destruct (admin_routes_guarded Sample.quiet Sample.alice_browser
              Sample.store) as (_ & _ & Htoggle & _ & Hdelete).
  - intros u Hu. inversion Hu. reflexivity.
  - split; [apply Htoggle|].
    destruct (Hdelete 1) as (r & _ & _ & H). exact H.
Defined.

(** A visitor who is not logged in is sent to the login page by checkout,
    by the order page and by logout; the cookie and the store stay as they
    are, and no cart token is handed out. *)
Theorem login_routes_guarded env method shipping_address notes oid fs d :
  current_user fs d = None ->
  checkout env method shipping_address notes fs d
  = (Redirect [("Please log in first.", "message")] login, fs, d) /\
  order_confirmation oid fs d
  = (Redirect [("Please log in first.", "message")] login, fs, d) /\
  logout fs d
  = (as_above (Redirect [("Please log in first.", "message")] login), fs, d).
Proof.
  intros Hanon.
  unfold checkout, order_confirmation, logout, login_required,
    login_required_further.
  rewrite Hanon. auto.
Qed.

(** A browser with a full cart and no login posts an address to
    checkout. *)
Lemma login_routes_guarded_witness :
  checkout Sample.quiet POST (Some "123 Main St") None
    (mkFlaskSession (Some Sample.token) None) Sample.store
  = (Redirect [("Please log in first.", "message")] login,
     mkFlaskSession (Some Sample.token) None, Sample.store).
Proof.
  apply (login_routes_guarded Sample.quiet POST (Some "123 Main St") None 1
           (mkFlaskSession (Some Sample.token) None) Sample.store).
  reflexivity.
Defined.

(** ** Accounts *)

(** A [try] block that builds a row, adds it and commits. *)
Lemma run_insert_commit env f d :
  (fault_point env ;; (fault_point env ;; modify f) ;; session_commit env)
    (begin d)
  = match raises env 0, raises env 1, raises env 2 with
    | Some e, _, _ => (Raised e, mkSession d d 1)
    | None, Some e, _ => (Raised e, mkSession d d 2)
    | None, None, Some e => (Raised e, mkSession d (f d) 3)
    | None, None, None => (Done tt, mkSession (f d) (f d) 3)
    end.
Proof.
  unfold session_commit, bind, modify, fault_point, begin. simpl.
  destruct (raises env 0); [reflexivity|]. simpl.
  destruct (raises env 1); [reflexivity|]. simpl.
  destruct (raises env 2); reflexivity.
Qed.

Lemma try_insert_commit env f d :
  try_except
    (fault_point env ;; (fault_point env ;; modify f) ;; session_commit env) d
  = match raises env 0, raises env 1, raises env 2 with
    | Some e, _, _ | None, Some e, _ | None, None, Some e => (Raised e, d)
    | None, None, None => (Done tt, f d)
    end.
Proof.
  unfold try_except. rewrite run_insert_commit.
  destruct (raises env 0); [reflexivity|].
  destruct (raises env 1); [reflexivity|].
  destruct (raises env 2); reflexivity.
Qed.

Lemma find_app_last {A} (f : A -> bool) xs x :
  find f xs = None -> f x = true -> find f (xs ++ [x]) = Some x.
Proof.
  intros Hnone Hx. induction xs as [|y xs IH]; simpl in *.
  - rewrite Hx. reflexivity.
  - destruct (f y); [discriminate|]. apply IH. exact Hnone.
Qed.

Lemma truthy_some o : truthy o = true -> exists s, o = Some s /\ s <> "".
Proof.
  destruct o as [s|]; simpl; [|discriminate].
  intros H. exists s. split; [reflexivity|].
  apply negb_true_iff in H. apply String.eqb_neq. exact H.
Qed.

(** Registration either writes nothing or adds one user: no admin, with
    the username and the email of the form, neither of them empty nor in
    use before, and with the hash of the password that the form gives
    twice. *)
Theorem register_adds_plain_user env hash method form fs d :
  let d' := snd (register env hash method form fs d) in
  d' = d \/
  exists u pw,
    d' = with_users (users d ++ [u])%list d /\
    User.id u = fresh_id (map User.id (users d)) /\
    User.is_admin u = false /\
    r_username form = Some (User.username u) /\
    r_email form = Some (User.email u) /\
    r_password form = Some pw /\
    r_confirm_password form = Some pw /\
    User.password_hash u = hash pw /\
    User.username u <> "" /\ User.email u <> "" /\ pw <> "" /\
    user_by_username d (User.username u) = None /\
    user_by_email d (User.email u) = None.
Proof.
  cbv zeta. unfold register. destruct method; [left; reflexivity|].
  destruct (truthy (r_username form)) eqn:Hn; [|left; reflexivity].
  destruct (truthy (r_email form)) eqn:Hm; [|left; reflexivity].
  destruct (truthy (r_password form)) eqn:Hp; [|left; reflexivity].
  destruct (truthy (r_confirm_password form)) eqn:Hc; [|left; reflexivity].
  apply truthy_some in Hn, Hm, Hp, Hc.
  destruct Hn as (name & -> & Hname), Hm as (mail & -> & Hmail),
    Hp as (pw & -> & Hpw), Hc as (pw2 & -> & Hpw2).
  cbn [andb negb get_or_else].
  destruct (String.eqb_spec pw pw2) as [<-|]; [|left; reflexivity].
  cbn [negb].
  destruct (user_by_username d name) eqn:Euser; [left; reflexivity|].
  destruct (user_by_email d mail) eqn:Email; [left; reflexivity|].
  unfold session_add_user. rewrite try_insert_commit.
  destruct (raises env 0); [left; reflexivity|].
  destruct (raises env 1); [left; reflexivity|].
  destruct (raises env 2); [left; reflexivity|].
  right. eexists (User.mk _ name mail (hash pw) _ _ false), pw.
  simpl. repeat split; auto.
Qed.

(** Who registers can log in: when the hash primitive verifies what it
    generates, a successful registration is followed, from any browser, by
    a successful login with the same username and password, as the user
    just written, who is no admin. *)
Theorem register_then_login env hash check form fs d fs1 d1 :
  (forall pw, check (hash pw) pw = true) ->
  register env hash POST form fs d
  = (as_above
       (Redirect [("Registration successful! Please log in.", "success")]
          login), fs1, d1) ->
  exists u,
    r_username form = Some (User.username u) /\
    User.is_admin u = false /\
    forall fs2,
      fst (fst (login_view check POST (r_username form) (r_password form)
                  fs2 d1))
      = as_above
          (Redirect [("Welcome back, " ++ display_name u ++ "!", "success")]
             home) /\
      current_user
        (snd (fst (login_view check POST (r_username form)
                     (r_password form) fs2 d1))) d1 = Some u.
Proof.
  intros Hcheck Hrun.
  pose proof (register_adds_plain_user env hash POST form fs d) as Hout.
  cbv zeta in Hout. rewrite Hrun in Hout. cbn [snd] in Hout.
  destruct Hout
    as [Hsame|(u & pw & Hd & Hid & Hflag & Hn & Hm & Hp & Hc & Hh & _ & _ & _
               & Hfree & _)].
  - (* a successful registration has written something *)
    exfalso. subst d1. revert Hrun. unfold register.
    destruct (negb _); [discriminate|].
    destruct (negb _); [discriminate|].
    destruct (user_by_username d _); [discriminate|].
    destruct (user_by_email d _); [discriminate|].
    unfold session_add_user. rewrite try_insert_commit.
    destruct (raises env 0); [discriminate|].
    destruct (raises env 1); [discriminate|].
    destruct (raises env 2); [discriminate|].
    intros H. injection H as _ Hd.
    apply (f_equal users) in Hd. simpl in Hd.
    apply (f_equal (@List.length _)) in Hd.
    rewrite length_app in Hd. simpl in Hd. lia.
  - exists u. split; [exact Hn|]. split; [exact Hflag|]. intros fs2.
    assert (Hfind : user_by_username d1 (User.username u) = Some u).
    { subst d1. unfold user_by_username in *. simpl.
      apply find_app_last; [exact Hfree|apply String.eqb_refl]. }
    unfold login_view. rewrite Hn, Hp, Hfind, Hh, Hcheck. simpl.
    split; [reflexivity|].
    unfold current_user, get_user. simpl. subst d1. simpl.
    apply find_app_fresh; [|reflexivity]. rewrite Hid.
    intros x Hx. apply (in_map User.id) in Hx.
    apply fresh_id_above in Hx. lia.
Qed.

(** Bob registers at the sample store and logs in from a fresh browser. *)
Lemma register_then_login_witness :
  option_map User.username
    (current_user
       (snd (fst (login_view Demo.toy_check POST (Some "bob") (Some "s3cret")
                    Demo.anonymous
                    (snd (register Sample.quiet Demo.toy_hash POST Demo.bob
                            Demo.anonymous Sample.store)))))
       (snd (register Sample.quiet Demo.toy_hash POST Demo.bob
               Demo.anonymous Sample.store)))
  = Some "bob".
Proof.
  destruct (register_then_login Sample.quiet Demo.toy_hash Demo.toy_check
              Demo.bob Demo.anonymous Sample.store Demo.anonymous
              (snd (register Sample.quiet Demo.toy_hash POST Demo.bob
                      Demo.anonymous Sample.store)))
    as (u & Hname & _ & Hlogin).
  - intros pw. apply String.eqb_refl.
  - reflexivity.
  - destruct (Hlogin Demo.anonymous) as [_ Huser].
    simpl in Hname. inversion Hname as [Hu].
    change (r_username Demo.bob) with (Some "bob") in Huser.
    change (r_password Demo.bob) with (Some "s3cret") in Huser.
    rewrite Huser. simpl. rewrite <- Hu. reflexivity.
Defined.

(** Login and logout write nothing to the store and keep the cart token
    of the cookie.  A login changes who is logged in only to a user whose
    username was given and whose stored hash verifies the given password;
    the logout of a logged-in user leaves nobody logged in. *)
Theorem login_logout_sessions check method username password fs d :
  (snd (login_view check method username password fs d) = d /\
   cart_session (snd (fst (login_view check method username password fs d)))
   = cart_session fs /\
   (login_id (snd (fst (login_view check method username password fs d)))
    = login_id fs \/
    exists name pw user,
      username = Some name /\ password = Some pw /\
      user_by_username d name = Some user /\
      check (User.password_hash user) pw = true /\
      login_id (snd (fst (login_view check method username password fs d)))
      = Some (User.id user))) /\
  (snd (logout fs d) = d /\
   cart_session (snd (fst (logout fs d))) = cart_session fs /\
   current_user (snd (fst (logout fs d))) d = None).
Proof.
  split.
  - unfold login_view. destruct method; [simpl; auto|].
    destruct username as [name|]; [|simpl; auto].
    destruct (user_by_username d name) as [user|] eqn:Euser; [|simpl; auto].
    destruct password as [pw|]; [|simpl; auto].
    destruct (check (User.password_hash user) pw) eqn:Echeck; [|simpl; auto].
    simpl. repeat split. right. exists name, pw, user. auto.
  - unfold logout, login_required_further.
    destruct (current_user fs d) eqn:E; simpl; auto.
Qed.

(** ** The admin's products *)

Lemma find_replace_row {A} (key : A -> Z) (k : Z) (f : A -> A) rows :
  (forall r, key r = k -> key (f r) = k) ->
  find (fun r => key r =? k) (update_row key k f rows)
  = option_map f (find (fun r => key r =? k) rows).
Proof.
  intros Hkey. unfold update_row.
  induction rows as [|r rows IH]; simpl; [reflexivity|].
  destruct (key r =? k) eqn:E.
  - apply Z.eqb_eq in E. rewrite (Hkey r E), Z.eqb_refl. reflexivity.
  - rewrite E. exact IH.
Qed.

Lemma find_replace_row_other {A} (key : A -> Z) (k j : Z) (f : A -> A) rows :
  (forall r, key r = k -> key (f r) = k) -> j <> k ->
  find (fun r => key r =? j) (update_row key k f rows)
  = find (fun r => key r =? j) rows.
Proof.
  intros Hkey Hjk. unfold update_row.
  induction rows as [|r rows IH]; simpl; [reflexivity|].
  destruct (key r =? k) eqn:E.
  - apply Z.eqb_eq in E. rewrite (Hkey r E).
    destruct (Z.eqb_spec k j) as [Heq|_]; [congruence|].
    destruct (Z.eqb_spec (key r) j) as [Heq|_]; [congruence|exact IH].
  - destruct (key r =? j); [reflexivity|exact IH].
Qed.

Lemma find_delete_row_other {A} (key : A -> Z) (k j : Z) rows :
  j <> k ->
  find (fun r => key r =? j) (delete_row key k rows)
  = find (fun r => key r =? j) rows.
Proof.
  intros Hjk. unfold delete_row.
  induction rows as [|r rows IH]; simpl; [reflexivity|].
  destruct (Z.eqb_spec (key r) k) as [Hk|Hk]; simpl.
  - destruct (Z.eqb_spec (key r) j) as [Hj|_]; [congruence|exact IH].
  - destruct (key r =? j); [reflexivity|exact IH].
Qed.

(** [strip] on ASCII blanks, on the no-break space, on the ideographic
    space U+3000, and on the zero-width space U+200B, which is no white
    space to Python and stays. *)
Example strip_scenario :
  strip "  a b  " = "a b" /\
  strip (String "009"%char nbsp ++ String "010"%char "") = "" /\
  strip (nbsp ++ "a" ++ nbsp ++ "b" ++ nbsp) = "a" ++ nbsp ++ "b" /\
  strip (String "227" (String "128" (String "128" "x")))%char = "x" /\
  strip (String "226" (String "128" (String "139" "x")))%char
  = String "226" (String "128" (String "139" "x"))%char.
Proof. vm_compute. repeat split; reflexivity. Qed.

(** An admin's edit of an existing product with name, category and price
    in the form, when the commit does not raise: the product carries the
    fields of the form under its old id, the price as the column stores
    it, which is the price of the form unless that is the negative zero;
    its image is the stored upload, else the text of the form without the
    white space around it when that is not empty, else the image it had;
    every other product and every other table is untouched. *)
Theorem admin_edit_product_updates env pid form fs d admin product name
  category price :
  current_user fs d = Some admin -> User.is_admin admin = true ->
  get_product d pid = Some product ->
  f_name form = Some name -> f_category form = Some category ->
  f_price form = Some price ->
  raises env 0 = None ->
  let d' := snd (admin_edit_product env pid POST form fs d) in
  let image_url :=
    match snd (handle_upload form) with
    | Some url => Some url
    | None =>
        if String.eqb (strip (get_or_else (f_image_url form) "")) ""
        then Product.image_url product
        else Some (strip (get_or_else (f_image_url form) ""))
    end in
  get_product d' pid
  = Some (Product.mk pid name (f_description form) category
            (if PrimFloat.eqb price 0 then 0%float else price)
            (f_stock form) image_url
            (match f_is_available form with
             | Some v => String.eqb v "on"
             | None => false
             end)) /\
  (forall other, other <> pid -> get_product d' other = get_product d other) /\
  users d' = users d /\ cart_items d' = cart_items d /\
  orders d' = orders d /\ order_items d' = order_items d.
Proof.
  intros Hadmin Hflag Hproduct Hname Hcat Hprice Hquiet. cbv zeta.
  unfold admin_edit_product, login_required, admin_required.
  rewrite Hadmin, Hflag, Hproduct, Hname, Hcat, Hprice.
  destruct (handle_upload form) as [flashed_ uploaded].
  cbn [snd].
  match goal with |- context [try_except ?b d] =>
    assert (Htry : exists f,
              try_except b d = (Done name, f d) /\
              f = (fun t =>
                     with_products
                       (update_row Product.id pid
                          (fun _ =>
                             Product.mk pid name (f_description form)
                               category (stored_float price) (f_stock form)
                               match uploaded with
                               | Some url => Some url
                               | None =>
                                   if String.eqb
                                        (strip
                                           (get_or_else (f_image_url form)
                                              "")) ""
                                   then Product.image_url product
                                   else
                                     Some
                                       (strip
                                          (get_or_else (f_image_url form)
                                             ""))
                               end
                               match f_is_available form with
                               | Some v => String.eqb v "on"
                               | None => false
                               end) (products t)) t))
  end.
  { eexists. split; [|reflexivity].
    unfold try_except, session_commit, bind, modify, fault_point, begin, ret.
    simpl. rewrite Hquiet. reflexivity. }
  destruct Htry as (f & -> & ->). cbn [snd].
  unfold get_product. cbn [products users cart_items orders order_items
                           with_products].
  split; [|split; [|auto]].
  - rewrite find_replace_row by reflexivity.
    fold (get_product d pid). rewrite Hproduct. reflexivity.
  - intros other Hother. apply find_replace_row_other; [reflexivity|].
    exact Hother.
Qed.

(** The admin renames the apples and raises their price, with a text file
    as upload and blanks as image text: the file is refused, the price is
    written and the image stays.  So it does when the image text is a
    tab, a no-break space and a line end; an address between no-break
    spaces is stored without them; a price of -0.0 is stored as 0.0. *)
Lemma admin_edit_product_updates_witness :
  get_product
    (snd (admin_edit_product Sample.quiet 1 POST
            (mkProductForm (Some "Red Apples") None (Some "fruit")
               (Some 9.99%float) (Some 50) (Some "on") (Some "  ")
               (Some (mkUpload "notes.txt" "notes.txt" None))
               "20240101_120000")
            Sample.root_browser Sample.store)) 1
  = Some (Product.mk 1 "Red Apples" None "fruit" 9.99%float (Some 50)
            (Some "/static/images/apple.jpg") true) /\
  get_product
    (snd (admin_edit_product Sample.quiet 1 POST
            (mkProductForm (Some "Red Apples") None (Some "fruit")
               (Some (PrimFloat.opp 0%float)) (Some 50) None
               (Some (String "009"%char nbsp ++ String "010"%char ""))
               None "20240101_120000")
            Sample.root_browser Sample.store)) 1
  = Some (Product.mk 1 "Red Apples" None "fruit" 0%float (Some 50)
            (Some "/static/images/apple.jpg") false) /\
  option_map Product.image_url
    (get_product
       (snd (admin_edit_product Sample.quiet 1 POST
               (mkProductForm (Some "Red Apples") None (Some "fruit")
                  (Some 9.99%float) (Some 50) (Some "on")
                  (Some (nbsp ++ "/static/images/red.jpg" ++ nbsp))
                  None "20240101_120000")
               Sample.root_browser Sample.store)) 1)
  = Some (Some "/static/images/red.jpg").
Proof.
  split; [|split].
  - destruct (admin_edit_product_updates Sample.quiet 1
                (mkProductForm (Some "Red Apples") None (Some "fruit")
                   (Some 9.99%float) (Some 50) (Some "on") (Some "  ")
                   (Some (mkUpload "notes.txt" "notes.txt" None))
                   "20240101_120000")
                Sample.root_browser Sample.store Sample.root Sample.apples
                "Red Apples" "fruit" 9.99%float
                eq_refl eq_refl eq_refl eq_refl eq_refl eq_refl eq_refl)
      as [H _].
    rewrite H. reflexivity.
  - destruct (admin_edit_product_updates Sample.quiet 1
                (mkProductForm (Some "Red Apples") None (Some "fruit")
                   (Some (PrimFloat.opp 0%float)) (Some 50) None
                   (Some (String "009"%char nbsp ++ String "010"%char ""))
                   None "20240101_120000")
                Sample.root_browser Sample.store Sample.root Sample.apples
                "Red Apples" "fruit" (PrimFloat.opp 0%float)
                eq_refl eq_refl eq_refl eq_refl eq_refl eq_refl eq_refl)
      as [H _].
    rewrite H. reflexivity.
  - destruct (admin_edit_product_updates Sample.quiet 1
                (mkProductForm (Some "Red Apples") None (Some "fruit")
                   (Some 9.99%float) (Some 50) (Some "on")
                   (Some (nbsp ++ "/static/images/red.jpg" ++ nbsp))
                   None "20240101_120000")
                Sample.root_browser Sample.store Sample.root Sample.apples
                "Red Apples" "fruit" 9.99%float
                eq_refl eq_refl eq_refl eq_refl eq_refl eq_refl eq_refl)
      as [H _].
    rewrite H. reflexivity.
Defined.

(** An admin's edit whose form lacks the name, the category or the price
    fails at the commit: the editor is shown again with the product as it
    was and the error, and nothing is written. *)
Theorem admin_edit_product_needs_fields env pid form fs d admin product :
  current_user fs d = Some admin -> User.is_admin admin = true ->
  get_product d pid = Some product ->
  f_name form = None \/ f_category form = None \/ f_price form = None ->
  exists e,
    admin_edit_product env pid POST form fs d
    = (Render
         (app (fst (handle_upload form))
            [("Error updating product: " ++ e, "error")])
         (admin_edit_product_html product), fs, d).
Proof.
  intros Hadmin Hflag Hproduct Hnull.
  unfold admin_edit_product, login_required, admin_required.
  rewrite Hadmin, Hflag, Hproduct.
  destruct (handle_upload form) as [flashed_ uploaded]. cbn [fst].
  assert (Hbody :
    forall body : Work string,
      body = (fault_point env ;; raise "NOT NULL constraint failed") ->
      exists e, try_except body d = (Raised e, d)).
  { intros body ->. unfold try_except, bind, fault_point, raise, begin.
    simpl. destruct (raises env 0); eexists; reflexivity. }
  destruct (f_name form) as [name|];
    [destruct (f_category form) as [category|];
     [destruct (f_price form) as [price|];
      [destruct Hnull as [H|[H|H]]; discriminate H|]|]|];
    (destruct (Hbody _ eq_refl) as [e He]; rewrite He; exists e;
     reflexivity).
Qed.

(** The price field of the edit form is not a number. *)
Lemma admin_edit_product_needs_fields_witness :
  snd (admin_edit_product Sample.quiet 1 POST
         (mkProductForm (Some "Red Apples") None (Some "fruit") None
            (Some 50) (Some "on") None None "20240101_120000")
         Sample.root_browser Sample.store) = Sample.store.
Proof.
  destruct (admin_edit_product_needs_fields Sample.quiet 1
              (mkProductForm (Some "Red Apples") None (Some "fruit") None
                 (Some 50) (Some "on") None None "20240101_120000")
              Sample.root_browser Sample.store Sample.root Sample.apples
              eq_refl eq_refl eq_refl (or_intror (or_intror eq_refl)))
    as [e He].
  rewrite He. reflexivity.
Defined.

(** An admin's POST to the form of a new product is refused, with nothing
    written, when the name or the category is missing or empty or the
    price or the stock is no number; a price or a stock of zero is not
    refused. *)
Theorem admin_add_product_validates env form fs d admin :
  current_user fs d = Some admin -> User.is_admin admin = true ->
  (admin_add_product env POST form fs d
   = (redirect_further [("All required fields must be filled.", "error")]
        admin_add_product_page, fs, d)
   <->
   truthy (f_name form) = false \/ truthy (f_category form) = false \/
   f_price form = None \/ f_stock form = None).
Proof.
  intros Hadmin Hflag.
  unfold admin_add_product, login_required_further, admin_required_further.
  rewrite Hadmin, Hflag.
  destruct (f_price form) as [price|]; [|split; auto].
  destruct (f_stock form) as [stock|]; [|split; auto].
  destruct (truthy (f_name form)); [|split; auto].
  destruct (truthy (f_category form)); [|split; auto].
  cbn [andb]. destruct (handle_upload form) as [flashed_ uploaded].
  split.
  - destruct (try_except _ d) as [[u|e] d1]; discriminate.
  - intros [H|[H|[H|H]]]; discriminate H.
Qed.

(** The admin offers pears for nothing, with no stock yet: accepted; then
    with no name: refused. *)
Lemma admin_add_product_validates_witness :
  fst (fst (admin_add_product Sample.quiet POST
              (mkProductForm (Some "Pears") None (Some "fruit")
                 (Some 0%float) (Some 0) None None None "20240101_120000")
              Sample.root_browser Sample.store))
  <> redirect_further [("All required fields must be filled.", "error")]
       admin_add_product_page /\
  snd (admin_add_product Sample.quiet POST
         (mkProductForm (Some "") None (Some "fruit")
            (Some 0%float) (Some 0) None None None "20240101_120000")
         Sample.root_browser Sample.store) = Sample.store.
Proof.
  split.
  - discriminate.
  - destruct (admin_add_product_validates Sample.quiet
                (mkProductForm (Some "") None (Some "fruit")
                   (Some 0%float) (Some 0) None None None "20240101_120000")
                Sample.root_browser Sample.store Sample.root
                eq_refl eq_refl) as [_ H].
    rewrite H; [reflexivity|]. left. reflexivity.
Defined.

(** An admin's POST of a complete form, when nothing raises, adds one
    product under a fresh id: available, with the fields of the form, the
    price as the column stores it, which is the price of the form unless
    that is the negative zero, and with an image that is never empty: the
    address of the stored upload; else the text of the form without the
    white space around it; else, when that is empty, the placeholder. *)
Theorem admin_add_product_adds env form fs d admin name category price
  stock :
  current_user fs d = Some admin -> User.is_admin admin = true ->
  f_name form = Some name -> name <> "" ->
  f_category form = Some category -> category <> "" ->
  f_price form = Some price -> f_stock form = Some stock ->
  raises env 0 = None -> raises env 1 = None -> raises env 2 = None ->
  exists image_url,
    snd (admin_add_product env POST form fs d)
    = with_products
        (products d ++
         [Product.mk (fresh_id (map Product.id (products d))) name
            (f_description form) category
            (if PrimFloat.eqb price 0 then 0%float else price) (Some stock)
            (Some image_url) true])%list d /\
    image_url <> "" /\
    (forall url, snd (handle_upload form) = Some url -> url <> "" ->
     image_url = url) /\
    (snd (handle_upload form) = None ->
     strip (get_or_else (f_image_url form) "") <> "" ->
     image_url = strip (get_or_else (f_image_url form) "")) /\
    (snd (handle_upload form) = None ->
     strip (get_or_else (f_image_url form) "") = "" ->
     image_url = "/static/images/placeholder.jpg").
Proof.
  intros Hadmin Hflag Hname Hne Hcat Hce Hprice Hstock H0 H1 H2.
  unfold admin_add_product, login_required_further, admin_required_further.
  rewrite Hadmin, Hflag, Hname, Hcat, Hprice, Hstock.
  apply String.eqb_neq in Hne, Hce. cbn [truthy]. rewrite Hne, Hce.
  cbn [negb andb get_or_else].
  destruct (handle_upload form) as [flashed_ uploaded]. cbn [snd].
  unfold session_add_product. rewrite try_insert_commit, H0, H1, H2.
  cbn [snd]. eexists. split; [reflexivity|].
  split; [|split; [|split]].
  - match goal with |- (if ?b then _ else _) <> _ =>
      destruct b eqn:E end; [discriminate|].
    apply String.eqb_neq. exact E.
  - intros url -> Hurl. cbn [get_or_else].
    apply String.eqb_neq in Hurl. rewrite Hurl. reflexivity.
  - intros -> Htext. cbn [get_or_else].
    apply String.eqb_neq in Htext. rewrite Htext. reflexivity.
  - intros -> Hblank. cbn [get_or_else]. rewrite Hblank. reflexivity.
Qed.

(** Pears, with a blank as image text, get the placeholder, and so do
    plums, whose image text is a no-break space; their price of -0.0 is
    stored as 0.0.  Figs keep their address, without the no-break space
    before it. *)
Lemma admin_add_product_adds_witness :
  map (fun p => (Product.id p, Product.name p, Product.image_url p))
    (products
       (snd (admin_add_product Sample.quiet POST
               (mkProductForm (Some "Pears") None (Some "fruit")
                  (Some 2.49%float) (Some 30) None (Some " ") None
                  "20240101_120000")
               Sample.root_browser Sample.store)))
  = [(1, "Red Apples", Some "/static/images/apple.jpg");
     (2, "Bananas", Some "/static/images/banana.jpg");
     (3, "Carrots", Some "/static/images/carrot.jpg");
     (4, "Pears", Some "/static/images/placeholder.jpg")] /\
  get_product
    (snd (admin_add_product Sample.quiet POST
            (mkProductForm (Some "Plums") None (Some "fruit")
               (Some (PrimFloat.opp 0%float)) (Some 30) None (Some nbsp)
               None "20240101_120000")
            Sample.root_browser Sample.store)) 4
  = Some (Product.mk 4 "Plums" None "fruit" 0%float (Some 30)
            (Some "/static/images/placeholder.jpg") true) /\
  get_product
    (snd (admin_add_product Sample.quiet POST
            (mkProductForm (Some "Figs") None (Some "fruit")
               (Some 3.5%float) (Some 30) None
               (Some (nbsp ++ "/static/images/fig.jpg")) None
               "20240101_120000")
            Sample.root_browser Sample.store)) 4
  = Some (Product.mk 4 "Figs" None "fruit" 3.5%float (Some 30)
            (Some "/static/images/fig.jpg") true).
Proof.
  assert (Hpears : "Pears" <> "") by discriminate.
  assert (Hplums : "Plums" <> "") by discriminate.
  assert (Hfigs : "Figs" <> "") by discriminate.
  assert (Hcategory : "fruit" <> "") by discriminate.
  assert (Htext : strip (nbsp ++ "/static/images/fig.jpg") <> "")
    by (vm_compute; discriminate).
  split; [|split].
  - destruct (admin_add_product_adds Sample.quiet
                (mkProductForm (Some "Pears") None (Some "fruit")
                   (Some 2.49%float) (Some 30) None (Some " ") None
                   "20240101_120000")
                Sample.root_browser Sample.store Sample.root "Pears" "fruit"
                2.49%float 30 eq_refl eq_refl eq_refl Hpears eq_refl
                Hcategory eq_refl eq_refl eq_refl eq_refl eq_refl)
      as (image_url & Hd & _ & _ & _ & Himage).
    rewrite Hd, (Himage eq_refl eq_refl). reflexivity.
  - destruct (admin_add_product_adds Sample.quiet
                (mkProductForm (Some "Plums") None (Some "fruit")
                   (Some (PrimFloat.opp 0%float)) (Some 30) None (Some nbsp)
                   None "20240101_120000")
                Sample.root_browser Sample.store Sample.root "Plums" "fruit"
                (PrimFloat.opp 0%float) 30 eq_refl eq_refl eq_refl Hplums
                eq_refl Hcategory eq_refl eq_refl eq_refl eq_refl eq_refl)
      as (image_url & Hd & _ & _ & _ & Himage).
    rewrite Hd, (Himage eq_refl eq_refl). reflexivity.
  - destruct (admin_add_product_adds Sample.quiet
                (mkProductForm (Some "Figs") None (Some "fruit")
                   (Some 3.5%float) (Some 30) None
                   (Some (nbsp ++ "/static/images/fig.jpg")) None
                   "20240101_120000")
                Sample.root_browser Sample.store Sample.root "Figs" "fruit"
                3.5%float 30 eq_refl eq_refl eq_refl Hfigs eq_refl
                Hcategory eq_refl eq_refl eq_refl eq_refl eq_refl)
      as (image_url & Hd & _ & _ & Himage & _).
    rewrite Hd, (Himage eq_refl Htext). reflexivity.
Defined.

(** The deletion of a product by an admin, when nothing raises, takes the
    product away together with every cart row and every order item of
    it, and nothing else: orders, users, the other products and the rows
    of the other products stay. *)
Theorem admin_delete_product_cascades env pid fs d admin product :
  current_user fs d = Some admin -> User.is_admin admin = true ->
  get_product d pid = Some product ->
  raises env 0 = None -> raises env 1 = None ->
  let d' := snd (admin_delete_product env pid fs d) in
  get_product d' pid = None /\
  (forall other, other <> pid -> get_product d' other = get_product d other) /\
  cart_items d'
  = filter (fun c => negb (CartItem.product_id c =? pid)) (cart_items d) /\
  order_items d'
  = filter (fun i => negb (OrderItem.product_id i =? pid)) (order_items d) /\
  orders d' = orders d /\
  users d' = users d.
Proof.
  intros Hadmin Hflag Hproduct H0 H1. cbv zeta.
  unfold admin_delete_product, login_required_further,
    admin_required_further.
  rewrite Hadmin, Hflag, Hproduct.
  assert (Hid : Product.id product = pid).
  { unfold get_product in Hproduct. apply find_some in Hproduct.
    apply Z.eqb_eq. tauto. }
  unfold try_except, session_delete_product, session_commit, bind, modify,
    fault_point, begin.
  simpl. rewrite H0. simpl. rewrite H1. simpl. rewrite Hid.
  unfold get_product. simpl. repeat split.
  - apply find_delete_row.
  - intros other Hother. apply find_delete_row_other. exact Hother.
Qed.

(** After Alice's order the admin deletes the apples: the order keeps its
    total of 15.97, and of its two items the banana is left. *)
Lemma admin_delete_product_cascades_witness :
  let d' := snd (admin_delete_product Sample.quiet 1 Sample.root_browser
                   Sample.store_after_checkout) in
  get_product d' 1 = None /\
  map Order.total_amount (orders d') = [15.97%float] /\
  map OrderItem.product_id (items_of d' 1) = [2].
Proof.
  destruct (admin_delete_product_cascades Sample.quiet 1
              Sample.root_browser Sample.store_after_checkout Sample.root
              Sample.apples eq_refl eq_refl eq_refl eq_refl eq_refl)
    as (Hgone & _ & _ & Hitems & Horders & _).
  cbv zeta. split; [exact Hgone|]. split.
  - rewrite Horders. reflexivity.
  - unfold items_of. rewrite Hitems. reflexivity.
Defined.

(** ** The command line *)

Lemma clean_commit env : raises_clean (session_commit env).
Proof.
  intros s e s' H. unfold session_commit, bind, fault_point in H.
  destruct (raises env (emitted s)); inversion H; reflexivity.
Qed.

Lemma keeps_session_add_product env name descr category price stock image
  available :
  keeps_persisted
    (session_add_product env name descr category price stock image
       available).
Proof. unfold session_add_product. auto with work. Qed.

(** [seed_db] leaves a store that has a product alone.  For a store with
    none it adds, when nothing raises, the six sample products under the
    ids 1 to 6, all available, and nothing else; a second run then changes
    nothing.  When it raises, nothing is written. *)
Theorem seed_db_seeds_once env d :
  (products d <> [] -> seed_db env d = (Done "Database already seeded.", d)) /\
  (products d = [] -> never_raises env ->
   fst (seed_db env d) = Done "Database seeded with sample products." /\
   map (fun p => (Product.id p, Product.name p, Product.category p,
                  Product.price p, Product.stock p, Product.is_available p))
     (products (snd (seed_db env d)))
   = map (fun '(name, category, price, stock, _, _, k) =>
            (k, name, category, price, Some stock, true))
       (combine sample_products [1; 2; 3; 4; 5; 6]) /\
   with_products (products d) (snd (seed_db env d)) = d /\
   forall env',
     seed_db env' (snd (seed_db env d))
     = (Done "Database already seeded.", snd (seed_db env d))) /\
  (forall e, fst (seed_db env d) = Raised e -> snd (seed_db env d) = d).
Proof.
  split; [|split].
  - unfold seed_db. destruct (products d); [contradiction|reflexivity].
  - intros Hempty Hquiet. destruct d as [us ps cs os its].
    simpl in Hempty. subst ps.
    unfold never_raises in Hquiet. unfold seed_db. cbn [products].
    cbv [forM_ sample_products session_add_product session_commit bind
         modify fault_point begin ret emitted persisted txn].
    repeat match goal with
           | |- context [raises env ?k] => rewrite (Hquiet k); cbv beta iota
           end.
    cbn. auto.
  - intros e He. unfold seed_db in *.
    destruct (products d); [|discriminate].
    match goal with |- context [?body (begin d)] =>
      assert (Hclean : raises_clean body)
    end.
    { apply clean_bind.
      { apply keeps_forM_. intros x. apply keeps_fault_point. }
      intros _. apply clean_bind; [|intros _; apply clean_commit].
      apply keeps_forM_. intros [[[[[name cat] price] stock] descr] img].
      apply keeps_session_add_product. }
    match goal with |- context [?body (begin d)] =>
      destruct (body (begin d)) as [[u|e'] s] eqn:E
    end; [discriminate|].
    simpl. exact (Hclean _ _ _ E).
Qed.

(** The empty store is seeded. *)
Lemma seed_db_seeds_once_witness :
  map Product.name
    (products (snd (seed_db Sample.quiet (mkDB [] [] [] [] []))))
  = ["Red Apples"; "Bananas"; "Carrots"; "Tomatoes"; "Strawberries";
     "Lettuce"] /\
  snd (seed_db Sample.quiet Sample.store) = Sample.store.
Proof.
  destruct (seed_db_seeds_once Sample.quiet (mkDB [] [] [] [] []))
    as (_ & Hseed & _).
  destruct (seed_db_seeds_once Sample.quiet Sample.store) as (Hkeep & _).
  split.
  - destruct (Hseed eq_refl (fun k => eq_refl)) as (_ & Hrows & _).
    apply (f_equal (map (fun x => snd (fst (fst (fst (fst x))))))) in Hrows.
    rewrite map_map in Hrows. exact Hrows.
  - rewrite Hkeep; [reflexivity|discriminate].
Defined.

(** [create_admin] answers that the user exists and writes nothing when
    the username is taken; otherwise, when nothing raises, it adds one
    user, an admin, with the hash of the password; when it raises, nothing
    is written. *)
Theorem create_admin_outcomes env hash username email password d :
  (user_by_username d username <> None ->
   create_admin env hash username email password d
   = (Done ("User " ++ username ++ " already exists."), d)) /\
  (user_by_username d username = None ->
   raises env 0 = None -> raises env 1 = None -> raises env 2 = None ->
   create_admin env hash username email password d
   = (Done ("Admin user " ++ username ++ " created successfully!"),
      with_users
        (users d ++
         [User.mk (fresh_id (map User.id (users d))) username email
            (hash password) None None true])%list d)) /\
  (forall e,
     fst (create_admin env hash username email password d) = Raised e ->
     snd (create_admin env hash username email password d) = d).
Proof.
  unfold create_admin, session_add_user. rewrite run_insert_commit.
  split; [|split].
  - destruct (user_by_username d username); [reflexivity|contradiction].
  - intros -> -> -> ->. reflexivity.
  - intros e. destruct (user_by_username d username); [discriminate|].
    destruct (raises env 0); [reflexivity|].
    destruct (raises env 1); [reflexivity|].
    destruct (raises env 2); [reflexivity|discriminate].
Qed.

(** A second root is refused; carol becomes an admin. *)
Lemma create_admin_outcomes_witness :
  snd (create_admin Sample.quiet Demo.toy_hash "root" "r2@example.com" "pw"
         Sample.store) = Sample.store /\
  map (fun u => (User.username u, User.is_admin u))
    (users (snd (create_admin Sample.quiet Demo.toy_hash "carol"
                   "carol@example.com" "pw" Sample.store)))
  = [("alice", false); ("root", true); ("carol", true)].
Proof.
  destruct (create_admin_outcomes Sample.quiet Demo.toy_hash "root"
              "r2@example.com" "pw" Sample.store) as (Htaken & _).
  destruct (create_admin_outcomes Sample.quiet Demo.toy_hash "carol"
              "carol@example.com" "pw" Sample.store) as (_ & Hnew & _).
  split.
  - rewrite Htaken; [reflexivity|discriminate].
  - rewrite (Hnew eq_refl eq_refl eq_refl eq_refl). reflexivity.
Defined.

(** ** The invariants of the store under single writes *)

Lemma writes_one d d' : write1 d d' -> writes d d'.
Proof. intros H. eapply writes_step; [exact H|apply writes_none]. Qed.

Lemma writes_trans a b c : writes a b -> writes b c -> writes a c.
Proof.
  induction 1 as [|d1 d2 d3 H1 _ IH]; intros H; [exact H|].
  eapply writes_step; [exact H1|]. apply IH. exact H.
Qed.

Lemma writes_snoc a b c : writes a b -> write1 b c -> writes a c.
Proof.
  intros Hab Hbc. eapply writes_trans; [exact Hab|].
  apply writes_one. exact Hbc.
Qed.

Lemma Forall_filter_sub {A} (P : A -> Prop) (f : A -> bool) xs :
  Forall P xs -> Forall P (filter f xs).
Proof.
  induction 1 as [|x xs Hx _ IH]; simpl; [constructor|].
  destruct (f x); [constructor; assumption|exact IH].
Qed.

Lemma Forall_update_row {A} (P : A -> Prop) (key : A -> Z) k f rows :
  (forall r, P r -> P (f r)) -> Forall P rows ->
  Forall P (update_row key k f rows).
Proof.
  intros Hf H. unfold update_row. apply Forall_map.
  revert H. apply Forall_impl. intros r Hr.
  destruct (key r =? k); auto.
Qed.

Lemma map_update_row {A B} (g : A -> B) (key : A -> Z) k f rows :
  (forall r, key r = k -> g (f r) = g r) ->
  map g (update_row key k f rows) = map g rows.
Proof.
  intros Hg. unfold update_row. rewrite map_map. apply map_ext_in.
  intros r _. destruct (Z.eqb_spec (key r) k); auto.
Qed.

Lemma NoDup_snoc {A} (xs : list A) x :
  NoDup xs -> ~ In x xs -> NoDup (xs ++ [x]).
Proof.
  induction 1 as [|y xs Hy Hnd IH]; intros Hx; simpl.
  - constructor; [intros []|constructor].
  - constructor.
    + intros Hin. apply in_app_or in Hin. destruct Hin as [Hin|[->|[]]].
      * contradiction.
      * apply Hx. left. reflexivity.
    + apply IH. intros Hin. apply Hx. right. exact Hin.
Qed.

Lemma NoDup_map_filter {A B} (g : A -> B) (f : A -> bool) xs :
  NoDup (map g xs) -> NoDup (map g (filter f xs)).
Proof.
  induction xs as [|x xs IH]; simpl; intros H; [constructor|].
  inversion H as [|? ? Hnotin Hnd]; subst.
  destruct (f x); simpl; [|auto].
  constructor; [|auto].
  intros Hin. apply Hnotin. apply in_map_iff in Hin.
  destruct Hin as (y & Hy & Hin). apply filter_In in Hin.
  rewrite <- Hy. apply in_map. tauto.
Qed.

Lemma fresh_id_not_in ids : ~ In (fresh_id ids) ids.
Proof. intros H. apply fresh_id_above in H. lia. Qed.

Lemma find_app_keeps {A} (f : A -> bool) xs ys :
  find f xs <> None -> find f (xs ++ ys) <> None.
Proof.
  induction xs as [|x xs IH]; simpl; [contradiction|].
  destruct (f x); [discriminate|exact IH].
Qed.

Lemma get_product_replaced d pid row j :
  Product.id row = pid ->
  get_product d j <> None ->
  get_product
    (with_products (update_row Product.id pid (fun _ => row) (products d)) d)
    j <> None.
Proof.
  intros Hrow Hj. unfold get_product in *. simpl.
  destruct (Z.eq_dec j pid) as [->|Hne].
  - rewrite find_replace_row by auto.
    destruct (find _ (products d)); [discriminate|contradiction].
  - rewrite find_replace_row_other by auto. exact Hj.
Qed.

(** A single write keeps every cart row at one unit or more. *)
Lemma write1_cart_quantities_positive d d' :
  write1 d d' -> cart_quantities_positive d -> cart_quantities_positive d'.
Proof.
  unfold cart_quantities_positive.
  intros Hw Hinv. destruct Hw; simpl; try exact Hinv.
  - apply Forall_app. split; [exact Hinv|]. constructor; [assumption|].
    constructor.
  - unfold update_row. apply Forall_map. revert Hinv. apply Forall_impl.
    intros r Hr. destruct (CartItem.id r =? k); simpl; lia.
  - apply Forall_update_row; [|exact Hinv]. intros r _. simpl. assumption.
  - apply Forall_filter_sub. exact Hinv.
  - apply Forall_filter_sub. exact Hinv.
Qed.

(** A single write keeps the cart rows at one per token and product. *)
Lemma write1_cart_keys_unique d d' :
  write1 d d' -> cart_keys_unique d -> cart_keys_unique d'.
Proof.
  unfold cart_keys_unique.
  intros Hw Hinv. destruct Hw; simpl; try exact Hinv.
  - rewrite map_app. simpl. apply NoDup_snoc; [exact Hinv|].
    intros Hin. apply in_map_iff in Hin. destruct Hin as (c & Hc & Hin).
    inversion Hc as [[Hs Hp]].
    match goal with H : find _ _ = None |- _ =>
      pose proof (find_none _ _ H c Hin) as Hnone end.
    simpl in Hnone. rewrite Hs, Hp, String.eqb_refl, Z.eqb_refl in Hnone.
    discriminate.
  - rewrite map_update_row; [exact Hinv|reflexivity].
  - rewrite map_update_row; [exact Hinv|reflexivity].
  - apply NoDup_map_filter. exact Hinv.
  - apply NoDup_map_filter. exact Hinv.
Qed.

(** A single write keeps the primary keys of each table distinct. *)
Lemma write1_primary_keys_unique d d' :
  write1 d d' -> primary_keys_unique d -> primary_keys_unique d'.
Proof.
  unfold primary_keys_unique.
  intros Hw (Hu & Hp & Hc & Ho & Hi).
  destruct Hw; simpl; repeat split;
    try assumption;
    try (rewrite map_app; simpl; apply NoDup_snoc;
         [assumption|apply fresh_id_not_in]);
    try (rewrite map_update_row; [assumption|]; intros r Hr; simpl; congruence);
    try (apply NoDup_map_filter; assumption).
Qed.

(** A single write keeps every order item with an order of the store. *)
Lemma write1_order_items_owned d d' :
  write1 d d' -> order_items_owned d -> order_items_owned d'.
Proof.
  unfold order_items_owned.
  intros Hw Hinv. destruct Hw; simpl; try exact Hinv.
  - revert Hinv. apply Forall_impl. intros i Hi.
    rewrite map_app. apply in_or_app. left. exact Hi.
  - apply Forall_app. split; [exact Hinv|].
    constructor; [simpl; assumption|constructor].
  - apply Forall_filter_sub. exact Hinv.
  - rewrite map_update_row; [exact Hinv|reflexivity].
Qed.

(** A single write keeps every cart row and every order item with a
    product of the store. *)
Lemma write1_products_referenced d d' :
  write1 d d' -> products_referenced d -> products_referenced d'.
Proof.
  unfold products_referenced.
  intros Hw (Hc & Hi). destruct Hw; try (split; assumption).
  - split; [|exact Hi]. simpl. apply Forall_app. split; [exact Hc|].
    constructor; [simpl; assumption|constructor].
  - split; [|exact Hi]. simpl.
    apply Forall_update_row; [|exact Hc]. intros r Hr. exact Hr.
  - split; [|exact Hi]. simpl.
    apply Forall_update_row; [|exact Hc]. intros r Hr. exact Hr.
  - split; [|exact Hi]. simpl. apply Forall_filter_sub. exact Hc.
  - split; [exact Hc|]. simpl. apply Forall_app. split; [exact Hi|].
    constructor; [simpl; assumption|constructor].
  - split; simpl.
    + revert Hc. apply Forall_impl. intros c.
      apply get_product_replaced. assumption.
    + revert Hi. apply Forall_impl. intros i.
      apply get_product_replaced. assumption.
  - split; simpl.
    + revert Hc. apply Forall_impl. intros c. apply find_app_keeps.
    + revert Hi. apply Forall_impl. intros i. apply find_app_keeps.
  - split; simpl.
    + apply Forall_forall. intros c Hin. apply filter_In in Hin.
      destruct Hin as [Hin Hne]. apply negb_true_iff, Z.eqb_neq in Hne.
      rewrite Forall_forall in Hc. specialize (Hc c Hin).
      unfold get_product in *. simpl.
      rewrite find_delete_row_other by exact Hne. exact Hc.
    + apply Forall_forall. intros i Hin. apply filter_In in Hin.
      destruct Hin as [Hin Hne]. apply negb_true_iff, Z.eqb_neq in Hne.
      rewrite Forall_forall in Hi. specialize (Hi i Hin).
      unfold get_product in *. simpl.
      rewrite find_delete_row_other by exact Hne. exact Hi.
Qed.

(** A single write keeps the usernames distinct. *)
Lemma write1_usernames_unique d d' :
  write1 d d' -> usernames_unique d -> usernames_unique d'.
Proof.
  unfold usernames_unique.
  intros Hw Hinv. destruct Hw; simpl; try exact Hinv.
  - rewrite map_update_row; [exact Hinv|reflexivity].
  - rewrite map_app. simpl. apply NoDup_snoc; [exact Hinv|].
    intros Hin. apply in_map_iff in Hin. destruct Hin as (u & Hu & Hin).
    match goal with H : user_by_username _ _ = None |- _ =>
      pose proof (find_none _ _ H u Hin) as Hnone end.
    simpl in Hnone. rewrite Hu, String.eqb_refl in Hnone. discriminate.
Qed.

Lemma writes_keep (P : DB -> Prop) :
  (forall d d', write1 d d' -> P d -> P d') ->
  forall d d', writes d d' -> P d -> P d'.
Proof.
  intros Hstep d d' Hw. induction Hw as [|d1 d2 d3 H1 _ IH]; [auto|].
  intros H. apply IH. exact (Hstep _ _ H1 H).
Qed.

(** ** What each handler writes *)

Lemma try_build_add_commit env f d :
  snd (try_except
         ((fault_point env ;; (fault_point env ;; modify f)) ;;
          session_commit env) d) = d \/
  snd (try_except
         ((fault_point env ;; (fault_point env ;; modify f)) ;;
          session_commit env) d) = f d.
Proof.
  unfold try_except, session_commit, bind, modify, fault_point, begin.
  simpl. destruct (raises env 0); [left; reflexivity|]. simpl.
  destruct (raises env 1); [left; reflexivity|]. simpl.
  destruct (raises env 2); [left|right]; reflexivity.
Qed.

Lemma try_write_commit env f d :
  snd (try_except ((fault_point env ;; modify f) ;; session_commit env) d)
  = d \/
  snd (try_except ((fault_point env ;; modify f) ;; session_commit env) d)
  = f d.
Proof.
  unfold try_except, session_commit, bind, modify, fault_point, begin.
  simpl. destruct (raises env 0); [left; reflexivity|]. simpl.
  destruct (raises env 1); [left|right]; reflexivity.
Qed.

Lemma add_to_cart_writes env pid q fs d :
  writes d (snd (add_to_cart env pid q fs d)).
Proof.
  unfold add_to_cart.
  destruct (get_product d pid) as [p|] eqn:Hp; [|apply writes_none].
  destruct (Product.stock p) as [stock|]; [|apply writes_none].
  rewrite clamp_is_max.
  destruct (_ >? stock); [apply writes_none|].
  destruct (get_session_id env fs) as [sid fs1].
  destruct (find _ (cart_items d)) as [c|] eqn:Hfind.
  - rewrite try_modify_commit.
    destruct (raises env 0); [apply writes_none|]. simpl.
    apply writes_one. apply cart_bump. lia.
  - unfold session_add_cart_item.
    match goal with
    | |- context [try_except ((fault_point env ;;
                               (fault_point env ;; modify ?f)) ;;
                              session_commit env) d] =>
        destruct (try_build_add_commit env f d) as [Hc|Hc];
        destruct (try_except ((fault_point env ;;
                               (fault_point env ;; modify f)) ;;
                              session_commit env) d) as [[x|e] d1]
    end; simpl in *; subst d1; try apply writes_none;
      (apply writes_one; apply cart_insert;
       [lia|exact Hfind|rewrite Hp; discriminate]).
Qed.

Lemma update_cart_item_writes env k q fs d :
  writes d (snd (update_cart_item env k q fs d)).
Proof.
  unfold update_cart_item.
  destruct (get_cart_item d k) as [c|]; [|apply writes_none].
  destruct (get_product d _) as [p|]; [|apply writes_none].
  destruct (Product.stock p) as [stock|]; [|apply writes_none].
  rewrite clamp_is_max.
  destruct (_ >? stock); [apply writes_none|].
  rewrite try_modify_commit.
  destruct (raises env 0); [apply writes_none|]. simpl.
  apply writes_one. apply cart_set. lia.
Qed.

Lemma remove_from_cart_writes env k fs d :
  writes d (snd (remove_from_cart env k fs d)).
Proof.
  unfold remove_from_cart.
  destruct (get_cart_item d k) as [c|]; [|apply writes_none].
  destruct (get_product d _) as [p|]; [|apply writes_none].
  rewrite try_delete_commit.
  destruct (raises env 0); [apply writes_none|].
  destruct (raises env 1); [apply writes_none|]. simpl.
  apply writes_one. apply cart_delete.
Qed.

Lemma admin_edit_product_writes env pid method form fs d :
  writes d (snd (admin_edit_product env pid method form fs d)).
Proof.
  unfold admin_edit_product, login_required, admin_required.
  destruct (current_user fs d) as [u|]; [|apply writes_none].
  destruct (User.is_admin u); [|apply writes_none].
  destruct (get_product d pid) as [p|]; [|apply writes_none].
  destruct method; [apply writes_none|].
  destruct (handle_upload form) as [flashed_ uploaded].
  destruct (f_name form) as [name|], (f_category form) as [category|],
    (f_price form) as [price|];
    unfold try_except, session_commit, bind, modify, fault_point, raise,
      ret, begin; simpl;
    destruct (raises env 0); simpl; try apply writes_none.
  apply writes_one. apply product_set. reflexivity.
Qed.

Lemma admin_update_order_status_writes env oid st fs d :
  writes d (snd (admin_update_order_status env oid st fs d)).
Proof.
  unfold admin_update_order_status, login_required, admin_required.
  destruct (current_user fs d) as [u|]; [|apply writes_none].
  destruct (User.is_admin u); [|apply writes_none].
  destruct (get_order d oid) as [o|]; [|apply writes_none].
  destruct st as [st|]; [|apply writes_none].
  destruct (existsb (String.eqb st) ORDER_STATUSES) eqn:Est;
    [|apply writes_none].
  rewrite try_modify_commit.
  destruct (raises env 0); [apply writes_none|]. simpl.
  apply writes_one. apply status_set. apply status_accepted. exact Est.
Qed.

Lemma admin_toggle_admin_writes env uid fs d :
  writes d (snd (admin_toggle_admin env uid fs d)).
Proof.
  unfold admin_toggle_admin, login_required, admin_required.
  destruct (current_user fs d) as [u|] eqn:Hu; [|apply writes_none].
  destruct (User.is_admin u) eqn:Hflag; [|apply writes_none].
  destruct (uid =? User.id u) eqn:Hself; [apply writes_none|].
  destruct (get_user d uid) as [target|]; [|apply writes_none].
  rewrite try_modify_commit.
  destruct (raises env 0); [apply writes_none|]. simpl.
  apply writes_one. apply (admin_flag_set d uid _ u).
  - unfold current_user in Hu. destruct (login_id fs); [|discriminate].
    apply find_some in Hu. tauto.
  - exact Hflag.
  - apply Z.eqb_neq in Hself. congruence.
Qed.

Lemma register_writes env hash method form fs d :
  writes d (snd (register env hash method form fs d)).
Proof.
  destruct (register_adds_plain_user env hash method form fs d)
    as [->|(u & pw & -> & Hid & _ & _ & _ & _ & _ & _ & _ & _ & _ & Hfree
            & _)]; [apply writes_none|].
  apply writes_one. destruct u as [k name mail h fn ln flag].
  simpl in *. subst k. apply user_insert. exact Hfree.
Qed.

Lemma admin_add_product_writes env method form fs d :
  writes d (snd (admin_add_product env method form fs d)).
Proof.
  unfold admin_add_product, login_required_further, admin_required_further.
  destruct (current_user fs d) as [u|]; [|apply writes_none].
  destruct (User.is_admin u); [|apply writes_none].
  destruct method; [apply writes_none|].
  destruct (f_price form) as [price|]; [|apply writes_none].
  destruct (f_stock form) as [stock|]; [|apply writes_none].
  destruct (truthy (f_name form) && truthy (f_category form));
    [|apply writes_none].
  destruct (handle_upload form) as [flashed_ uploaded].
  unfold session_add_product. rewrite try_insert_commit.
  destruct (raises env 0); [apply writes_none|].
  destruct (raises env 1); [apply writes_none|].
  destruct (raises env 2); [apply writes_none|]. simpl.
  apply writes_one. apply product_insert.
Qed.

Lemma admin_delete_product_writes env pid fs d :
  writes d (snd (admin_delete_product env pid fs d)).
Proof.
  unfold admin_delete_product, login_required_further,
    admin_required_further.
  destruct (current_user fs d) as [u|]; [|apply writes_none].
  destruct (User.is_admin u); [|apply writes_none].
  destruct (get_product d pid) as [p|]; [|apply writes_none].
  unfold session_delete_product.
  match goal with |- context [try_except ((fault_point env ;; modify ?f) ;;
                                          session_commit env) d] =>
    destruct (try_write_commit env f d) as [Hc|Hc];
    destruct (try_except ((fault_point env ;; modify f) ;;
                          session_commit env) d) as [[x|e] d1]
  end; simpl in *; subst d1; try apply writes_none;
    apply writes_one; apply product_delete.
Qed.

Lemma create_admin_writes env hash username email password d :
  writes d (snd (create_admin env hash username email password d)).
Proof.
  unfold create_admin, session_add_user. rewrite run_insert_commit.
  destruct (user_by_username d username) eqn:Hfree; [apply writes_none|].
  destruct (raises env 0); [apply writes_none|].
  destruct (raises env 1); [apply writes_none|].
  destruct (raises env 2); [apply writes_none|]. simpl.
  apply writes_one. apply user_insert. exact Hfree.
Qed.

Lemma seed_db_writes env d : writes d (snd (seed_db env d)).
Proof.
  unfold seed_db. destruct (products d); [|apply writes_none].
  match goal with |- context [?body (begin d)] =>
    assert (Hkeeps : preserves (writes d) body)
  end.
  { apply preserves_bind.
    { apply preserves_forM_. intros x. apply preserves_fault_point. }
    intros _. apply preserves_bind; [|intros _; apply preserves_session_commit].
    apply preserves_forM_. intros [[[[[name cat] price] stock] descr] img].
    unfold session_add_product.
    apply preserves_bind; [apply preserves_fault_point|]. intros _.
    apply preserves_modify. intros v Hv. eapply writes_snoc; [exact Hv|].
    apply product_insert. }
  match goal with |- context [?body (begin d)] =>
    destruct (body (begin d)) as [[u|e] s] eqn:E
  end; simpl;
    destruct (Hkeeps _ _ _ E (writes_none d) (writes_none d)) as [Hp _];
    exact Hp.
Qed.

Lemma insert_items_writes oid items d :
  In oid (map Order.id (orders d)) ->
  Forall (fun item => get_product d (fst (fst item)) <> None) items ->
  writes d (fold_left (fun d item => insert_order_item oid item d) items d).
Proof.
  revert d. induction items as [|[[pid q] pr] items IH]; intros d Hoid Hall.
  - apply writes_none.
  - inversion Hall as [|? ? Hp Hrest]; subst. simpl fold_left.
    eapply writes_step.
    + apply (order_item_insert d oid pid q pr); [exact Hoid|exact Hp].
    + apply IH; [exact Hoid|exact Hrest].
Qed.

Lemma forM_delete_writes env cart s u s' :
  forM_ cart (session_delete_cart_item env) s = (Done u, s') ->
  writes (txn s) (txn s').
Proof.
  revert s. induction cart as [|c cart IH]; intros s H; simpl in H.
  - inversion H; subst. apply writes_none.
  - apply bind_done in H. destruct H as (u1 & s1 & Hdel & H).
    unfold session_delete_cart_item in Hdel.
    apply bind_done in Hdel. destruct Hdel as (u2 & s2 & Hfp & Hmod).
    apply fault_point_done in Hfp. destruct Hfp as [_ Ht].
    unfold modify in Hmod. inversion Hmod; subst u1 s1. clear Hmod.
    eapply writes_step; [|exact (IH _ H)]. simpl. rewrite Ht.
    apply cart_delete.
Qed.

(** What a finished [try] block of checkout has persisted is reached from
    the store by single writes: the order, its items, the cart
    deletions. *)
Lemma place_order_writes env uid cart addr notes d oid s :
  place_order env uid cart addr notes (begin d) = (Done oid, s) ->
  writes d (persisted s).
Proof.
  unfold place_order. intros H.
  apply bind_done in H. destruct H as (subtotals & s1 & Hsub & H).
  assert (Ht1 : txn s1 = d).
  { eapply (mapM_done get_subtotal (fun _ _ => True) d) in Hsub;
      [tauto|apply reads_only_get_subtotal|auto|reflexivity]. }
  apply bind_done in H. destruct H as (u & s2 & Hfp & H).
  apply fault_point_done in Hfp. destruct Hfp as [_ Ht2].
  apply bind_done in H. destruct H as (items & s3 & Hitems & H).
  eapply (mapM_done _
            (fun (c : CartItem.t) (item : Z * Z * float) =>
               get_product d (fst (fst item)) <> None) d) in Hitems;
    [| | |congruence].
  2:{ intros c. apply reads_only_bind; [apply reads_only_product_of|].
      intros p. apply reads_only_bind; [apply reads_only_fault_point|].
      intros _. apply reads_only_ret. }
  2:{ intros c s0 y s0' Ht Hc.
      apply bind_done in Hc. destruct Hc as (p & s0'' & Hp & Hc).
      apply product_of_done in Hp. rewrite Ht in Hp.
      apply bind_done in Hc. destruct Hc as (u' & s0''' & _ & Hc).
      inversion Hc; subst. simpl. rewrite Hp. discriminate. }
  destruct Hitems as (Hitems & _ & Ht3).
  apply bind_done in H. destruct H as (oid' & s4 & Hadd & H).
  apply session_add_order_done in Hadd. destruct Hadd as (Hoid & _ & Ht4).
  apply bind_done in H. destruct H as (u5 & s5 & Hflush & H).
  apply fault_point_done in Hflush. destruct Hflush as [_ Ht5].
  apply bind_done in H. destruct H as (u6 & s6 & Hdel & H).
  apply forM_delete_writes in Hdel.
  apply bind_done in H. destruct H as (u7 & s7 & Hcommit & H).
  apply session_commit_done in Hcommit.
  inversion H; subst oid s. clear H.
  rewrite Hcommit. eapply writes_trans; [|exact Hdel].
  rewrite Ht5, Ht4, Ht3. rewrite Ht3 in Hoid. subst oid'.
  eapply writes_step; [apply order_insert|].
  apply insert_items_writes.
  - simpl. rewrite map_app. apply in_or_app. right. left. reflexivity.
  - clear -Hitems. induction Hitems; constructor; auto.
Qed.

Lemma checkout_writes env method shipping_address notes fs d :
  writes d (snd (checkout env method shipping_address notes fs d)).
Proof.
  unfold checkout, login_required.
  destruct (current_user fs d) as [user|]; [|apply writes_none].
  destruct (get_session_id env fs) as [sid fs1].
  destruct (cart_of d sid) as [|c cart]; [apply writes_none|].
  destruct method.
  - destruct (mapM get_subtotal (c :: cart) (begin d)) as [[?|?] ?];
      apply writes_none.
  - destruct shipping_address as [[|a addr]|]; try apply writes_none.
    unfold try_except.
    destruct (place_order _ _ _ _ _ (begin d)) as [[oid|e] s] eqn:E; simpl.
    + exact (place_order_writes _ _ _ _ _ _ _ _ E).
    + rewrite (clean_place_order _ _ _ _ _ _ _ _ E). apply writes_none.
Qed.

(** Whatever the request, what it leaves in the store is reached from
    what it found by single writes. *)
Lemma store_after_writes hash env r fs d :
  writes d (store_after hash env r fs d).
Proof.
  destruct r as [[]|[]]; simpl.
  - apply add_to_cart_writes.
  - apply update_cart_item_writes.
  - apply remove_from_cart_writes.
  - apply checkout_writes.
  - rewrite (order_confirmation_preserves (fun x => x = d)); [|reflexivity].
    apply writes_none.
  - apply admin_edit_product_writes.
  - apply admin_update_order_status_writes.
  - apply admin_toggle_admin_writes.
  - apply register_writes.
  - apply admin_add_product_writes.
  - apply admin_delete_product_writes.
  - apply seed_db_writes.
  - apply create_admin_writes.
Qed.

Lemma serve_any_writes hash trace d : writes d (serve_any hash trace d).
Proof.
  revert d. induction trace as [|[[env fs] r] trace IH]; intros d; simpl.
  - apply writes_none.
  - eapply writes_trans; [apply store_after_writes|apply IH].
Qed.

(** ** The invariants of the store under every sequence of requests *)

(** No sequence of requests brings a cart row below one unit. *)
Theorem cart_quantities_stay_positive hash trace d :
  cart_quantities_positive d ->
  cart_quantities_positive (serve_any hash trace d).
Proof.
  apply (writes_keep _ write1_cart_quantities_positive).
  apply serve_any_writes.
Qed.

Lemma cart_quantities_stay_positive_witness :
  cart_quantities_positive (serve_any Demo.toy_hash walk Sample.store).
Proof.
  apply cart_quantities_stay_positive.
  unfold cart_quantities_positive. simpl.
  repeat constructor; discriminate.
Defined.

(** No sequence of requests leaves two cart rows for one session token and
    one product: adding to the cart looks the row up before it writes
    one. *)
Theorem cart_keys_stay_unique hash trace d :
  cart_keys_unique d -> cart_keys_unique (serve_any hash trace d).
Proof.
  apply (writes_keep _ write1_cart_keys_unique). apply serve_any_writes.
Qed.

Lemma cart_keys_stay_unique_witness :
  cart_keys_unique (serve_any Demo.toy_hash walk Sample.store).
Proof.
  apply cart_keys_stay_unique.
  unfold cart_keys_unique. simpl.
  repeat constructor; simpl; intuition discriminate.
Defined.

(** No sequence of requests gives two rows of a table the same id. *)
Theorem primary_keys_stay_unique hash trace d :
  primary_keys_unique d -> primary_keys_unique (serve_any hash trace d).
Proof.
  apply (writes_keep _ write1_primary_keys_unique). apply serve_any_writes.
Qed.

Lemma primary_keys_stay_unique_witness :
  primary_keys_unique (serve_any Demo.toy_hash walk Sample.store).
Proof.
  apply primary_keys_stay_unique.
  unfold primary_keys_unique. simpl.
  repeat split; repeat constructor; simpl; intuition discriminate.
Defined.

(** No sequence of requests leaves an order item without its order: the
    hypothesis of the order total is an invariant of the site. *)
Theorem order_items_stay_owned hash trace d :
  order_items_owned d -> order_items_owned (serve_any hash trace d).
Proof.
  apply (writes_keep _ write1_order_items_owned). apply serve_any_writes.
Qed.

Lemma order_items_stay_owned_witness :
  order_items_owned (serve_any Demo.toy_hash walk Sample.store).
Proof.
  apply order_items_stay_owned. constructor.
Defined.

(** No sequence of requests leaves a cart row or an order item without its
    product: the cart takes existing products only, and the deletion of a
    product takes its rows along. *)
Theorem products_stay_referenced hash trace d :
  products_referenced d -> products_referenced (serve_any hash trace d).
Proof.
  apply (writes_keep _ write1_products_referenced). apply serve_any_writes.
Qed.

Lemma products_stay_referenced_witness :
  products_referenced (serve_any Demo.toy_hash walk Sample.store).
Proof.
  apply products_stay_referenced.
  unfold products_referenced. simpl.
  split; repeat constructor; discriminate.
Defined.

(** No sequence of requests gives two users the same username:
    registration and [create_admin] look the name up before they write. *)
Theorem usernames_stay_unique hash trace d :
  usernames_unique d -> usernames_unique (serve_any hash trace d).
Proof.
  apply (writes_keep _ write1_usernames_unique). apply serve_any_writes.
Qed.

Lemma usernames_stay_unique_witness :
  usernames_unique (serve_any Demo.toy_hash walk Sample.store).
Proof.
  apply usernames_stay_unique.
  unfold usernames_unique. simpl.
  repeat constructor; simpl; intuition discriminate.
Defined.

Lemma In_update_row_other {A} (key : A -> Z) k f rows r :
  In r rows -> key r <> k -> In r (update_row key k f rows).
Proof.
  intros Hin Hne. unfold update_row. apply in_map_iff. exists r.
  split; [|exact Hin].
  destruct (Z.eqb_spec (key r) k); [contradiction|reflexivity].
Qed.

(** A single write keeps an admin among the users. *)
Lemma write1_an_admin_exists d d' :
  write1 d d' -> an_admin_exists d -> an_admin_exists d'.
Proof.
  unfold an_admin_exists.
  intros Hw (u & Hin & Hflag).
  destruct Hw; try (exists u; split; [exact Hin|exact Hflag]).
  - exists me. split; [|assumption]. simpl.
    apply In_update_row_other; assumption.
  - exists u. split; [|exact Hflag]. simpl. apply in_or_app. left.
    exact Hin.
Qed.

(** The site never loses its last admin: the role toggle is the one
    write to the flag, the acting admin cannot aim it at the own account,
    and no request deletes a user. *)
Theorem an_admin_stays hash trace d :
  an_admin_exists d -> an_admin_exists (serve_any hash trace d).
Proof.
  apply (writes_keep _ write1_an_admin_exists). apply serve_any_writes.
Qed.

(** The only admin tries the toggle on every account, the own one
    included. *)
Lemma an_admin_stays_witness :
  an_admin_exists
    (serve_any Demo.toy_hash
       [(Sample.quiet, Sample.root_browser,
         above (req_admin_toggle_admin 2));
        (Sample.quiet, Sample.root_browser,
         above (req_admin_toggle_admin 1));
        (Sample.quiet, Sample.root_browser,
         above (req_admin_toggle_admin 2))]
       Sample.store).
Proof.
  apply an_admin_stays. exists Sample.root.
  split; [right; left; reflexivity|reflexivity].
Defined.

(** ** Order totals over time *)

Lemma totals_consistent_frame d d' :
  orders d' = orders d -> order_items d' = order_items d ->
  totals_consistent d -> totals_consistent d'.
Proof.
  unfold totals_consistent, calculate_total, items_of.
  intros -> ->. auto.
Qed.

Lemma handle_orders_owned env r fs d :
  order_items_owned d -> order_items_owned (snd (handle env r fs d)).
Proof.
  apply (writes_keep _ write1_order_items_owned).
  exact (store_after_writes (fun s => s) env (above r) fs d).
Qed.

Lemma checkout_totals env method shipping_address notes fs d :
  order_items_owned d -> totals_consistent d ->
  totals_consistent (snd (checkout env method shipping_address notes fs d)).
Proof.
  intros Hfk Htot. unfold checkout, login_required.
  destruct (current_user fs d) as [user|]; [|exact Htot].
  destruct (get_session_id env fs) as [sid fs1].
  destruct (cart_of d sid) as [|c cart]; [exact Htot|].
  destruct method.
  - destruct (mapM get_subtotal (c :: cart) (begin d)) as [[?|?] ?];
      exact Htot.
  - destruct shipping_address as [[|a addr]|]; try exact Htot.
    unfold try_except.
    destruct (place_order _ _ _ _ _ (begin d)) as [[oid|e] s] eqn:E; simpl.
    2:{ rewrite (clean_place_order _ _ _ _ _ _ _ _ E). exact Htot. }
    apply place_order_done in E.
    destruct E as (rows & Hoid & Horders & Hitems & Hsnap).
    assert (Hrows : Forall (fun i => OrderItem.order_id i = oid) rows).
    { clear -Hsnap. induction Hsnap as [|c0 row ? ? Hs _ IH];
        constructor; [apply Hs|exact IH]. }
    unfold totals_consistent, calculate_total, items_of in *.
    rewrite Horders, Hitems. apply Forall_app. split.
    + rewrite Forall_forall in Htot. apply Forall_forall. intros o Ho.
      rewrite (Htot o Ho), filter_app.
      rewrite (filter_none _ rows), app_nil_r; [reflexivity|].
      intros i Hi. rewrite Forall_forall in Hrows. rewrite (Hrows i Hi).
      apply (in_map Order.id) in Ho. apply fresh_id_above in Ho.
      apply Z.eqb_neq. lia.
    + constructor; [|constructor]. simpl. rewrite filter_app.
      rewrite filter_none, filter_all; [reflexivity| |].
      * revert Hrows. apply Forall_impl. intros i ->. apply Z.eqb_refl.
      * intros i Hi. unfold order_items_owned in Hfk.
        rewrite Forall_forall in Hfk. specialize (Hfk i Hi).
        apply fresh_id_above in Hfk. apply Z.eqb_neq. lia.
Qed.

Lemma admin_update_order_status_totals env oid st fs d :
  totals_consistent d ->
  totals_consistent (snd (admin_update_order_status env oid st fs d)).
Proof.
  intros Htot.
  unfold admin_update_order_status, login_required, admin_required.
  destruct (current_user fs d) as [u|]; [|exact Htot].
  destruct (User.is_admin u); [|exact Htot].
  destruct (get_order d oid) as [o|]; [|exact Htot].
  destruct st as [st|]; [|exact Htot].
  destruct (existsb (String.eqb st) ORDER_STATUSES); [|exact Htot].
  rewrite try_modify_commit.
  destruct (raises env 0); [exact Htot|]. simpl.
  unfold totals_consistent, calculate_total, items_of, update_row in *.
  simpl. apply Forall_map. revert Htot. apply Forall_impl. intros x Hx.
  destruct (Order.id x =? oid); exact Hx.
Qed.

Lemma handle_totals env r fs d :
  order_items_owned d -> totals_consistent d ->
  totals_consistent (snd (handle env r fs d)).
Proof.
  intros Hfk Htot.
  assert (Hframe :
    forall d', orders d' = orders d /\ order_items d' = order_items d ->
               totals_consistent d').
  { intros d' [Ho Hi]. exact (totals_consistent_frame d d' Ho Hi Htot). }
  destruct r; simpl.
  - apply Hframe.
    apply (add_to_cart_preserves
             (fun x => orders x = orders d /\ order_items x = order_items d));
      auto.
  - apply Hframe.
    apply (update_cart_item_preserves
             (fun x => orders x = orders d /\ order_items x = order_items d));
      auto.
  - apply Hframe.
    apply (remove_from_cart_preserves
             (fun x => orders x = orders d /\ order_items x = order_items d));
      auto.
  - apply checkout_totals; assumption.
  - apply Hframe.
    apply (order_confirmation_preserves
             (fun x => orders x = orders d /\ order_items x = order_items d));
      auto.
  - apply Hframe.
    apply (admin_edit_product_preserves
             (fun x => orders x = orders d /\ order_items x = order_items d));
      auto.
  - apply admin_update_order_status_totals. exact Htot.
  - apply Hframe.
    apply (admin_toggle_admin_preserves
             (fun x => orders x = orders d /\ order_items x = order_items d));
      auto.
Qed.

(** Across the cart, checkout, order, product-edit, status and role
    routes, every order's [total_amount] stays the sum of price times
    quantity over its items: a later order, a status change or a price
    edit does not touch the agreement.  (The deletion of a product does:
    it takes order items away and leaves the total.) *)
Theorem order_totals_stay_consistent trace d :
  order_items_owned d -> totals_consistent d ->
  totals_consistent (serve trace d) /\ order_items_owned (serve trace d).
Proof.
  revert d. induction trace as [|[[env fs] r] trace IH]; intros d Hfk Htot;
    simpl.
  - auto.
  - apply IH; [apply handle_orders_owned|apply handle_totals]; assumption.
Qed.

(** After Alice's order: the price of the apples is raised, Alice orders
    carrots, the first order is shipped. *)
Lemma order_totals_stay_consistent_witness :
  totals_consistent
    (serve
       [(Sample.quiet, Sample.root_browser,
         req_admin_edit_product 1 POST Sample.dearer_apples);
        (Sample.quiet, Sample.alice_browser, req_add_to_cart 3 (Some 4));
        (Sample.quiet, Sample.alice_browser,
         req_checkout POST (Some "123 Main St") None);
        (Sample.quiet, Sample.root_browser,
         req_admin_update_order_status 1 (Some "shipped"))]
       Sample.store_after_checkout).
Proof.
  apply order_totals_stay_consistent.
  - repeat constructor.
  - repeat constructor.
Defined.

(** ** Adding to the cart, once more *)

(** Sixty apples are refused, fifty are not. *)
Lemma add_to_cart_checks_request_only_witness :
  InsufficientStock
    (fst (fst (add_to_cart Sample.quiet 1 (Some 60) Sample.root_browser
                 Sample.store))) /\
  ~ InsufficientStock
      (fst (fst (add_to_cart Sample.quiet 1 (Some 50) Sample.root_browser
                   Sample.store))).
Proof.
  split.
  - apply (add_to_cart_checks_request_only Sample.quiet 1 (Some 60)
             Sample.root_browser Sample.store Sample.apples 50 eq_refl
             eq_refl).
    reflexivity.
  - intros H.
    apply (add_to_cart_checks_request_only Sample.quiet 1 (Some 50)
             Sample.root_browser Sample.store Sample.apples 50 eq_refl
             eq_refl) in H.
    revert H. discriminate.
Defined.

(** The admin's browser, whose cart is empty, takes three carrots. *)
Lemma add_to_cart_new_row_witness :
  cart_items
    (snd (add_to_cart Sample.quiet 3 (Some 3) Sample.root_browser
            Sample.store))
  = [CartItem.mk 1 Sample.token 1 2; CartItem.mk 2 Sample.token 2 1;
     CartItem.mk 3 Sample.other_token 3 3].
Proof.
  assert (Hle : Z.max 1 (get_or_else (Some 3) 1) <= 80) by discriminate.
  rewrite (add_to_cart_new_row Sample.quiet 3 (Some 3) Sample.root_browser
             Sample.store Sample.carrots 80 eq_refl eq_refl Hle eq_refl
             eq_refl eq_refl eq_refl).
  reflexivity.
Defined.
